(** * UdaPlay agent: orchestration core

    A shallow embedding of the orchestration core of the UdaPlay research
    agent (state machine, vector-store ingestion, memory store, retrieval and
    evaluation tools, and the agent's query pipeline), with the properties
    its specification states about it.

    Conventions of the embedding.
    - Python values that travel as JSON are terms of [json]; a dict is an
      association list whose keys are unique (kept so by [dict_set]).
    - Python floats and ints are rationals ([Q]); non-finite floats and
      rounding are outside the model.
    - Strings are byte strings; [len], slicing and [lower] act on bytes, which
      agrees with Python on ASCII text.
    - A Python method is a computation in the monad [M S]: it threads the
      state [S] it can touch and either returns a value or raises an
      exception; effects made before an exception is raised are kept.
    - The wall clock, the file system's write permissions, hashing and the
      remote services are oracles: nothing is assumed about what they
      return. *)

From Stdlib Require Import QArith Ascii String.
From stdpp Require Import gmap strings list fin_maps pretty.

Set Warnings "-register-all".
Local Close Scope Q_scope.
Local Open Scope list_scope.
Local Open Scope string_scope.

(** ** Exceptions and the state-and-exception monad *)

(** A raised Python exception: its class name and [str(e)]. *)
Record exn := Exn { exn_class : string; exn_str : string }.

Inductive result (A : Type) :=
| Ok (a : A)
| Raise (e : exn).
Arguments Ok {A} a.
Arguments Raise {A} e.

Definition M (S A : Type) : Type := S -> result A * S.

Definition ret {S A} (a : A) : M S A := fun s => (Ok a, s).

Definition bind {S A B} (m : M S A) (k : A -> M S B) : M S B :=
  fun s => match m s with
           | (Ok a, s') => k a s'
           | (Raise e, s') => (Raise e, s')
           end.

Definition raise {S A} (e : exn) : M S A := fun s => (Raise e, s).

(** [try: m except Exception as e: h e] *)
Definition try_except {S A} (m : M S A) (h : exn -> M S A) : M S A :=
  fun s => match m s with
           | (Ok a, s') => (Ok a, s')
           | (Raise e, s') => h e s'
           end.

Definition get_state_of {S} : M S S := fun s => (Ok s, s).
Definition gets {S A} (f : S -> A) : M S A := fun s => (Ok (f s), s).
Definition modify {S} (f : S -> S) : M S unit := fun s => (Ok tt, f s).

(** Run a computation over a part [T] of the state [S]. *)
Definition zoom {S T A} (proj : S -> T) (upd : T -> S -> S) (m : M T A) : M S A :=
  fun s => let '(r, t') := m (proj s) in (r, upd t' s).

Notation "x <- m ;; k" := (bind m (fun x => k))
  (at level 100, m at next level, right associativity).
Notation "m ;;; k" := (bind m (fun _ => k))
  (at level 100, right associativity).

(** [for x in l: body x] *)
Fixpoint for_each {S A} (l : list A) (body : A -> M S unit) : M S unit :=
  match l with
  | [] => ret tt
  | x :: l' => body x ;;; for_each l' body
  end.

(** ** JSON-shaped Python values *)

Inductive json :=
| JNull
| JBool (b : bool)
| JNum (q : Q)
| JStr (s : string)
| JArr (l : list json)
| JObj (kvs : list (string * json)).

(** What a text file or a tool's string result holds: a JSON document, or
    text that [json.loads] rejects. *)
Inductive text :=
| Doc (j : json)
| Garbage (raw : string).

Definition json_loads {S} (t : text) : M S json :=
  match t with
  | Doc j => ret j
  | Garbage _ => raise (Exn "JSONDecodeError" "Expecting value")
  end.

(** Python truthiness, [bool(v)]. *)
Definition truthy (v : json) : bool :=
  match v with
  | JNull => false
  | JBool b => b
  | JNum q => negb (Qeq_bool q 0)
  | JStr s => negb (String.eqb s "")
  | JArr l => match l with [] => false | _ => true end
  | JObj kvs => match kvs with [] => false | _ => true end
  end.

(** [a or b] *)
Definition py_or (a b : json) : json := if truthy a then a else b.

Fixpoint assoc_get (kvs : list (string * json)) (k : string) : option json :=
  match kvs with
  | [] => None
  | (k', v) :: rest => if String.eqb k' k then Some v else assoc_get rest k
  end.

(** [d[k] = v] on a dict: overwrite in place, or append a new key. *)
Fixpoint dict_set (kvs : list (string * json)) (k : string) (v : json)
  : list (string * json) :=
  match kvs with
  | [] => [(k, v)]
  | (k', v') :: rest =>
      if String.eqb k' k then (k', v) :: rest else (k', v') :: dict_set rest k v
  end.

(** [d.setdefault(k, v)] *)
Definition dict_setdefault (kvs : list (string * json)) (k : string) (v : json)
  : list (string * json) :=
  match assoc_get kvs k with
  | Some _ => kvs
  | None => dict_set kvs k v
  end.

(** [d.update(e)] *)
Definition dict_update (kvs e : list (string * json)) : list (string * json) :=
  fold_left (fun acc kv => dict_set acc (fst kv) (snd kv)) e kvs.

(** [v.get(k, default)]: an [AttributeError] unless [v] is a dict. *)
Definition py_get {S} (v : json) (k : string) (default : json) : M S json :=
  match v with
  | JObj kvs => ret (match assoc_get kvs k with Some x => x | None => default end)
  | _ => raise (Exn "AttributeError" "object has no attribute 'get'")
  end.

(** [v[k]] for a string key: [KeyError] on a dict without the key,
    [TypeError] on anything that is not a dict. *)
Definition py_item {S} (v : json) (k : string) : M S json :=
  match v with
  | JObj kvs => match assoc_get kvs k with
                | Some x => ret x
                | None => raise (Exn "KeyError" ("'" ++ k ++ "'"))
                end
  | _ => raise (Exn "TypeError" "indices must be integers or slices, not str")
  end.

(** ** Python string operations (on ASCII text) *)

(** The characters [str.strip()] and [str.split()] treat as blanks. *)
Definition is_space (a : ascii) : bool :=
  let n := nat_of_ascii a in
  (Nat.leb 9 n && Nat.leb n 13) || (Nat.leb 28 n && Nat.leb n 32).

Fixpoint lstrip (s : string) : string :=
  match s with
  | EmptyString => EmptyString
  | String a s' => if is_space a then lstrip s' else s
  end.

Definition string_rev (s : string) : string :=
  string_of_list_ascii (rev (list_ascii_of_string s)).

(** [s.strip()] *)
Definition py_strip (s : string) : string :=
  string_rev (lstrip (string_rev (lstrip s))).

(** [s[:n]] *)
Definition py_take (n : nat) (s : string) : string := String.substring 0 n s.

(** [sub in s] for strings *)
Fixpoint py_contains (sub s : string) : bool :=
  String.prefix sub s ||
  match s with
  | EmptyString => false
  | String _ s' => py_contains sub s'
  end.

Definition lower_ascii (a : ascii) : ascii :=
  let n := nat_of_ascii a in
  if Nat.leb 65 n && Nat.leb n 90 then ascii_of_nat (n + 32) else a.

(** [s.lower()] *)
Fixpoint py_lower (s : string) : string :=
  match s with
  | EmptyString => EmptyString
  | String a s' => String (lower_ascii a) (py_lower s')
  end.

(** [v.strip()]: only a string has the method. *)
Definition py_strip_value {S} (v : json) : M S string :=
  match v with
  | JStr s => ret (py_strip s)
  | _ => raise (Exn "AttributeError" "object has no attribute 'strip'")
  end.

(** [v[:n]]: strings and lists can be sliced. *)
Definition py_slice {S} (n : nat) (v : json) : M S json :=
  match v with
  | JStr s => ret (JStr (py_take n s))
  | JArr l => ret (JArr (take n l))
  | _ => raise (Exn "TypeError" "object is not subscriptable")
  end.

(** [k in v] for a string [k]: key of a dict, element of a list, substring
    of a string; a [TypeError] on anything else. *)
Definition py_in {S} (k : string) (v : json) : M S bool :=
  match v with
  | JObj kvs => ret (match assoc_get kvs k with Some _ => true | None => false end)
  | JArr l => ret (existsb (fun x => match x with
                                     | JStr s => String.eqb s k
                                     | _ => false
                                     end) l)
  | JStr s => ret (py_contains k s)
  | _ => raise (Exn "TypeError" "argument is not iterable")
  end.

(** [v[k] = x] for a string [k]: only a dict takes it. *)
Definition py_setitem {S} (v : json) (k : string) (x : json) : M S json :=
  match v with
  | JObj kvs => ret (JObj (dict_set kvs k x))
  | _ => raise (Exn "TypeError" "object does not support item assignment")
  end.

(** [os.path.join(dir, name)] for a relative [name] *)
Definition path_join (dir name : string) : string :=
  if String.eqb dir "" then name
  else if String.eqb (string_rev (py_take 1 (string_rev dir))) "/"
       then dir ++ name
       else dir ++ "/" ++ name.

(** ** More Python operations used by the memory store *)

(** [len(v)] *)
Definition py_len {S} (v : json) : M S nat :=
  match v with
  | JStr s => ret (String.length s)
  | JArr l => ret (length l)
  | JObj kvs => ret (length kvs)
  | _ => raise (Exn "TypeError" "object has no len()")
  end.

(** [v.lower()] *)
Definition py_lower_value {S} (v : json) : M S string :=
  match v with
  | JStr s => ret (py_lower s)
  | _ => raise (Exn "AttributeError" "object has no attribute 'lower'")
  end.

(** A value used as a number: a number, or a bool (0 or 1). *)
Definition py_num {S} (v : json) : M S Q :=
  match v with
  | JNum q => ret q
  | JBool b => ret (if b then 1%Q else 0%Q)
  | _ => raise (Exn "TypeError" "unsupported operand type(s)")
  end.

(** [for x in v]: the elements of a list, the characters of a string, the
    keys of a dict. *)
Definition py_iter {S} (v : json) : M S (list json) :=
  match v with
  | JArr l => ret l
  | JStr s => ret (map (fun a => JStr (String a EmptyString)) (list_ascii_of_string s))
  | JObj kvs => ret (map (fun kv => JStr (fst kv)) kvs)
  | _ => raise (Exn "TypeError" "object is not iterable")
  end.

(** [a == b] on JSON-shaped values: numbers by value ([True == 1]), lists
    element-wise, dicts key by key. *)
Fixpoint py_eq (a b : json) {struct a} : bool :=
  match a, b with
  | JNull, JNull => true
  | JBool x, JBool y => Bool.eqb x y
  | JBool x, JNum q => Qeq_bool (if x then 1%Q else 0%Q) q
  | JNum q, JBool x => Qeq_bool q (if x then 1%Q else 0%Q)
  | JNum p, JNum q => Qeq_bool p q
  | JStr s, JStr t => String.eqb s t
  | JArr l, JArr l' =>
      (fix go (l l' : list json) {struct l} : bool :=
         match l, l' with
         | [], [] => true
         | x :: l, y :: l' => py_eq x y && go l l'
         | _, _ => false
         end) l l'
  | JObj kvs, JObj kvs' =>
      Nat.eqb (length kvs) (length kvs') &&
      (fix all (kvs : list (string * json)) : bool :=
         match kvs with
         | [] => true
         | (k, v) :: rest =>
             match assoc_get kvs' k with
             | Some v' => py_eq v v'
             | None => false
             end && all rest
         end) kvs
  | _, _ => false
  end.

(** [l[-n:]] *)
Definition py_last {A} (n : nat) (l : list A) : list A := drop (length l - n) l.

(** [s.split()]: the maximal runs of non-blank characters. *)
Fixpoint split_go (cur : list ascii) (s : string) : list string :=
  match s with
  | EmptyString =>
      match cur with [] => [] | _ => [string_of_list_ascii (rev cur)] end
  | String a s' =>
      if is_space a
      then match cur with
           | [] => split_go [] s'
           | _ => string_of_list_ascii (rev cur) :: split_go [] s'
           end
      else split_go (a :: cur) s'
  end.

Definition py_split (s : string) : list string := split_go [] s.

(** [l.index(x)] for an [x] known to be in [l]: the first position. *)
Fixpoint list_index (x : string) (l : list string) : nat :=
  match l with
  | [] => 0
  | y :: l' => if String.eqb y x then 0 else S (list_index x l')
  end.

Definition str_in (x : string) (l : list string) : bool :=
  existsb (String.eqb x) l.

(** ** The operating system as the code sees it *)

(** One reading of the wall clock: what [isoformat()] prints for it and the
    epoch time in milliseconds. *)
Record timestamp := Timestamp { iso : string; millis : Z }.

Record os := Os {
  wall_clock : nat -> timestamp;   (* the n-th reading of the clock *)
  clock_reads : nat;               (* readings taken so far *)
  writable : string -> bool;       (* can this path be opened for writing? *)
  files : gmap string text;        (* the files, by path *)
}.

(** [datetime.now()], [time.time()] *)
Definition now : M os timestamp :=
  fun o => (Ok (wall_clock o (clock_reads o)),
            Os (wall_clock o) (S (clock_reads o)) (writable o) (files o)).

(** [with open(path, "w") as f: json.dump(j, f)] *)
Definition write_json (path : string) (j : json) : M os unit :=
  fun o => if writable o path
           then (Ok tt, Os (wall_clock o) (clock_reads o) (writable o)
                           (<[path := Doc j]> (files o)))
           else (Raise (Exn "OSError" "cannot open file for writing"), o).

(** [os.path.exists(path)] *)
Definition path_exists (path : string) : M os bool :=
  gets (fun o => bool_decide (is_Some (files o !! path))).

(** [with open(path) as f: json.load(f)] *)
Definition read_json (path : string) : M os json :=
  t <- gets (fun o => files o !! path) ;;
  match t with
  | Some t => json_loads t
  | None => raise (Exn "FileNotFoundError" path)
  end.

(** ** src/agent/state_machine.py *)

Module StateMachine.

Inductive AgentState := IDLE | RETRIEVING | EVALUATING | WEB_SEARCH | ANSWERING.

#[global] Instance AgentState_eq_dec : EqDecision AgentState.
Proof. solve_decision. Defined.

Definition value (s : AgentState) : string :=
  match s with
  | IDLE => "idle"
  | RETRIEVING => "retrieving"
  | EVALUATING => "evaluating"
  | WEB_SEARCH => "web_search"
  | ANSWERING => "answering"
  end.

Definition _allowed (s : AgentState) : list AgentState :=
  match s with
  | IDLE => [RETRIEVING]
  | RETRIEVING => [EVALUATING]
  | EVALUATING => [WEB_SEARCH; ANSWERING]
  | WEB_SEARCH => [ANSWERING]
  | ANSWERING => [IDLE]
  end.

Record AgentStateMachine := Machine {
  state : AgentState;
  last_transition_time : timestamp;
  _persist_file : option string;
}.

(** The machine together with the operating system it persists to. *)
Record st := St { machine : AgentStateMachine; sys : os }.

Definition on_sys {A} (m : M os A) : M st A :=
  zoom sys (fun o s => St (machine s) o) m.

Definition set_machine (f : AgentStateMachine -> AgentStateMachine) : M st unit :=
  modify (fun s => St (f (machine s)) (sys s)).

(** The JSON document [_persist] writes. *)
Definition state_document (m : AgentStateMachine) : json :=
  JObj [("state", JStr (value (state m)));
        ("last_transition_time", JStr (iso (last_transition_time m)))].

Definition _persist : M st unit :=
  m <- gets machine ;;
  match _persist_file m with
  | None => ret tt
  | Some path =>
      if String.eqb path "" then ret tt
      else try_except (on_sys (write_json path (state_document m)))
                      (fun _ => ret tt)
  end.

Definition persist : M st unit := _persist.

Definition can_transition (target : AgentState) : M st bool :=
  m <- gets machine ;;
  ret (bool_decide (target ∈ _allowed (state m))).

Definition transition (target : AgentState) : M st bool :=
  m <- gets machine ;;
  if bool_decide (target ∈ _allowed (state m)) then
    set_machine (fun m => Machine target (last_transition_time m) (_persist_file m)) ;;;
    t <- on_sys now ;;
    set_machine (fun m => Machine (state m) t (_persist_file m)) ;;;
    _persist ;;;
    ret true
  else ret false.

Definition get_state : M st string :=
  m <- gets machine ;; ret (value (state m)).

Definition reset : M st unit :=
  set_machine (fun m => Machine IDLE (last_transition_time m) (_persist_file m)) ;;;
  t <- on_sys now ;;
  set_machine (fun m => Machine (state m) t (_persist_file m)) ;;;
  _persist.

(** [AgentStateMachine()]: idle, stamped with the time of construction, with
    no persistence file yet. *)
Definition __init__ : M os AgentStateMachine :=
  t <- now ;; ret (Machine IDLE t None).

(** [AgentState(v)]: the member whose value is [v]; a [ValueError] when
    there is none. *)
Definition AgentState_of_value {S} (v : json) : M S AgentState :=
  match v with
  | JStr s =>
      match find (fun a => String.eqb (value a) s)
                 [IDLE; RETRIEVING; EVALUATING; WEB_SEARCH; ANSWERING] with
      | Some a => ret a
      | None => raise (Exn "ValueError" ("'" ++ s ++ "' is not a valid AgentState"))
      end
  | _ => raise (Exn "ValueError" "not a valid AgentState")
  end.

Section Load.

(** [datetime.fromisoformat(s)] on a string: the time it reads, or nothing
    when it raises [ValueError]. *)
Variable fromisoformat : string -> option timestamp.

(** [datetime.fromisoformat(v)]: a [TypeError] unless [v] is a string. *)
Definition parse_time {S} (v : json) : M S timestamp :=
  match v with
  | JStr s => match fromisoformat s with
              | Some t => ret t
              | None => raise (Exn "ValueError" ("Invalid isoformat string: '" ++ s ++ "'"))
              end
  | _ => raise (Exn "TypeError" "fromisoformat: argument must be str")
  end.

Definition load_from_file (persist_file : string) : M st unit :=
  set_machine (fun m => Machine (state m) (last_transition_time m) (Some persist_file)) ;;;
  try_except
    (present <- on_sys (path_exists persist_file) ;;
     if present then
       data <- on_sys (read_json persist_file) ;;
       state_str <- py_get data "state" JNull ;;
       (if truthy state_str then
          target <- AgentState_of_value state_str ;;
          set_machine (fun m => Machine target (last_transition_time m) (_persist_file m))
        else ret tt) ;;;
       ts <- py_get data "last_transition_time" JNull ;;
       (if truthy ts then
          try_except
            (t <- parse_time ts ;;
             set_machine (fun m => Machine (state m) t (_persist_file m)))
            (fun _ =>
               t <- on_sys now ;;
               set_machine (fun m => Machine (state m) t (_persist_file m)))
        else ret tt)
     else ret tt)
    (fun _ => ret tt).

End Load.


(** The transition table of the class docstring, as a relation. *)
Inductive allowed_edge : AgentState -> AgentState -> Prop :=
| edge_idle : allowed_edge IDLE RETRIEVING
| edge_retrieving : allowed_edge RETRIEVING EVALUATING
| edge_evaluating_web : allowed_edge EVALUATING WEB_SEARCH
| edge_evaluating_answer : allowed_edge EVALUATING ANSWERING
| edge_web : allowed_edge WEB_SEARCH ANSWERING
| edge_answering : allowed_edge ANSWERING IDLE.

End StateMachine.

(** ** src/database/vector_store.py: document ingestion *)

Module VectorStore.

(** One record of the Chroma collection. *)
Record chroma_record := ChromaRecord {
  record_id : string;
  record_document : json;
  record_metadata : json;
}.

Record GameVectorStore := Store {
  persist_directory : string;
  collection : list chroma_record;
}.

Record st := St { store : GameVectorStore; sys : os }.

Definition on_sys {A} (m : M os A) : M st A :=
  zoom sys (fun o s => St (store s) o) m.

(** Does the collection hold a record with this id? *)
Definition has_id (c : list chroma_record) (id : string) : bool :=
  existsb (fun r => String.eqb (record_id r) id) c.

Section AddDocument.

(** [hashlib.sha256(s.encode("utf-8")).hexdigest()] *)
Variable sha256_hex : string -> string.

(** The Chroma backend's verdict on [collection.add(ids=[id], ...)]: the
    exception it raises, if any. *)
Variable chroma_add_error : list chroma_record -> chroma_record -> option exn.

(** [collection.add(ids=[id], documents=[...], metadatas=[...])]: the
    backend raises, or it returns; it then has appended the record, unless
    the collection already holds a record with that id, in which case the add
    is silently ignored and the stored record stays. *)
Definition collection_add (r : chroma_record) : M st unit :=
  c <- gets (fun s => collection (store s)) ;;
  match chroma_add_error c r with
  | Some e => raise e
  | None =>
      if has_id c (record_id r) then ret tt
      else modify (fun s => St (Store (persist_directory (store s)) (c ++ [r])%list)
                               (sys s))
  end.

(** [dict(metadata)] *)
Definition dict_copy {S} (v : json) : M S (list (string * json)) :=
  match v with
  | JObj kvs => ret kvs
  | _ => raise (Exn "TypeError" "cannot convert dictionary update sequence")
  end.

(** [s.encode("utf-8")] needs a string. *)
Definition encode_utf8 {S} (v : json) : M S string :=
  match v with
  | JStr s => ret s
  | _ => raise (Exn "AttributeError" "object has no attribute 'encode'")
  end.

Definition _ensure_documents_dir : M st string :=
  d <- gets (fun s => persist_directory (store s)) ;;
  ret (path_join d "documents").

Definition dedup_file_of (dir : string) : string :=
  path_join dir "ingested_index.json".

Definition add_document (content : json) (metadata : json) (doc_id : option string)
  : M st bool :=
  try_except
    (ts <- on_sys now ;;
     md <- dict_copy metadata ;;
     let md := dict_setdefault md "ingested_at" (JStr (iso ts)) in
     snippet <- py_slice 500 content ;;
     let md := dict_setdefault md "snippet" snippet in
     url0 <- py_get (JObj md) "url" JNull ;;
     url <- py_strip_value (py_or url0 (JStr "")) ;;
     title0 <- py_get (JObj md) "title" JNull ;;
     title <- py_strip_value (py_or title0 (JStr "")) ;;
     dup_raw <- (if truthy (py_or (JStr url) (JStr title))
                 then ret (JStr (url ++ "|" ++ title))
                 else py_slice 200 content) ;;
     dup_bytes <- encode_utf8 dup_raw ;;
     let dup_key := sha256_hex dup_bytes in
     dir <- gets (fun s => persist_directory (store s)) ;;
     let dedup_file := dedup_file_of dir in
     present <- on_sys (path_exists dedup_file) ;;
     seen <- (if present
              then try_except (on_sys (read_json dedup_file)) (fun _ => ret (JObj []))
              else ret (JObj [])) ;;
     dup <- py_in dup_key seen ;;
     if dup then ret false
     else
       doc_id <- match doc_id with
                 | Some d => ret d
                 | None => t <- on_sys now ;; ret ("doc_" ++ pretty (millis t))
                 end ;;
       collection_add (ChromaRecord doc_id content (JObj md)) ;;;
       seen <- py_setitem seen dup_key
                 (JObj [("id", JStr doc_id); ("ingested_at", JStr (iso ts));
                        ("title", JStr title); ("url", JStr url)]) ;;
       try_except (on_sys (write_json dedup_file seen)) (fun _ => ret tt) ;;;
       try_except
         (docs_dir <- _ensure_documents_dir ;;
          on_sys (write_json (path_join docs_dir (doc_id ++ ".json"))
                    (JObj [("content", content); ("metadata", JObj md)])))
         (fun _ => ret tt) ;;;
       ret true)
    (fun _ => ret false).

(** src/models/game.py: a validated [Game]. *)
Record Game := MkGame {
  name : string;
  platform : string;
  genre : string;
  publisher : string;
  description : string;
  year_of_release : Z;
}.

(** [game.model_dump()]: the fields under their names. *)
Definition model_dump (game : Game) : json :=
  JObj [("name", JStr (name game)); ("platform", JStr (platform game));
        ("genre", JStr (genre game)); ("publisher", JStr (publisher game));
        ("description", JStr (description game));
        ("year_of_release", JNum (inject_Z (year_of_release game)))].

Definition _create_searchable_content (game : Game) : string :=
  "[" ++ platform game ++ "] " ++ name game ++ " (" ++ pretty (year_of_release game)
  ++ ") - " ++ "Genre: " ++ genre game ++ ", Publisher: " ++ publisher game ++ ". "
  ++ description game.

Definition add_game (game : Game) (doc_id : option string) : M st bool :=
  try_except
    (doc_id <- match doc_id with
               | Some d => ret d
               | None => t <- on_sys now ;; ret ("game_" ++ pretty (millis t))
               end ;;
     let content := _create_searchable_content game in
     collection_add (ChromaRecord doc_id (JStr content) (model_dump game)) ;;;
     try_except
       (docs_dir <- _ensure_documents_dir ;;
        on_sys (write_json (path_join docs_dir (doc_id ++ ".game.json"))
                  (model_dump game)))
       (fun _ => ret tt) ;;;
     ret true)
    (fun _ => ret false).


End AddDocument.

End VectorStore.


(** ** src/tools/advanced_memory.py *)

Module Memory.

(** A user's preference profile. *)
Record UserPrefs := Prefs {
  genres : list string;
  platforms : list string;
  publishers : list string;
  interests : list string;
  last_updated : string;
}.

(** Statistics of one search pattern. *)
Record Pattern := Pat {
  query_pattern : string;
  success_count : Z;
  avg_results : Q;
  last_success : option string;
}.

Record AdvancedMemorySystem := Mem {
  memory_file : string;
  facts_memory : gmap string (list json);
  user_preferences : gmap string UserPrefs;
  conversation_context : list json;
  learned_patterns : gmap string Pattern;
  successful_interactions : list json;
}.

Record st := St { mem : AdvancedMemorySystem; sys : os }.

Definition on_sys {A} (m : M os A) : M st A :=
  zoom sys (fun o s => St (mem s) o) m.

Definition set_mem (f : AdvancedMemorySystem -> AdvancedMemorySystem) : M st unit :=
  modify (fun s => St (f (mem s)) (sys s)).

Definition set_facts (u : string) (l : list json) : M st unit :=
  set_mem (fun m => Mem (memory_file m) (<[u := l]> (facts_memory m))
                        (user_preferences m) (conversation_context m)
                        (learned_patterns m) (successful_interactions m)).

Definition set_prefs (u : string) (p : UserPrefs) : M st unit :=
  set_mem (fun m => Mem (memory_file m) (facts_memory m)
                        (<[u := p]> (user_preferences m)) (conversation_context m)
                        (learned_patterns m) (successful_interactions m)).

Definition set_context (l : list json) : M st unit :=
  set_mem (fun m => Mem (memory_file m) (facts_memory m) (user_preferences m) l
                        (learned_patterns m) (successful_interactions m)).

Definition set_pattern (k : string) (p : Pattern) : M st unit :=
  set_mem (fun m => Mem (memory_file m) (facts_memory m) (user_preferences m)
                        (conversation_context m) (<[k := p]> (learned_patterns m))
                        (successful_interactions m)).

Definition set_interactions (l : list json) : M st unit :=
  set_mem (fun m => Mem (memory_file m) (facts_memory m) (user_preferences m)
                        (conversation_context m) (learned_patterns m) l).

Definition any_in (words : list string) (s : string) : bool :=
  existsb (fun w => py_contains w s) words.

Definition _classify_fact_type (content : json) : M st string :=
  try_except
    (content_lower <- py_lower_value content ;;
     if any_in ["released"; "launch"; "came out"] content_lower then ret "release_info"
     else if any_in ["genre"; "type"; "category"] content_lower then ret "genre_info"
     else if any_in ["platform"; "console"; "system"] content_lower then ret "platform_info"
     else if any_in ["publisher"; "developer"; "studio"] content_lower then ret "publisher_info"
     else if any_in ["review"; "rating"; "score"] content_lower then ret "review_info"
     else ret "general_info")
    (fun _ => ret "general_info").

Definition _extract_fact_from_result (query : string) (result : json)
  : M st (option json) :=
  try_except
    (content <- py_get result "content" (JStr "") ;;
     title <- py_get result "title" (JStr "") ;;
     if negb (truthy content) then ret None
     else
       n <- py_len content ;;
       if Nat.ltb n 50 then ret None
       else
         short <- py_slice 300 content ;;
         source <- py_get result "url" (JStr "") ;;
         t <- on_sys now ;;
         score <- py_get result "relevance_score" (JNum 0.5) ;;
         kind <- _classify_fact_type content ;;
         ret (Some (JObj [("content", short); ("source", source); ("title", title);
                          ("query", JStr query); ("timestamp", JStr (iso t));
                          ("relevance_score", score); ("fact_type", JStr kind)])))
    (fun _ => ret None).

(** The duplicate scan of [_store_fact]: the position of the first stored
    fact whose content equals the new one's, together with that fact, or the
    exception [existing.get] raises on the way. *)
Fixpoint find_duplicate {T} (fact : json) (l : list json) (i : nat)
  : M T (option (nat * json)) :=
  match l with
  | [] => ret None
  | existing :: rest =>
      c <- py_get existing "content" (JStr "") ;;
      c' <- py_get fact "content" (JStr "") ;;
      if py_eq c c' then ret (Some (i, existing))
      else find_duplicate fact rest (S i)
  end.

(** [existing.update(fact)] *)
Definition py_update {S} (existing fact : json) : M S json :=
  match existing, fact with
  | JObj kvs, JObj e => ret (JObj (dict_update kvs e))
  | JObj _, _ => raise (Exn "TypeError" "cannot convert dictionary update sequence")
  | _, _ => raise (Exn "AttributeError" "object has no attribute 'update'")
  end.

Definition _store_fact (fact : json) (user_id : string) : M st unit :=
  try_except
    (known <- gets (fun s => facts_memory (mem s) !! user_id) ;;
     match known with
     | None => set_facts user_id []
     | Some _ => ret tt
     end ;;;
     existing_facts <- gets (fun s => default [] (facts_memory (mem s) !! user_id)) ;;
     dup <- find_duplicate fact existing_facts 0 ;;
     match dup with
     | Some (i, existing) =>
         updated <- py_update existing fact ;;
         set_facts user_id (<[i := updated]> existing_facts)
     | None =>
         set_facts user_id (existing_facts ++ [fact])%list ;;;
         l <- gets (fun s => default [] (facts_memory (mem s) !! user_id)) ;;
         if Nat.ltb 50 (length l) then set_facts user_id (py_last 50 l) else ret tt
     end)
    (fun _ => ret tt).

Definition fresh_prefs (t : timestamp) : UserPrefs := Prefs [] [] [] [] (iso t).

Definition ensure_prefs (user_id : string) : M st UserPrefs :=
  known <- gets (fun s => user_preferences (mem s) !! user_id) ;;
  match known with
  | Some p => ret p
  | None => t <- on_sys now ;;
            set_prefs user_id (fresh_prefs t) ;;;
            ret (fresh_prefs t)
  end.

(** The keywords of [candidates] found in [text] and not yet in [have], each
    appended in turn. *)
Definition add_matches (candidates : list string) (text : string) (have : list string)
  : list string :=
  fold_left (fun acc w => if py_contains w text && negb (str_in w acc)
                          then (acc ++ [w])%list else acc)
            candidates have.

Definition _update_user_preferences (query : string) (results : json) (user_id : string)
  : M st unit :=
  try_except
    (p <- ensure_prefs user_id ;;
     let query_lower := py_lower query in
     let g := add_matches ["action"; "rpg"; "adventure"; "racing"; "sports";
                           "fighting"; "puzzle"; "strategy"] query_lower (genres p) in
     set_prefs user_id (Prefs g (platforms p) (publishers p) (interests p)
                              (last_updated p)) ;;;
     let pl := add_matches ["playstation"; "xbox"; "nintendo"; "pc"; "mobile"]
                           query_lower (platforms p) in
     set_prefs user_id (Prefs g pl (publishers p) (interests p) (last_updated p)) ;;;
     t <- on_sys now ;;
     set_prefs user_id (Prefs g pl (publishers p) (interests p) (iso t)))
    (fun _ => ret tt).

Section Hashing.

(** Python's built-in [hash] on strings. *)
Variable py_hash : string -> Z.

Definition _learn_search_pattern (query : string) (results : json) : M st unit :=
  try_except
    (let pattern_key := "search_pattern_" ++ pretty (py_hash query mod 1000)%Z in
     known <- gets (fun s => learned_patterns (mem s) !! pattern_key) ;;
     pattern <- match known with
                | Some p => ret p
                | None => set_pattern pattern_key (Pat query 0 0 None) ;;;
                          ret (Pat query 0 0 None)
                end ;;
     let pattern := Pat (query_pattern pattern) (success_count pattern + 1)
                        (avg_results pattern) (last_success pattern) in
     set_pattern pattern_key pattern ;;;
     total0 <- py_get results "total_results" (JNum 0) ;;
     total <- py_num total0 ;;
     let pattern := Pat (query_pattern pattern) (success_count pattern)
                        ((avg_results pattern + total) / 2)%Q (last_success pattern) in
     set_pattern pattern_key pattern ;;;
     t <- on_sys now ;;
     set_pattern pattern_key
       (Pat (query_pattern pattern) (success_count pattern) (avg_results pattern)
            (Some (iso t))))
    (fun _ => ret tt).

Definition dict_of_prefs (p : UserPrefs) : json :=
  JObj [("genres", JArr (map JStr (genres p)));
        ("platforms", JArr (map JStr (platforms p)));
        ("publishers", JArr (map JStr (publishers p)));
        ("interests", JArr (map JStr (interests p)));
        ("last_updated", JStr (last_updated p))].

Definition dict_of_pattern (p : Pattern) : json :=
  JObj [("query_pattern", JStr (query_pattern p));
        ("success_count", JNum (inject_Z (success_count p)));
        ("avg_results", JNum (avg_results p));
        ("last_success", match last_success p with
                         | Some t => JStr t
                         | None => JNull
                         end)].

(** The document [_save_memory] dumps. *)
Definition memory_document (m : AdvancedMemorySystem) (t : timestamp) : json :=
  JObj [("facts", JObj (map_to_list (JArr <$> facts_memory m)));
        ("user_preferences", JObj (map_to_list (dict_of_prefs <$> user_preferences m)));
        ("conversation_context", JArr (conversation_context m));
        ("learned_patterns", JObj (map_to_list (dict_of_pattern <$> learned_patterns m)));
        ("successful_interactions", JArr (successful_interactions m));
        ("last_updated", JStr (iso t))].

(** [os.makedirs(os.path.dirname(path), exist_ok=True)]: a path with no
    directory part has the empty dirname, which [makedirs] refuses. *)
Definition make_parent_dir {S} (path : string) : M S unit :=
  if py_contains "/" path then ret tt
  else raise (Exn "FileNotFoundError" "No such file or directory: ''").

Definition _save_memory : M st unit :=
  try_except
    (m <- gets mem ;;
     make_parent_dir (memory_file m) ;;;
     t <- on_sys now ;;
     on_sys (write_json (memory_file m) (memory_document m t)))
    (fun _ => ret tt).

(** [v > 0] *)
Definition py_positive {S} (v : json) : M S bool :=
  q <- py_num v ;; ret (negb (Qle_bool q 0)).

Definition learn_from_web_search (query : string) (results : json) (user_id : string)
  : M st unit :=
  try_except
    (found <- py_get results "results" JNull ;;
     if negb (truthy found) then ret tt
     else
       items <- py_item results "results" ;;
       items <- py_iter items ;;
       for_each items (fun result =>
         fact <- _extract_fact_from_result query result ;;
         match fact with
         | Some f => if truthy f then _store_fact f user_id else ret tt
         | None => ret tt
         end) ;;;
       _update_user_preferences query results user_id ;;;
       total <- py_get results "total_results" (JNum 0) ;;
       positive <- py_positive total ;;
       (if positive then _learn_search_pattern query results else ret tt) ;;;
       _save_memory)
    (fun _ => ret tt).

End Hashing.

Definition _calculate_success_score (response : string) : Q :=
  let score := 0.5%Q in
  let score := if Nat.ltb 100 (String.length response) then (score + 0.2)%Q else score in
  let score := if any_in ["game"; "platform"; "genre"; "publisher"] (py_lower response)
               then (score + 0.2)%Q else score in
  let score := if any_in ["definitely"; "certainly"; "specifically"] (py_lower response)
               then (score + 0.1)%Q else score in
  if Qle_bool 1 score then 1%Q else score.

(** One step of the keyword loop of [_extract_preferences_from_conversation]. *)
Definition add_interest (query_lower : string) (have : list string) (keyword : string)
  : list string :=
  if py_contains keyword query_lower then
    let words := py_split query_lower in
    if str_in keyword words then
      let keyword_index := list_index keyword words in
      match words !! (keyword_index + 1) with
      | Some interest =>
          if str_in interest have then have else (have ++ [interest])%list
      | None => have
      end
    else have
  else have.

Definition _extract_preferences_from_conversation (user_query user_id : string)
  : M st unit :=
  try_except
    (p <- ensure_prefs user_id ;;
     let query_lower := py_lower user_query in
     let i := fold_left (add_interest query_lower)
                        ["like"; "love"; "enjoy"; "favorite"; "prefer"] (interests p) in
     set_prefs user_id (Prefs (genres p) (platforms p) (publishers p) i
                              (last_updated p)))
    (fun _ => ret tt).

Definition _update_conversation_context (user_query agent_response user_id : string)
  : M st unit :=
  try_except
    (t <- on_sys now ;;
     let context_item :=
       JObj [("timestamp", JStr (iso t)); ("user_id", JStr user_id);
             ("user_query", JStr user_query);
             ("agent_response", JStr (py_take 100 agent_response));
             ("context_type", JStr "conversation")] in
     ctx <- gets (fun s => conversation_context (mem s)) ;;
     set_context (ctx ++ [context_item])%list ;;;
     ctx <- gets (fun s => conversation_context (mem s)) ;;
     if Nat.ltb 50 (length ctx) then set_context (py_last 50 ctx) else ret tt)
    (fun _ => ret tt).

Definition learn_from_conversation (user_query agent_response user_id : string)
  : M st unit :=
  try_except
    (t <- on_sys now ;;
     let interaction :=
       JObj [("timestamp", JStr (iso t)); ("user_query", JStr user_query);
             ("agent_response", JStr (py_take 200 agent_response));
             ("user_id", JStr user_id);
             ("success_score", JNum (_calculate_success_score agent_response))] in
     l <- gets (fun s => successful_interactions (mem s)) ;;
     set_interactions (l ++ [interaction])%list ;;;
     l <- gets (fun s => successful_interactions (mem s)) ;;
     (if Nat.ltb 100 (length l) then set_interactions (py_last 100 l) else ret tt) ;;;
     _extract_preferences_from_conversation user_query user_id ;;;
     _update_conversation_context user_query agent_response user_id ;;;
     _save_memory)
    (fun _ => ret tt).

(** The memory [_load_memory] starts from when there is no file to read. *)
Definition empty_memory : json :=
  JObj [("facts", JObj []); ("user_preferences", JObj []);
        ("conversation_context", JArr []); ("learned_patterns", JObj []);
        ("successful_interactions", JArr [])].

Definition _load_memory : M st json :=
  try_except
    (m <- gets mem ;;
     present <- on_sys (path_exists (memory_file m)) ;;
     if present : bool then on_sys (read_json (memory_file m))
     else ret empty_memory)
    (fun _ => ret empty_memory).


End Memory.

(** ** src/database/vector_store.py: search; src/tools/retrieve_game.py *)

Module Retrieval.

(** [l[0]] *)
Definition py_first {S} (v : json) : M S json :=
  match v with
  | JArr (x :: _) => ret x
  | JArr [] => raise (Exn "IndexError" "list index out of range")
  | JStr s => match s with
              | String a _ => ret (JStr (String a EmptyString))
              | EmptyString => raise (Exn "IndexError" "string index out of range")
              end
  | JObj kvs => raise (Exn "KeyError" "0")
  | _ => raise (Exn "TypeError" "object is not subscriptable")
  end.

(** [zip(a, b, c, strict=False)] *)
Fixpoint zip3 {A B C} (a : list A) (b : list B) (c : list C) : list (A * B * C) :=
  match a, b, c with
  | x :: a', y :: b', z :: c' => (x, y, z) :: zip3 a' b' c'
  | _, _, _ => []
  end.

(** [enumerate(l)], counting from [i] *)
Fixpoint enumerate {A} (i : nat) (l : list A) : list (nat * A) :=
  match l with
  | [] => []
  | x :: l' => (i, x) :: enumerate (S i) l'
  end.

(** [for x in l: acc.append(f x)], stopping at the first exception. *)
Fixpoint collect {S A B} (l : list A) (f : A -> M S B) : M S (list B) :=
  match l with
  | [] => ret []
  | x :: l' => y <- f x ;; ys <- collect l' f ;; ret (y :: ys)
  end.

Section Search.

(** The state the search runs in (the remote services keep their own). *)
Context {S : Type}.

(** [collection.query(query_texts=[q], n_results=n, include=[...])]: the
    backend's answer, or the exception it raises. *)
Variable chroma_query : string -> Z -> result json.

(** [Game] built from the metadata and dumped by alias: the validated game under
    its aliases (Name, Platform, ...), or nothing when validation fails. *)
Variable game_by_alias : json -> option json.

(** [GameSearchResult(games=..., query=..., total_results=...,
    confidence_score=..., search_method="vector_db").model_dump_json()]: the
    validated envelope, or nothing when validation fails. *)
Variable search_result_json : list json -> string -> nat -> Q -> option json.

Definition lift_backend {A} (r : result A) : M S A := fun s => (r, s).

(** [d.get(a) or d.get(b) or default] *)
Definition get_either (d : json) (a b : string) (default : json) : M S json :=
  x <- py_get d a JNull ;;
  if truthy x then ret x
  else y <- py_get d b JNull ;;
       ret (py_or y default).

Definition search_entry (i : nat) (doc distance metadata : json) : M S json :=
  let metadata_out := match game_by_alias metadata with
                      | Some g => g
                      | None => metadata
                      end in
  name <- get_either metadata_out "Name" "name" (JStr "") ;;
  platform <- get_either metadata_out "Platform" "platform" (JStr "") ;;
  genre <- get_either metadata_out "Genre" "genre" (JStr "") ;;
  publisher <- get_either metadata_out "Publisher" "publisher" (JStr "") ;;
  description <- get_either metadata_out "Description" "description" (JStr "") ;;
  year <- get_either metadata_out "YearOfRelease" "year_of_release" JNull ;;
  d <- py_num distance ;;
  ret (JObj [("Name", name); ("Platform", platform); ("Genre", genre);
             ("Publisher", publisher); ("Description", description);
             ("YearOfRelease", year); ("content", doc); ("distance", distance);
             ("similarity_score", JNum (1 - d)%Q);
             ("rank", JNum (inject_Z (Z.of_nat (i + 1))))]).

Definition search_games (query : string) (n_results : Z) : M S (list json) :=
  try_except
    (results <- lift_backend (chroma_query query n_results) ;;
     documents <- py_item results "documents" ;;
     if negb (truthy documents) then ret []
     else
       first_documents <- py_first documents ;;
       if negb (truthy first_documents) then ret []
       else
         docs <- (d <- py_item results "documents" ;; d0 <- py_first d ;; py_iter d0) ;;
         distances <- (d <- py_item results "distances" ;; d0 <- py_first d ;; py_iter d0) ;;
         metadatas <- (d <- py_item results "metadatas" ;; d0 <- py_first d ;; py_iter d0) ;;
         collect (enumerate 0 (zip3 docs distances metadatas))
                 (fun '(i, (doc, distance, metadata)) =>
                    search_entry i doc distance metadata))
    (fun _ => ret []).

(** [sum(result["similarity_score"] for result in search_results)] *)
Fixpoint sum_similarity (l : list json) (acc : Q) : M S Q :=
  match l with
  | [] => ret acc
  | r :: l' => v <- py_item r "similarity_score" ;;
               q <- py_num v ;;
               sum_similarity l' (acc + q)%Q
  end.

(** [max(0.0, min(1.0, x))] *)
Definition clamp01 (x : Q) : Q :=
  let m := if Qle_bool 1 x then 1%Q else x in
  if Qle_bool m 0 then 0%Q else m.

Definition empty_envelope (query : string) : json :=
  JObj [("games", JArr []); ("query", JStr query); ("total_results", JNum 0);
        ("confidence_score", JNum 0); ("search_method", JStr "vector_db");
        ("message", JStr "No games found matching the query")].

Definition error_envelope (query : string) (e : exn) : json :=
  JObj [("error", JStr ("Error searching games: " ++ exn_str e));
        ("query", JStr query); ("total_results", JNum 0);
        ("confidence_score", JNum 0); ("search_method", JStr "vector_db")].

(** [RetrieveGameTool.__call__], over the store's [search_games]. *)
Definition retrieve_game_tool (query : string) (n_results : Z) : M S text :=
  try_except
    (search_results <- search_games query n_results ;;
     match search_results with
     | [] => ret (Doc (empty_envelope query))
     | _ =>
         games <- collect search_results (fun r => py_item r "game") ;;
         total <- sum_similarity search_results 0 ;;
         let avg_confidence := (total / inject_Z (Z.of_nat (length search_results)))%Q in
         let avg_confidence := clamp01 avg_confidence in
         match search_result_json games query (length games) avg_confidence with
         | Some j => ret (Doc j)
         | None => raise (Exn "ValidationError" "validation error for GameSearchResult")
         end
     end)
    (fun e => ret (Doc (error_envelope query e))).

End Search.

End Retrieval.

(** ** src/tools/evaluate_retrieval.py *)

Module Evaluation.

(** The tool's view of the world: the prompts sent to the text-generation
    service so far. *)
Record st := St { llm_calls : list string }.

Section Evaluate.

(** [str(v)] as an f-string prints a value. *)
Variable py_str : json -> string.

(** The judge: the content of the service's first choice for a prompt, or
    the exception the call raises. *)
Variable judge : string -> result text.

(** [EvaluationReport(useful=..., description=..., confidence=...,
    recommendation=...).model_dump_json()]: the validated report, or nothing
    when validation fails. *)
Variable report_json : json -> json -> json -> json -> option json.

Definition chat_completion (prompt : string) : M st text :=
  modify (fun s => St (llm_calls s ++ [prompt])%list) ;;;
  (fun s => (judge prompt, s)).

Definition _create_evaluation_report (useful description confidence recommendation : json)
  : M st text :=
  match report_json useful description confidence recommendation with
  | Some j => ret (Doc j)
  | None => raise (Exn "ValidationError" "validation error for EvaluationReport")
  end.

Definition game_lines (i : nat) (game : json) : M st string :=
  name <- py_item game "name" ;;
  platform <- py_item game "platform" ;;
  year <- py_item game "year_of_release" ;;
  genre <- py_item game "genre" ;;
  publisher <- py_item game "publisher" ;;
  description <- py_item game "description" ;;
  ret (pretty i ++ ". " ++ py_str name ++ " (" ++ py_str platform ++ ", "
       ++ py_str year ++ ")" ++ "
   Genre: " ++ py_str genre ++ "
   Publisher: " ++ py_str publisher ++ "
   Description: " ++ py_str description).

Definition _create_evaluation_context (question : string) (games : json) : M st string :=
  items <- py_iter games ;;
  parts <- Retrieval.collect (Retrieval.enumerate 1 items)
             (fun '(i, game) => game_lines i game) ;;
  ret (String.concat "

" (("User Question: " ++ question ++ "

Retrieved Games:") :: parts)).

(** The double quote, which a string literal here cannot hold. *)
Definition dq : string := String (ascii_of_nat 34) EmptyString.

(** The fixed text of the judge's instructions that follows the context. *)
Definition evaluation_criteria : string :=
  "

Please evaluate whether the retrieved game information is sufficient to answer the user's question. Consider:

1. **Relevance**: Do the retrieved games directly relate to what the user is asking?
2. **Completeness**: Is there enough information to provide a comprehensive answer?
3. **Accuracy**: Are the game details accurate and up-to-date?
4. **Specificity**: Does the information match the specific aspects of the question?

IMPORTANT: If the retrieved games contain relevant information that can answer the user's question (even partially), mark as useful. Only recommend web search if:
- No games match the query at all
- The question is about very recent games not in the database
- The question requires current/real-time information (sales, reviews, etc.)
- The question is about technical details not covered in descriptions

Respond with a JSON object containing:
- " ++ dq ++ "useful" ++ dq ++ ": boolean - whether the documents are sufficient to answer the question
- " ++ dq ++ "description" ++ dq ++ ": string - detailed explanation of your evaluation
- " ++ dq ++ "confidence" ++ dq ++ ": float (0.0-1.0) - your confidence in this evaluation
- " ++ dq ++ "recommendation" ++ dq ++ ": string - next action (" ++ dq ++ "proceed_with_answer" ++ dq ++ " or " ++ dq ++ "search_web" ++ dq ++ ")

Examples of when to recommend " ++ dq ++ "proceed_with_answer" ++ dq ++ ":
- Question about game release dates, platforms, genres, publishers
- Question about game descriptions and characteristics
- Question about games that are in the database
- Question about game series or franchises

Examples of when to recommend " ++ dq ++ "search_web" ++ dq ++ ":
- Question about very recent games (2024+)
- Question about game sales numbers or current reviews
- Question about technical specifications not in descriptions
- Question about games from publishers not in the database
".

Definition _create_evaluation_prompt (question context : string) : string :=
  "
" ++ context ++ evaluation_criteria.

Definition evaluate_body (question : string) (retrieved_docs : text) : M st text :=
  docs_data <- json_loads retrieved_docs ;;
  games <- py_get docs_data "games" (JArr []) ;;
  if negb (truthy games) then
    _create_evaluation_report (JBool false)
      (JStr "No games were retrieved from the database") (JNum 0) (JStr "search_web")
  else
    context <- _create_evaluation_context question games ;;
    let evaluation_prompt := _create_evaluation_prompt question context in
    response <- chat_completion evaluation_prompt ;;
    evaluation_data <- json_loads response ;;
    useful <- py_get evaluation_data "useful" (JBool false) ;;
    description <- py_get evaluation_data "description" (JStr "") ;;
    confidence <- py_get evaluation_data "confidence" (JNum 0) ;;
    recommendation <- py_get evaluation_data "recommendation" (JStr "search_web") ;;
    _create_evaluation_report useful description confidence recommendation.

(** [EvaluateRetrievalTool.__call__] *)
Definition evaluate_retrieval_tool (question : string) (retrieved_docs : text) : M st text :=
  try_except (evaluate_body question retrieved_docs)
    (fun e => _create_evaluation_report (JBool false)
                (JStr ("Error during evaluation: " ++ exn_str e))
                (JNum 0) (JStr "search_web")).

End Evaluate.

End Evaluation.

(** ** src/tools/game_web_search.py *)

Module WebSearch.

(** The tool's view of the world: the searches sent to the web-search
    service so far, each with its query and its max_results. *)
Record st := St { searches : list (string * Z) }.

Definition game_keywords : list string :=
  ["game"; "video game"; "gaming"; "gamer"; "console"; "platform"].

Definition site_filter : string :=
  " site:ign.com OR site:gamespot.com OR site:metacritic.com OR site:wikipedia.org".

Definition _enhance_query (question : string) : string :=
  let enhanced_query := question in
  let enhanced_query :=
    if negb (Memory.any_in game_keywords (py_lower question))
    then question ++ " video game"
    else enhanced_query in
  enhanced_query ++ site_filter.

Section Search.

(** [client.search(query=..., search_depth="advanced", max_results=...,
    include_answer=True, include_raw_content=False)]: the service's answer,
    or the exception the call raises. *)
Variable tavily_search : string -> Z -> result json.

(** [WebSearchResult(title=..., url=..., content=...,
    relevance_score=...).model_dump()]: the validated result, or nothing when
    validation fails. *)
Variable web_result_dump : json -> json -> json -> json -> option json.

Definition client_search (query : string) (max_results : Z) : M st json :=
  modify (fun s => St (searches s ++ [(query, max_results)])%list) ;;;
  (fun s => (tavily_search query max_results, s)).

Definition web_result (result : json) : M st json :=
  title <- py_get result "title" (JStr "") ;;
  url <- py_get result "url" (JStr "") ;;
  content <- py_get result "content" (JStr "") ;;
  score <- py_get result "score" (JNum 0) ;;
  match web_result_dump title url content score with
  | Some j => ret j
  | None => raise (Exn "ValidationError" "validation error for WebSearchResult")
  end.

Definition error_envelope (question : string) (e : exn) : json :=
  JObj [("error", JStr ("Error performing web search: " ++ exn_str e));
        ("question", JStr question); ("results", JArr []);
        ("total_results", JNum 0); ("search_method", JStr "web_search")].

(** [GameWebSearchTool.__call__] *)
Definition game_web_search_tool (question : string) (max_results : Z) : M st text :=
  try_except
    (let enhanced_query := _enhance_query question in
     search_results <- client_search enhanced_query max_results ;;
     found <- py_get search_results "results" JNull ;;
     web_results <- (if truthy found then
                       items <- py_item search_results "results" ;;
                       items <- py_iter items ;;
                       Retrieval.collect items web_result
                     else ret []) ;;
     answer_content <- py_get search_results "answer" (JStr "") ;;
     ret (Doc (JObj [("question", JStr question);
                     ("enhanced_query", JStr enhanced_query);
                     ("results", JArr web_results);
                     ("answer", answer_content);
                     ("total_results",
                      JNum (inject_Z (Z.of_nat (length web_results))));
                     ("search_method", JStr "web_search")])))
    (fun e => ret (Doc (error_envelope question e))).

End Search.

End WebSearch.

(** ** src/models/game.py: the agent's response; src/agent/udaplay_agent.py *)

Module Agent.

(** A Python float: a finite value, or one of inf and nan. *)
Inductive pyfloat :=
| Finite (q : Q)
| NonFinite.

Record AgentResponse := Response {
  answer : string;
  confidence : Q;
  sources : list string;
  search_method : string;
  timestamp_ : timestamp;
}.

(** The calls the agent makes to its tools and to the text-generation
    service. *)
Inductive call :=
| CallRetrieve (question : string) (n_results : Z)
| CallEvaluate (question : string) (retrieved_docs : text)
| CallWebSearch (question : string) (max_results : Z)
| CallChat (prompt : string).

(** The agent object and the world around it. *)
Record st := St {
  state_machine : StateMachine.AgentStateMachine;
  vector_store : VectorStore.GameVectorStore;
  advanced_memory_system : Memory.AdvancedMemorySystem;
  conversation_history : list json;
  calls : list call;               (* calls made so far, oldest first *)
  sys : os;
}.

Definition on_sys {A} (m : M os A) : M st A :=
  zoom sys (fun o s => St (state_machine s) (vector_store s) (advanced_memory_system s)
                          (conversation_history s) (calls s) o) m.

Definition on_machine {A} (m : M StateMachine.st A) : M st A :=
  zoom (fun s => StateMachine.St (state_machine s) (sys s))
       (fun t s => St (StateMachine.machine t) (vector_store s)
                      (advanced_memory_system s) (conversation_history s) (calls s)
                      (StateMachine.sys t)) m.

Definition on_store {A} (m : M VectorStore.st A) : M st A :=
  zoom (fun s => VectorStore.St (vector_store s) (sys s))
       (fun t s => St (state_machine s) (VectorStore.store t)
                      (advanced_memory_system s) (conversation_history s) (calls s)
                      (VectorStore.sys t)) m.

Definition on_memory {A} (m : M Memory.st A) : M st A :=
  zoom (fun s => Memory.St (advanced_memory_system s) (sys s))
       (fun t s => St (state_machine s) (vector_store s) (Memory.mem t)
                      (conversation_history s) (calls s) (Memory.sys t)) m.

(** Call a tool: the call is recorded, and the tool answers or raises. *)
Definition invoke {A} (c : call) (tool : st -> result A) : M st A :=
  fun s => (tool s, St (state_machine s) (vector_store s) (advanced_memory_system s)
                       (conversation_history s) (calls s ++ [c])%list (sys s)).

(** [AgentResponse(answer=..., confidence=..., sources=..., search_method=...)]:
    the confidence field is declared with [ge=0.0, le=1.0]; the timestamp
    defaults to the time of construction. *)
Definition make_response (answer : string) (confidence : pyfloat)
    (sources : list string) (search_method : string) : M st AgentResponse :=
  match confidence with
  | Finite q =>
      if Qle_bool 0 q && Qle_bool q 1
      then t <- on_sys now ;; ret (Response answer q sources search_method t)
      else raise (Exn "ValidationError" "validation error for AgentResponse")
  | NonFinite => raise (Exn "ValidationError" "validation error for AgentResponse")
  end.

(** [v < 0.7] *)
Definition below_threshold {S} (v : json) : M S bool :=
  q <- py_num v ;; ret (negb (Qle_bool 0.7 q)).

(** The text after the last occurrence of [sep] in [s] ([s.split(sep)[-1]]),
    for a separator that cannot overlap itself; [best] is the answer so far. *)
Fixpoint after_last (sep s best : string) : string :=
  match s with
  | EmptyString => best
  | String _ s' =>
      if String.prefix sep s
      then after_last sep s' (String.substring (String.length sep)
                                (String.length s - String.length sep) s)
      else after_last sep s' best
  end.

Record final_answer := FinalAnswer {
  fa_answer : string;
  fa_confidence : pyfloat;
  fa_sources : list string;
  fa_search_method : string;
}.

Section Agent.

(** The agent's tools, as the agent sees them: each answers with a string or
    raises. *)
Variable retrieve_game_tool : st -> string -> Z -> result text.
Variable evaluate_retrieval_tool : st -> string -> text -> result text.
Variable game_web_search_tool : st -> string -> Z -> result text.

(** The text-generation service: the content of the first choice, if any. *)
Variable chat_completion : st -> string -> result (option string).

(** [str(v)] as an f-string prints a value. *)
Variable py_str : json -> string.

(** [float(s)]: nothing when it raises [ValueError]. *)
Variable float_of_string : string -> option pyfloat.

Variable sha256_hex : string -> string.
Variable chroma_add_error :
  list VectorStore.chroma_record -> VectorStore.chroma_record -> option exn.
Variable py_hash : string -> Z.

Definition game_context (game : json) : M st string :=
  name <- py_item game "name" ;;
  platform <- py_item game "platform" ;;
  year <- py_item game "year_of_release" ;;
  genre <- py_item game "genre" ;;
  publisher <- py_item game "publisher" ;;
  description <- py_item game "description" ;;
  ret ("- " ++ py_str name ++ " (" ++ py_str platform ++ ", " ++ py_str year ++ ")
  Genre: " ++ py_str genre ++ ", Publisher: " ++ py_str publisher ++ "
  Description: " ++ py_str description).

Definition web_context (result : json) : M st string :=
  title <- py_item result "title" ;;
  url <- py_item result "url" ;;
  content <- py_item result "content" ;;
  short <- py_slice 200 content ;;
  ret ("- " ++ py_str title ++ "
  URL: " ++ py_str url ++ "
  Content: " ++ py_str short ++ "...").

Definition answer_prompt (question context : string) : string :=
  "Based on the following information, provide a comprehensive and accurate answer to the user's question about games.

USER QUESTION: " ++ question ++ "

AVAILABLE INFORMATION:
" ++ context ++ "

INSTRUCTIONS:
1. Provide a clear, detailed answer based on the available information
2. Include specific game details (titles, platforms, years, genres, publishers)
3. Cite your sources (local database, web search, etc.)
4. If information is limited, acknowledge this and suggest what additional information might be helpful
5. Be conversational but informative
6. End with a confidence level (0.0 to 1.0) for your answer

ANSWER:".

(** The confidence read off the end of the generated answer; 0.8 when there
    is none to read. *)
Definition answer_confidence (answer_text : option string) : pyfloat :=
  match answer_text with
  | None => Finite 0.8
  | Some a =>
      if negb (String.eqb a "") && py_contains "confidence:" (py_lower a) then
        let confidence_part := py_strip (after_last "confidence:" (py_lower a) (py_lower a)) in
        match py_split confidence_part with
        | [] => Finite 0.8
        | w :: _ => match float_of_string w with
                    | Some f => f
                    | None => Finite 0.8
                    end
        end
      else Finite 0.8
  end.

Definition _generate_final_answer
    (question : string) (retrieval_data evaluation_data web_results : json)
  : M st final_answer :=
  let context_parts := [] in
  let sources := [] in
  let search_method := "vector_db" in
  (* local database results *)
  games <- py_get retrieval_data "games" JNull ;;
  local <-
     (if truthy games then
        items <- py_item retrieval_data "games" ;;
        items <- py_iter items ;;
        lines <- Retrieval.collect items game_context ;;
        ret ((context_parts ++ ["LOCAL GAME DATABASE RESULTS:"] ++ lines)%list,
             (sources ++ ["vector_db"])%list)
      else ret (context_parts, sources)) ;;
  let '(context_parts, sources) := local in
  (* web search results *)
  found <- (if truthy web_results then py_get web_results "results" JNull
            else ret web_results) ;;
  web <-
     (if truthy found then
        items <- py_item web_results "results" ;;
        top <- py_slice 3 items ;;
        top <- py_iter top ;;
        lines <- Retrieval.collect top web_context ;;
        let sources := (sources ++ ["web_search"])%list in
        ret ((context_parts ++ ["
WEB SEARCH RESULTS:"] ++ lines)%list,
             sources,
             match sources with [] => "web_search" | _ => "combined" end)
      else ret (context_parts, sources, search_method)) ;;
  let '(context_parts, sources, search_method) := web in
  (* evaluation *)
  description <- py_get evaluation_data "description" (JStr "") ;;
  let evaluation_line := "
EVALUATION: " ++ py_str description in
  let context_parts := (context_parts ++ [evaluation_line])%list in
  let context := String.concat "
" context_parts in
  let prompt := answer_prompt question context in
  answer_text <- invoke (CallChat prompt) (fun s => chat_completion s prompt) ;;
  let confidence := answer_confidence answer_text in
  ret (FinalAnswer (match answer_text with
                    | Some a => if String.eqb a "" then "No response generated" else a
                    | None => "No response generated"
                    end)
                   confidence sources search_method).

(** Lines 173-190: the web results go to the vector store and to the memory. *)
Definition persist_web_results (user_question : string) (web_results : json) : M st unit :=
  try_except
    (found <- (if truthy web_results then py_get web_results "results" JNull
               else ret web_results) ;;
     if truthy found then
       items <- py_item web_results "results" ;;
       items <- py_iter items ;;
       for_each items (fun r =>
         title <- py_get r "title" (JStr "") ;;
         url <- py_get r "url" (JStr "") ;;
         score <- py_get r "score" JNull ;;
         relevance <- py_get r "relevance_score" score ;;
         let metadata := JObj [("title", title); ("url", url);
                               ("source", JStr "web_search");
                               ("relevance_score", relevance)] in
         content <- py_get r "content" (JStr "") ;;
         on_store (VectorStore.add_document sha256_hex chroma_add_error
                     content metadata None) ;;;
         ret tt) ;;;
       on_memory (Memory.learn_from_web_search py_hash user_question web_results "default")
     else ret tt)
    (fun _ => ret tt).

Definition append_history (entry : json) : M st unit :=
  modify (fun s => St (state_machine s) (vector_store s) (advanced_memory_system s)
                      (conversation_history s ++ [entry])%list (calls s) (sys s)).

(** Line 148: is the local knowledge insufficient? *)
Definition needs_web_search (evaluation_data : json) : M st bool :=
  useful <- py_get evaluation_data "useful" (JBool false) ;;
  if negb (truthy useful) then ret true
  else c <- py_get evaluation_data "confidence" (JNum 0) ;;
       below_threshold c.

(** Lines 152-155: the web fallback. *)
Definition web_fallback (user_question : string) : M st json :=
  web_search_result <- invoke (CallWebSearch user_question 3)
                         (fun s => game_web_search_tool s user_question 3) ;;
  web_results <- json_loads web_search_result ;;
  py_get web_results "total_results" (JNum 0) ;;;
  ret web_results.

(** Lines 157-212: the answer, the response object, and the side effects
    that follow it. *)
Definition answer_and_learn
    (user_question : string) (retrieval_data evaluation_data web_results : json)
  : M st AgentResponse :=
  (* Step 4: generate the final answer *)
  final <- _generate_final_answer user_question retrieval_data evaluation_data web_results ;;
  (* Step 5: create the response object *)
  response <- make_response (fa_answer final) (fa_confidence final)
                            (fa_sources final) (fa_search_method final) ;;
  persist_web_results user_question web_results ;;;
  try_except (on_memory (Memory.learn_from_conversation user_question
                           (fa_answer final) "default"))
             (fun _ => ret tt) ;;;
  t <- on_sys now ;;
  append_history (JObj [("user", JStr user_question);
                        ("assistant", JStr (fa_answer final));
                        ("timestamp", JStr (iso t))]) ;;;
  try_except (on_machine StateMachine.persist) (fun _ => ret tt) ;;;
  ret response.

(** The [try] block of [process_query] (lines 131-212). *)
Definition process_query_body (user_question : string) : M st AgentResponse :=
  (* Step 1: retrieve games from the local database *)
  retrieval_result <- invoke (CallRetrieve user_question 5)
                        (fun s => retrieve_game_tool s user_question 5) ;;
  retrieval_data <- json_loads retrieval_result ;;
  py_get retrieval_data "total_results" (JNum 0) ;;;
  (* Step 2: evaluate retrieval quality *)
  evaluation_result <- invoke (CallEvaluate user_question retrieval_result)
                         (fun s => evaluate_retrieval_tool s user_question retrieval_result) ;;
  evaluation_data <- json_loads evaluation_result ;;
  py_get evaluation_data "useful" (JBool false) ;;;
  py_get evaluation_data "confidence" (JNum 0) ;;;
  (* Step 3: determine if web search is needed *)
  use_web_search <- needs_web_search evaluation_data ;;
  web_results <- (if use_web_search : bool then web_fallback user_question
                  else ret JNull) ;;
  answer_and_learn user_question retrieval_data evaluation_data web_results.

Definition error_answer (e : exn) : string :=
  "I encountered an error while processing your question: " ++ exn_str e.

Definition process_query (user_question : string) : M st AgentResponse :=
  try_except (process_query_body user_question)
    (fun e => make_response (error_answer e) (Finite 0) [] "error").

End Agent.

(** Lines 68-84 of [UdaPlayAgent.__init__]: the agent's state machine is a
    new one, resumed from state.json in the vector store's persist directory
    when that file is there, and bound to it otherwise. *)
Definition init_state_machine (fromisoformat : string -> option timestamp)
    (vector_store : VectorStore.GameVectorStore)
  : M os StateMachine.AgentStateMachine :=
  m <- StateMachine.__init__ ;;
  fun o =>
    let '(_, s) :=
      try_except
        (let persist_dir := VectorStore.persist_directory vector_store in
         if negb (String.eqb persist_dir "") then
           let state_file := path_join persist_dir "state.json" in
           present <- StateMachine.on_sys (path_exists state_file) ;;
           if present : bool
           then StateMachine.load_from_file fromisoformat state_file
           else StateMachine.set_machine
                  (fun m => StateMachine.Machine
                              (StateMachine.state m)
                              (StateMachine.last_transition_time m)
                              (Some state_file))
         else ret tt)
        (fun _ => ret tt) (StateMachine.St m o) in
    (Ok (StateMachine.machine s), StateMachine.sys s).


End Agent.
(** ** Properties of dicts and paths *)

Lemma assoc_get_dict_set_eq kvs k v : assoc_get (dict_set kvs k v) k = Some v.
Proof.
  induction kvs as [|[k' v'] rest IH]; cbn.
  - by rewrite String.eqb_refl.
  - destruct (String.eqb k' k) eqn:E; cbn; by rewrite E.
Qed.

Lemma assoc_get_dict_set_ne kvs k k' v :
  k <> k' -> assoc_get (dict_set kvs k v) k' = assoc_get kvs k'.
Proof.
  intros Hne. induction kvs as [|[k0 v0] rest IH]; cbn.
  - destruct (String.eqb_spec k k'); done.
  - destruct (String.eqb_spec k0 k) as [->|Hk]; cbn.
    + destruct (String.eqb_spec k k'); done.
    + destruct (String.eqb_spec k0 k'); done.
Qed.

Lemma assoc_get_setdefault_ne kvs k k' v :
  k <> k' -> assoc_get (dict_setdefault kvs k v) k' = assoc_get kvs k'.
Proof.
  intros Hne. unfold dict_setdefault.
  destruct (assoc_get kvs k); [done|]. by apply assoc_get_dict_set_ne.
Qed.


Lemma string_app_inv_head (a b c : string) : a ++ b = a ++ c -> b = c.
Proof. apply String.app_inj. Qed.

Lemma string_app_assoc (a b c : string) : (a ++ b) ++ c = a ++ (b ++ c).
Proof.
  induction a as [|x a IH]; [done|].
  change (String x ((a ++ b) ++ c) = String x (a ++ (b ++ c))). by rewrite IH.
Qed.

Lemma string_app_nil_inv (a b : string) : a ++ b = "" -> a = "" /\ b = "".
Proof. destruct a; cbn; [done|discriminate]. Qed.

Lemma path_join_cases (dir name : string) :
  (dir = "" /\ path_join dir name = name) \/
  (dir <> "" /\ path_join dir name = dir ++ name) \/
  (dir <> "" /\ path_join dir name = dir ++ "/" ++ name).
Proof.
  unfold path_join. destruct (String.eqb_spec dir ""); [by left|].
  right. destruct (String.eqb _ "/"); [by left | by right].
Qed.

(** The backup of a document never lands on the dedup index. *)
Lemma backup_path_not_index (dir name : string) :
  path_join (path_join dir "documents") name <> path_join dir "ingested_index.json".
Proof.
  unfold path_join at 2 3.
  destruct (String.eqb_spec dir "") as [->|Hd].
  - destruct (path_join_cases "documents" name) as [[? _]|[[_ ->]|[_ ->]]];
      [discriminate| |]; cbn; discriminate.
  - destruct (String.eqb _ "/").
    + destruct (path_join_cases (dir ++ "documents") name) as [[H _]|[[_ ->]|[_ ->]]].
      * apply string_app_nil_inv in H as [_ ?]. discriminate.
      * rewrite !string_app_assoc. intros H%string_app_inv_head.
        cbn in H. discriminate.
      * rewrite !string_app_assoc. intros H%string_app_inv_head.
        cbn in H. discriminate.
    + destruct (path_join_cases (dir ++ "/" ++ "documents") name)
        as [[H _]|[[_ ->]|[_ ->]]].
      * apply string_app_nil_inv in H as [_ ?]. discriminate.
      * rewrite !string_app_assoc. intros H%string_app_inv_head.
        cbn in H. discriminate.
      * rewrite !string_app_assoc. intros H%string_app_inv_head.
        cbn in H. discriminate.
Qed.


(** ** Invariants of computations *)

(** [m] keeps the invariant [I], whether it returns or raises. *)
Definition preserves {S A} (I : S -> Prop) (m : M S A) : Prop :=
  forall s, I s -> I (snd (m s)).

Section Preserves.
Context {S : Type} (I : S -> Prop).

Lemma preserves_ret {A} (a : A) : preserves I (ret a).
Proof. by intros ?. Qed.

Lemma preserves_raise {A} (e : exn) : preserves I (@raise S A e).
Proof. by intros ?. Qed.

Lemma preserves_gets {A} (f : S -> A) : preserves I (gets f).
Proof. by intros ?. Qed.

Lemma preserves_modify (f : S -> S) :
  (forall s, I s -> I (f s)) -> preserves I (modify f).
Proof. intros H s Hs. by apply H. Qed.

Lemma preserves_bind {A B} (m : M S A) (k : A -> M S B) :
  preserves I m -> (forall a, preserves I (k a)) -> preserves I (bind m k).
Proof.
  intros Hm Hk s Hs. unfold bind. specialize (Hm s Hs).
  destruct (m s) as [[a|e] s']; cbn in *; [by apply Hk | done].
Qed.

Lemma preserves_try {A} (m : M S A) (h : exn -> M S A) :
  preserves I m -> (forall e, preserves I (h e)) -> preserves I (try_except m h).
Proof.
  intros Hm Hh s Hs. unfold try_except. specialize (Hm s Hs).
  destruct (m s) as [[a|e] s']; cbn in *; [done | by apply Hh].
Qed.

Lemma preserves_for_each {A} (l : list A) (body : A -> M S unit) :
  (forall x, preserves I (body x)) -> preserves I (for_each l body).
Proof.
  intros Hb. induction l as [|x l IH]; cbn.
  - apply preserves_ret.
  - apply preserves_bind; [apply Hb | intros _; apply IH].
Qed.

Lemma preserves_zoom {T A} (proj : S -> T) (upd : T -> S -> S) (m : M T A) :
  (forall s t, I s -> I (upd t s)) -> preserves I (zoom proj upd m).
Proof.
  intros H s Hs. unfold zoom. destruct (m (proj s)) as [r t']. cbn. by apply H.
Qed.

(** The Python operations on values touch no state. *)
Lemma preserves_py_get v k d : preserves I (py_get v k d).
Proof. destruct v; by intros ?. Qed.
Lemma preserves_py_item v k : preserves I (py_item v k).
Proof.
  destruct v as [| | | | |kvs]; try by intros ?.
  unfold py_item. destruct (assoc_get kvs k); by intros ?.
Qed.
Lemma preserves_py_len v : preserves I (py_len v).
Proof. destruct v; by intros ?. Qed.
Lemma preserves_py_slice n v : preserves I (py_slice n v).
Proof. destruct v; by intros ?. Qed.
Lemma preserves_py_num v : preserves I (py_num v).
Proof. destruct v; by intros ?. Qed.
Lemma preserves_py_iter v : preserves I (py_iter v).
Proof. destruct v; by intros ?. Qed.
Lemma preserves_py_lower_value v : preserves I (py_lower_value v).
Proof. destruct v; by intros ?. Qed.

End Preserves.

(** ** Slices of lists *)

Lemma py_last_length {A} (n : nat) (l : list A) :
  length (py_last n l) = Nat.min n (length l).
Proof. unfold py_last. rewrite length_drop. lia. Qed.

Lemma py_last_short {A} (n : nat) (l : list A) : length l <= n -> py_last n l = l.
Proof. intros H. unfold py_last. by replace (length l - n) with 0 by lia. Qed.

(** Keeping the last [n] after each append keeps the last [n] overall. *)
Lemma py_last_snoc {A} (n : nat) (l : list A) (x : A) :
  py_last n (py_last n l ++ [x]) = py_last n (l ++ [x]).
Proof.
  unfold py_last. rewrite !length_app, length_drop. cbn [length].
  destruct (decide (length l <= n)) as [Hle|Hgt].
  - replace (length l - n) with 0 by lia. rewrite drop_0. f_equal. lia.
  - rewrite <- (drop_app_le l [x] (length l - n)) by lia.
    rewrite drop_drop. f_equal. lia.
Qed.

(** ** Postconditions on returned values *)

(** Whenever [m] returns, its value satisfies [P]. *)
Definition returns {S A} (P : A -> Prop) (m : M S A) : Prop :=
  forall s a s', m s = (Ok a, s') -> P a.

Section Returns.
Context {S : Type}.

Lemma returns_ret {A} (P : A -> Prop) (a : A) : P a -> returns P (@ret S A a).
Proof. intros H s a' s' [= <- _]. exact H. Qed.

Lemma returns_raise {A} (P : A -> Prop) (e : exn) : returns P (@raise S A e).
Proof. intros s a s' [=]. Qed.

Lemma returns_bind {A B} (P : B -> Prop) (m : M S A) (k : A -> M S B) :
  (forall a, returns P (k a)) -> returns P (bind m k).
Proof.
  intros Hk s b s'. unfold bind. destruct (m s) as [[a|e] s1]; [apply Hk | done].
Qed.

Lemma returns_try {A} (P : A -> Prop) (m : M S A) (h : exn -> M S A) :
  returns P m -> (forall e, returns P (h e)) -> returns P (try_except m h).
Proof.
  intros Hm Hh s a s'. unfold try_except.
  destruct (m s) as [[a1|e] s1] eqn:E; [|apply Hh].
  intros [= <- <-]. by eapply Hm.
Qed.

End Returns.

(** ** Postconditions on the state a computation returns in *)

(** Whenever [m] returns, the state it leaves satisfies [Q]. *)
Definition ends_in {S A} (Q : S -> Prop) (m : M S A) : Prop :=
  forall s a s', m s = (Ok a, s') -> Q s'.

Lemma ends_in_bind {S A B} (Q : S -> Prop) (m : M S A) (k : A -> M S B) :
  (forall a, ends_in Q (k a)) -> ends_in Q (bind m k).
Proof.
  intros Hk s b s'. unfold bind. destruct (m s) as [[a|e] s1]; [apply Hk | done].
Qed.

Lemma returns_bind_with {S A B} (R : A -> Prop) (P : B -> Prop)
    (m : M S A) (k : A -> M S B) :
  returns R m -> (forall a, R a -> returns P (k a)) -> returns P (bind m k).
Proof.
  intros Hm Hk s b s'. unfold bind. destruct (m s) as [[a|e] s1] eqn:E; [|done].
  apply Hk. by eapply Hm.
Qed.

(** ** Comparisons of rationals *)

Lemma Qle_bool_false_lt (x y : Q) : Qle_bool x y = false <-> (y < x)%Q.
Proof.
  split.
  - intros H. apply Qnot_le_lt. intros Hle. apply Qle_bool_iff in Hle. congruence.
  - intros H. destruct (Qle_bool x y) eqn:E; [|done].
    apply Qle_bool_iff in E. by apply Qlt_not_le in H.
Qed.

(** ** More on values and computations *)

(** A value that counts as a number. *)
Definition number_of (v : json) : option Q :=
  match v with
  | JNum q => Some q
  | JBool b => Some (if b then 1%Q else 0%Q)
  | _ => None
  end.

Lemma py_num_run {S} (v : json) (s : S) :
  py_num v s = (match number_of v with
                | Some q => Ok q
                | None => Raise (Exn "TypeError" "unsupported operand type(s)")
                end, s).
Proof. by destruct v. Qed.

Lemma str_in_elem_of (x : string) (l : list string) : str_in x l = true <-> x ∈ l.
Proof.
  unfold str_in. rewrite existsb_exists. split.
  - intros (y & Hy & E). apply String.eqb_eq in E. subst y. by apply list_elem_of_In.
  - intros H. exists x. split; [by apply list_elem_of_In|apply String.eqb_refl].
Qed.

Lemma preserves_collect {S A B} (I : S -> Prop) (l : list A) (f : A -> M S B) :
  (forall x, preserves I (f x)) -> preserves I (Retrieval.collect l f).
Proof.
  intros Hf. induction l as [|x l IH]; cbn [Retrieval.collect]; [apply preserves_ret|].
  apply preserves_bind; [apply Hf|]. intros y.
  apply preserves_bind; [apply IH|]. intros; apply preserves_ret.
Qed.

Lemma preserves_json_loads {S} (I : S -> Prop) (t : text) : preserves I (json_loads t).
Proof. destruct t; by intros ?. Qed.

Lemma preserves_py_strip_value {S} (I : S -> Prop) v : preserves I (py_strip_value v).
Proof. destruct v; by intros ?. Qed.

Lemma preserves_py_in {S} (I : S -> Prop) k v : preserves I (py_in k v).
Proof. destruct v; by intros ?. Qed.

Lemma preserves_py_setitem {S} (I : S -> Prop) v k x : preserves I (py_setitem v k x).
Proof. destruct v; by intros ?. Qed.

(** The rule for a computation followed by another, with an invariant [I] of
    the first, a property [R] of what it returns, and a property [Out] of the
    outcome of the whole. *)
Lemma bind_cases {S A B} (I : S -> Prop) (R : A -> Prop) (Out : result B * S -> Prop)
    (m : M S A) (k : A -> M S B) (s : S) :
  preserves I m -> returns R m -> I s ->
  (forall a s1, R a -> I s1 -> Out (k a s1)) ->
  (forall e s1, I s1 -> Out (Raise e, s1)) ->
  Out (bind m k s).
Proof.
  intros Hp Hr Hs Hok Hraise. unfold bind.
  specialize (Hp s Hs). specialize (Hr s).
  destruct (m s) as [[a|e] s1]; cbn [snd] in Hp.
  - apply Hok; [by eapply Hr|done].
  - by apply Hraise.
Qed.

Lemma returns_any {S A} (m : M S A) : returns (fun _ => True) m.
Proof. by intros s a s' _. Qed.

(** A handler that returns makes the whole return. *)
Lemma try_except_unit_total {S} (m : M S unit) (s : S) :
  exists s', try_except m (fun _ => ret tt) s = (Ok tt, s').
Proof. unfold try_except. destruct (m s) as [[[]|e] s']; by eexists. Qed.
(** ** Properties of the state machine *)

Module StateMachineFacts.
Import StateMachine.

Lemma allowed_edge_iff (s t : AgentState) :
  allowed_edge s t <-> t ∈ _allowed s.
Proof.
  split.
  - destruct 1; cbn; set_solver.
  - destruct s, t; cbn; intros H; try constructor; exfalso;
      repeat (apply elem_of_cons in H as [H|H]; [discriminate|]);
      by apply elem_of_nil in H.
Qed.

(** What [_persist] leaves behind, case by case. *)
Lemma _persist_run (m : AgentStateMachine) (o : os) :
  _persist (St m o) =
  (Ok tt,
   match _persist_file m with
   | None => St m o
   | Some path =>
       if String.eqb path "" then St m o
       else if writable o path
            then St m (Os (wall_clock o) (clock_reads o) (writable o)
                          (<[path := Doc (state_document m)]> (files o)))
            else St m o
   end).
Proof.
  unfold _persist, bind, gets, try_except, on_sys, zoom, write_json, ret; cbn.
  destruct (_persist_file m) as [path|]; [|reflexivity].
  destruct (String.eqb path ""); [reflexivity|]. cbn.
  destruct (writable o path); reflexivity.
Qed.

(** C1. [transition(T)] never raises; it returns true exactly when T is in
    the allowed set of the current state (the table Idle->Retrieving,
    Retrieving->Evaluating, Evaluating->WebSearch|Answering,
    WebSearch->Answering, Answering->Idle). On success the state is T, the
    last-transition time is the clock reading taken by the call, and the
    machine is persisted: what is left is exactly what [_persist] leaves of
    the updated machine, so a bound, writable persistence file holds the
    document of the new state and time. On failure nothing changes, neither
    the machine nor the file system nor the clock. *)
Theorem transition_guarded (target : AgentState) (s : st) :
  exists (b : bool) (s' : st),
    transition target s = (Ok b, s') /\
    (b = true <-> allowed_edge (state (machine s)) target) /\
    (b = true ->
       let t := wall_clock (sys s) (clock_reads (sys s)) in
       let m' := Machine target t (_persist_file (machine s)) in
       let o' := Os (wall_clock (sys s)) (S (clock_reads (sys s)))
                    (writable (sys s)) (files (sys s)) in
       machine s' = m' /\
       _persist (St m' o') = (Ok tt, s') /\
       (forall path, _persist_file (machine s) = Some path -> path <> "" ->
          writable (sys s) path = true ->
          files (sys s') !! path = Some (Doc (state_document m')) /\
          state_document m' =
            JObj [("state", JStr (value target));
                  ("last_transition_time", JStr (iso t))])) /\
    (b = false -> s' = s).
Proof.
  destruct s as [m o].
  unfold transition. unfold bind at 1. unfold gets at 1. cbn [machine sys].
  destruct (bool_decide (target ∈ _allowed (state m))) eqn:Hg.
  - apply bool_decide_eq_true in Hg.
    unfold bind, set_machine, modify, on_sys, zoom, now, ret. cbn [machine sys state last_transition_time _persist_file].
    rewrite _persist_run. cbn [_persist_file].
    eexists true, _. split; [reflexivity|].
    split; [split; [intros _; by apply allowed_edge_iff | done]|].
    split; [|discriminate].
    intros _. cbn zeta.
    split.
    { destruct (_persist_file m) as [path|]; [|done].
      destruct (String.eqb path ""); [done|].
      cbn. by destruct (writable o path). }
    split; [reflexivity|].
    intros path Hp Hne Hw. rewrite Hp.
    destruct (String.eqb_spec path ""); [done|].
    cbn [writable]. rewrite Hw. cbn. rewrite lookup_insert_eq. done.
  - apply bool_decide_eq_false in Hg.
    eexists false, _. split; [reflexivity|].
    split; [split; [discriminate | intros H; by apply allowed_edge_iff in H]|].
    split; [discriminate | done].
Qed.

(** *** Reset, queries and the state file *)

(** The clock after the reading a method takes. *)
Definition after_reading (o : os) : os :=
  Os (wall_clock o) (S (clock_reads o)) (writable o) (files o).

Lemma reset_run (m : AgentStateMachine) (o : os) :
  reset (St m o)
  = _persist (St (Machine IDLE (wall_clock o (clock_reads o)) (_persist_file m))
                 (after_reading o)).
Proof. reflexivity. Qed.

Lemma transition_run (target : AgentState) (m : AgentStateMachine) (o : os) :
  transition target (St m o)
  = if bool_decide (target ∈ _allowed (state m))
    then (Ok true,
          snd (_persist (St (Machine target (wall_clock o (clock_reads o))
                                     (_persist_file m))
                            (after_reading o))))
    else (Ok false, St m o).
Proof.
  unfold transition. unfold bind at 1, gets at 1. cbn [machine].
  destruct (bool_decide _); [|reflexivity].
  unfold bind, set_machine, modify, on_sys, zoom, now, ret.
  cbn [machine sys state last_transition_time _persist_file].
  fold (after_reading o). by rewrite _persist_run.
Qed.

(** X1. [reset()] never raises and asks no permission of the transition
    table: from every state it puts the machine to Idle, stamps it with the
    clock reading it takes and persists it, so that a bound, writable state
    file says idle at that time. [transition(IDLE)], by contrast, is refused
    from every state but Answering and changes nothing. *)
Theorem reset_returns_to_idle (s : st) :
  let t := wall_clock (sys s) (clock_reads (sys s)) in
  let m' := Machine IDLE t (_persist_file (machine s)) in
  exists s',
    reset s = (Ok tt, s') /\
    machine s' = m' /\
    _persist (St m' (after_reading (sys s))) = (Ok tt, s') /\
    (forall path, _persist_file (machine s) = Some path -> path <> "" ->
       writable (sys s) path = true ->
       files (sys s') !! path
       = Some (Doc (JObj [("state", JStr "idle");
                          ("last_transition_time", JStr (iso t))]))) /\
    (state (machine s) <> ANSWERING -> transition IDLE s = (Ok false, s)).
Proof.
  destruct s as [m o]. cbn zeta. cbn [machine sys].
  rewrite reset_run, _persist_run. eexists. split; [reflexivity|].
  cbn [_persist_file].
  split; [|split; [reflexivity|split]].
  - destruct (_persist_file m) as [path|]; [|done].
    destruct (String.eqb path ""); [done|].
    unfold after_reading. cbn [writable]. by destruct (writable o path).
  - intros path -> Hne Hw. destruct (String.eqb_spec path ""); [done|].
    unfold after_reading. cbn [writable]. rewrite Hw. cbn [sys files].
    by rewrite lookup_insert_eq.
  - intros Hs. rewrite transition_run.
    destruct (state m); try done; by rewrite bool_decide_eq_false_2 by set_solver.
Qed.

(** The public methods of the machine, as a caller invokes them. *)
Inductive method :=
| Transition (target : AgentState)
| Reset
| Persist
| CanTransition (target : AgentState)
| GetState.

Definition call_method (c : method) : M st unit :=
  match c with
  | Transition target => transition target ;;; ret tt
  | Reset => reset
  | Persist => persist
  | CanTransition target => can_transition target ;;; ret tt
  | GetState => get_state ;;; ret tt
  end.

(** The machine is bound to [path], which can be written. *)
Definition bound_to (path : string) (s : st) : Prop :=
  _persist_file (machine s) = Some path /\ writable (sys s) path = true.

(** The file at [path] holds the document of the machine as it is now. *)
Definition in_sync (path : string) (s : st) : Prop :=
  bound_to path s /\ files (sys s) !! path = Some (Doc (state_document (machine s))).

Lemma _persist_total (s : st) : _persist s = (Ok tt, snd (_persist s)).
Proof. destruct s as [m o]. by rewrite _persist_run. Qed.

Lemma _persist_in_sync (path : string) (s : st) :
  path <> "" -> bound_to path s -> in_sync path (snd (_persist s)).
Proof.
  intros Hne [Hp Hw]. destruct s as [m o]. cbn in Hp, Hw.
  rewrite _persist_run, Hp. destruct (String.eqb_spec path ""); [done|].
  rewrite Hw. cbn [snd]. unfold in_sync, bound_to. cbn [machine sys files writable].
  rewrite lookup_insert_eq. done.
Qed.

Lemma call_method_in_sync (path : string) (c : method) (s : st) :
  path <> "" -> in_sync path s ->
  exists s', call_method c s = (Ok tt, s') /\ in_sync path s'.
Proof.
  intros Hne Hs. destruct s as [m o].
  destruct c as [target| | |target|]; cbn [call_method].
  - unfold bind. rewrite transition_run.
    destruct (bool_decide _); [|by eexists].
    eexists. split; [reflexivity|].
    apply _persist_in_sync; [done|]. by destruct Hs as [[? ?] _].
  - rewrite reset_run. eexists. split; [apply _persist_total|].
    apply _persist_in_sync; [done|]. by destruct Hs as [[? ?] _].
  - unfold persist. eexists. split; [apply _persist_total|].
    apply _persist_in_sync; [done|]. by destruct Hs as [? _].
  - by eexists.
  - by eexists.
Qed.

(** X2. With the machine bound to a writable state file, [persist()],
    [reset()] and every successful [transition] leave the file holding the
    document of the machine as it then is; and once file and machine agree,
    they agree after any sequence of calls of the public methods
    ([transition], accepted or refused, [reset], [persist], [can_transition],
    [get_state]), none of which raises. *)
Theorem state_file_in_sync (path : string) :
  path <> "" ->
  (forall s, bound_to path s -> in_sync path (snd (persist s))) /\
  (forall s, bound_to path s -> in_sync path (snd (reset s))) /\
  (forall s target, bound_to path s -> allowed_edge (state (machine s)) target ->
     in_sync path (snd (transition target s))) /\
  (forall (calls : list method) (s : st), in_sync path s ->
     exists s', for_each calls call_method s = (Ok tt, s') /\ in_sync path s').
Proof.
  intros Hne. split; [|split; [|split]].
  - intros s Hb. by apply _persist_in_sync.
  - intros [m o] Hb. rewrite reset_run. apply _persist_in_sync; [done|].
    by destruct Hb.
  - intros [m o] target Hb He. rewrite transition_run.
    apply allowed_edge_iff in He. cbn [machine] in He.
    rewrite bool_decide_eq_true_2 by done. cbn [snd].
    apply _persist_in_sync; [done|]. by destruct Hb.
  - intros calls. induction calls as [|c calls IH]; intros s Hs.
    + by exists s.
    + destruct (call_method_in_sync path c s Hne Hs) as (s1 & E1 & H1).
      destruct (IH s1 H1) as (s' & E' & H').
      exists s'. split; [|done]. cbn [for_each]. unfold bind. by rewrite E1.
Qed.

(** A machine freshly bound to db/state.json, in a system where every path
    can be written. *)
Definition bound_machine : st :=
  St (Machine IDLE (Timestamp "2024-01-01T00:00:00+00:00" 0) (Some "db/state.json"))
     (Os (fun n => Timestamp ("t" ++ pretty n) (Z.of_nat n)) 0 (fun _ => true) ∅).

Lemma state_file_in_sync_witness :
  in_sync "db/state.json" (snd (transition RETRIEVING bound_machine)) /\
  in_sync "db/state.json" (snd (reset bound_machine)) /\
  exists s',
    for_each [Transition RETRIEVING; CanTransition IDLE; Transition IDLE;
              Transition EVALUATING; GetState; Reset]
             call_method (snd (persist bound_machine)) = (Ok tt, s') /\
    in_sync "db/state.json" s'.
Proof.
  destruct (state_file_in_sync "db/state.json") as (Hpersist & Hreset & Htrans & Hcalls);
    [discriminate|].
  split; [|split].
  - apply Htrans; [by split | constructor].
  - apply Hreset. by split.
  - apply Hcalls, Hpersist. by split.
Defined.

(** X3. [can_transition(T)] changes nothing and answers what
    [transition(T)] would return from the same state: true exactly for the
    edges of the table. A state is never its own successor, and every state
    has one, so the machine cannot get stuck. *)
Theorem can_transition_predicts_transition (target : AgentState) (s : st) :
  exists b,
    can_transition target s = (Ok b, s) /\
    fst (transition target s) = Ok b /\
    (b = true <-> allowed_edge (state (machine s)) target) /\
    (target = state (machine s) -> b = false) /\
    (exists next, can_transition next s = (Ok true, s)).
Proof.
  destruct s as [m o].
  exists (bool_decide (target ∈ _allowed (state m))).
  split; [reflexivity|]. split; [|split; [|split]].
  - rewrite transition_run. by destruct (bool_decide _).
  - rewrite bool_decide_eq_true. cbn [machine]. by rewrite allowed_edge_iff.
  - intros ->. cbn [machine]. by destruct (state m).
  - unfold can_transition, bind, gets, ret. cbn [machine].
    destruct (state m); eexists; f_equal; f_equal; apply bool_decide_eq_true;
      cbn; apply list_elem_of_here.
Qed.

(** *** Loading the state file *)

Lemma AgentState_of_value_value {S} (a : AgentState) (s : S) :
  AgentState_of_value (JStr (value a)) s = (Ok a, s).
Proof. by destruct a. Qed.

(** [AgentState(v)] touches no state, and only the values of the five
    members name a state. *)
Lemma AgentState_of_value_inv {S} (v : json) (s : S) :
  snd (AgentState_of_value v s) = s /\
  forall a, fst (AgentState_of_value v s) = Ok a -> v = JStr (value a).
Proof.
  destruct v as [| | |x| |]; try (split; [done|discriminate]).
  unfold AgentState_of_value.
  destruct (find _ _) as [b|] eqn:E; (split; [done|]); [|discriminate].
  intros a [= <-]. apply find_some in E as [_ E]. f_equal. symmetry.
  by apply String.eqb_eq.
Qed.

Section Load.

Variable fromisoformat : string -> option timestamp.

Local Abbreviation load_from_file := (load_from_file fromisoformat).

Lemma parse_time_stateless {S} (v : json) (s : S) :
  snd (parse_time fromisoformat v s) = s.
Proof.
  destruct v as [| | |x| |]; try done. unfold parse_time.
  by destruct (fromisoformat x).
Qed.

(** The machine after [load_from_file] found nothing to load. *)
Definition rebound (path : string) (s : st) : st :=
  St (Machine (state (machine s)) (last_transition_time (machine s)) (Some path))
     (sys s).

(** The timestamp part of [load_from_file], run on a machine already bound. *)
Definition load_time (ts : json) : M st unit :=
  if truthy ts then
    try_except
      (t <- parse_time fromisoformat ts ;;
       set_machine (fun m => Machine (state m) t (_persist_file m)))
      (fun _ =>
         t <- on_sys now ;;
         set_machine (fun m => Machine (state m) t (_persist_file m)))
  else ret tt.

Lemma load_time_run (ts : json) (m : AgentStateMachine) (o : os) :
  exists t o',
    load_time ts (St m o) = (Ok tt, St (Machine (state m) t (_persist_file m)) o') /\
    files o' = files o /\
    (truthy ts = false -> t = last_transition_time m /\ o' = o) /\
    (forall x t', ts = JStr x -> x <> "" -> fromisoformat x = Some t' ->
       t = t' /\ o' = o) /\
    (forall x, ts = JStr x -> x <> "" -> fromisoformat x = None ->
       t = wall_clock o (clock_reads o) /\ o' = after_reading o).
Proof.
  unfold load_time. destruct (truthy ts) eqn:Ht.
  - unfold try_except, bind at 1.
    pose proof (parse_time_stateless ts (St m o)) as Hs.
    destruct (parse_time fromisoformat ts (St m o)) as [[t|e] s1] eqn:Hp;
      cbn in Hs; subst s1.
    + exists t, o. split; [reflexivity|]. split; [done|]. split; [done|].
      split.
      * intros x t' -> _ Hx. unfold parse_time in Hp. rewrite Hx in Hp.
        by injection Hp as ->.
      * intros x -> _ Hx. unfold parse_time in Hp. by rewrite Hx in Hp.
    + exists (wall_clock o (clock_reads o)), (after_reading o).
      split; [reflexivity|]. split; [done|]. split; [done|]. split.
      * intros x t' -> _ Hx. unfold parse_time in Hp. by rewrite Hx in Hp.
      * done.
  - exists (last_transition_time m), o. split; [by destruct m|].
    split; [done|]. split; [done|]. split.
    + intros x t' -> Hne _. exfalso. cbn in Ht. apply negb_false_iff in Ht.
      by apply String.eqb_eq in Ht.
    + intros x -> Hne _. exfalso. cbn in Ht. apply negb_false_iff in Ht.
      by apply String.eqb_eq in Ht.
Qed.

(** [load_from_file] on a file that holds a JSON object. *)
Lemma load_from_file_object (path : string) (kvs : list (string * json))
    (m : AgentStateMachine) (o : os) :
  files o !! path = Some (Doc (JObj kvs)) ->
  let state_str := match assoc_get kvs "state" with Some x => x | None => JNull end in
  let ts := match assoc_get kvs "last_transition_time" with
            | Some x => x | None => JNull end in
  load_from_file path (St m o)
  = if truthy state_str then
      match fst (AgentState_of_value state_str (St m o)) with
      | Ok a => load_time ts (St (Machine a (last_transition_time m) (Some path)) o)
      | Raise _ => (Ok tt, rebound path (St m o))
      end
    else load_time ts (rebound path (St m o)).
Proof.
  intros Hf. cbn zeta. unfold StateMachine.load_from_file, rebound.
  unfold bind at 1, set_machine at 1, modify at 1. cbn [machine sys].
  unfold try_except at 1.
  unfold bind at 1, on_sys at 1, zoom at 1, path_exists at 1, gets at 1.
  cbn [sys machine].
  rewrite bool_decide_eq_true_2 by (by eexists).
  unfold bind at 1, on_sys at 1, zoom at 1, read_json at 1, bind at 1, gets at 1.
  cbn [sys machine]. rewrite Hf. cbn [json_loads]. unfold ret at 1.
  unfold bind at 1, py_get at 1, ret at 1.
  cbn [state last_transition_time].
  set (state_str := match assoc_get kvs "state" with Some x => x | None => JNull end).
  set (ts := match assoc_get kvs "last_transition_time" with
             | Some x => x | None => JNull end).
  set (s0 := St (Machine (state m) (last_transition_time m) (Some path)) o).
  unfold bind at 1.
  destruct (truthy state_str).
  - unfold bind at 1.
    destruct (AgentState_of_value_inv state_str s0) as [Hs _].
    destruct (AgentState_of_value_inv state_str (St m o)) as [_ Hv].
    assert (Hfst : fst (AgentState_of_value state_str s0)
                   = fst (AgentState_of_value state_str (St m o))).
    { destruct state_str; try done. unfold AgentState_of_value.
      by destruct (find _ _). }
    destruct (AgentState_of_value state_str s0) as [[a|e] s1]; cbn in Hs, Hfst;
      subst s1; rewrite <- Hfst; [|reflexivity].
    unfold set_machine at 1, modify at 1. subst s0.
    cbn [machine sys state last_transition_time _persist_file].
    unfold bind at 1, py_get at 1, ret at 1. fold ts.
    match goal with |- context [(if truthy ts then ?x else ?y) ?s1] =>
      change ((if truthy ts then x else y) s1) with (load_time ts s1) end.
    destruct (load_time_run ts (Machine a (last_transition_time m) (Some path)) o)
      as (t & o' & E & _). by rewrite E.
  - unfold ret at 1. unfold bind at 1, py_get at 1, ret at 1. fold ts.
    match goal with |- context [(if truthy ts then ?x else ?y) ?s1] =>
      change ((if truthy ts then x else y) s1) with (load_time ts s1) end.
    subst s0.
    destruct (load_time_run ts (Machine (state m) (last_transition_time m) (Some path)) o)
      as (t & o' & E & _). by rewrite E.
Qed.

(** [load_from_file] on anything else. *)
Lemma load_from_file_nothing (path : string) (s : st) :
  (forall kvs, files (sys s) !! path <> Some (Doc (JObj kvs))) ->
  load_from_file path s = (Ok tt, rebound path s).
Proof.
  intros Hno. destruct s as [m o]. unfold rebound. cbn [machine sys] in *.
  unfold StateMachine.load_from_file.
  unfold bind at 1, set_machine at 1, modify at 1. cbn [machine sys].
  unfold try_except.
  unfold bind at 1, on_sys at 1, zoom at 1, path_exists at 1, gets at 1.
  cbn [sys machine].
  destruct (files o !! path) as [[j|raw]|] eqn:Hf.
  - rewrite bool_decide_eq_true_2 by (by eexists).
    unfold bind at 1, on_sys at 1, zoom at 1, read_json at 1, bind at 1, gets at 1.
    cbn [sys machine]. rewrite Hf. cbn [json_loads]. unfold ret at 1.
    destruct j as [| | | | |kvs]; try reflexivity. by destruct (Hno kvs).
  - rewrite bool_decide_eq_true_2 by (by eexists).
    unfold bind at 1, on_sys at 1, zoom at 1, read_json at 1, bind at 1, gets at 1.
    cbn [sys machine]. by rewrite Hf.
  - by rewrite bool_decide_eq_false_2 by (by intros [? ?]).
Qed.

(** X4. [load_from_file(path)] never raises and writes no file. It
    always binds the machine to [path]. The state it leaves is the one the
    machine had, or the one the file names; when the file is missing, is not
    JSON, holds something other than an object, or names no member of the
    enum, nothing but the binding changes (the timestamp is then not loaded
    either). *)
Theorem load_from_file_safe (path : string) (s : st) :
  exists s',
    load_from_file path s = (Ok tt, s') /\
    _persist_file (machine s') = Some path /\
    files (sys s') = files (sys s) /\
    (state (machine s') = state (machine s) \/
     exists kvs, files (sys s) !! path = Some (Doc (JObj kvs)) /\
                 assoc_get kvs "state" = Some (JStr (value (state (machine s'))))) /\
    ((forall kvs, files (sys s) !! path <> Some (Doc (JObj kvs))) ->
       s' = rebound path s) /\
    (forall kvs v, files (sys s) !! path = Some (Doc (JObj kvs)) ->
       assoc_get kvs "state" = Some v -> truthy v = true ->
       (forall a, v <> JStr (value a)) -> s' = rebound path s).
Proof.
  assert (Hcases : (exists kvs, files (sys s) !! path = Some (Doc (JObj kvs))) \/
                   (forall kvs, files (sys s) !! path <> Some (Doc (JObj kvs)))).
  { destruct (files (sys s) !! path) as [[[| | | | |kvs]|raw]|];
      try (by right); left; by exists kvs. }
  destruct Hcases as [[kvs Hf]|Hno'].
  - destruct s as [m o]. cbn [machine sys] in *.
    rewrite (load_from_file_object path kvs m o Hf). cbn zeta.
    set (state_str := match assoc_get kvs "state" with Some x => x | None => JNull end).
    set (ts := match assoc_get kvs "last_transition_time" with
               | Some x => x | None => JNull end).
    destruct (truthy state_str) eqn:Htruthy.
    + destruct (AgentState_of_value_inv state_str (St m o)) as [_ Hv].
      destruct (fst (AgentState_of_value state_str (St m o))) as [a|e] eqn:Ha.
      * specialize (Hv a eq_refl).
        assert (Hst : assoc_get kvs "state" = Some (JStr (value a))).
        { subst state_str. destruct (assoc_get kvs "state"); [by f_equal|discriminate]. }
        destruct (load_time_run ts (Machine a (last_transition_time m) (Some path)) o)
          as (t & o' & -> & Hfiles & _).
        eexists. split; [reflexivity|]. cbn [machine sys state _persist_file].
        split; [done|]. split; [done|]. split; [right; by exists kvs|]. split.
        -- intros H. by destruct (H kvs).
        -- intros kvs' v Hf' Hv' _ Hnone. exfalso.
           rewrite Hf in Hf'. injection Hf' as <-. rewrite Hst in Hv'.
           injection Hv' as <-. by apply (Hnone a).
      * eexists. split; [reflexivity|]. unfold rebound.
        cbn [machine sys state _persist_file]. repeat split; auto.
    + destruct (load_time_run ts (Machine (state m) (last_transition_time m) (Some path)) o)
        as (t & o' & E & Hfiles & _).
      unfold rebound. cbn [machine sys]. rewrite E.
      eexists. split; [reflexivity|]. cbn [machine sys state _persist_file].
      split; [done|]. split; [done|]. split; [by left|]. split.
      * intros H. by destruct (H kvs).
      * intros kvs' v Hf' Hv Ht _. exfalso.
        rewrite Hf in Hf'. injection Hf' as <-. subst state_str.
        rewrite Hv in Htruthy. congruence.
  - exists (rebound path s). split; [by apply load_from_file_nothing|].
    split; [done|]. split; [done|]. split; [by left|]. split; [done|].
    intros kvs v H. by destruct (Hno' kvs).
Qed.

(** Loading a file that holds the document of a machine [m]. *)
Lemma load_from_file_document (path : string) (m m0 : AgentStateMachine) (o1 : os) :
  files o1 !! path = Some (Doc (state_document m)) ->
  exists s2,
    load_from_file path (St m0 o1) = (Ok tt, s2) /\
    state (machine s2) = state m /\
    _persist_file (machine s2) = Some path /\
    files (sys s2) = files o1 /\
    (iso (last_transition_time m) <> "" ->
     fromisoformat (iso (last_transition_time m)) = Some (last_transition_time m) ->
     s2 = St (Machine (state m) (last_transition_time m) (Some path)) o1) /\
    (iso (last_transition_time m) <> "" ->
     fromisoformat (iso (last_transition_time m)) = None ->
     last_transition_time (machine s2) = wall_clock o1 (clock_reads o1)).
Proof.
  intros Hf.
  rewrite (load_from_file_object path _ m0 o1 Hf). cbn zeta.
  change (assoc_get _ "state") with (Some (JStr (value (state m)))).
  change (assoc_get _ "last_transition_time")
    with (Some (JStr (iso (last_transition_time m)))).
  cbv beta iota.
  assert (truthy (JStr (value (state m))) = true) as -> by (by destruct (state m)).
  rewrite AgentState_of_value_value. cbn [fst].
  destruct (load_time_run (JStr (iso (last_transition_time m)))
              (Machine (state m) (last_transition_time m0) (Some path)) o1)
    as (t & o' & -> & Hfiles & _ & Hsome & Hnone).
  eexists. split; [reflexivity|].
  cbn [machine sys state _persist_file last_transition_time].
  split; [done|]. split; [done|]. split; [done|]. split.
  - intros Hiso Hparse. by destruct (Hsome _ _ eq_refl Hiso Hparse) as [-> ->].
  - intros Hiso Hparse. by destruct (Hnone _ eq_refl Hiso Hparse) as [-> _].
Qed.

(** X5. What [_persist] writes, [load_from_file] reads back: after
    a machine bound to a writable state file has persisted itself, any
    machine that loads the file takes over its state and its binding; it
    takes over its timestamp too, and is then the very machine that was
    persisted, when [fromisoformat] reads the printed time back, and stamps
    itself with the current time when [fromisoformat] rejects it. *)
Theorem load_from_file_restores (path : string) (m m0 : AgentStateMachine) (o : os) :
  _persist_file m = Some path -> path <> "" -> writable o path = true ->
  exists o1 s2,
    _persist (St m o) = (Ok tt, St m o1) /\
    load_from_file path (St m0 o1) = (Ok tt, s2) /\
    state (machine s2) = state m /\
    _persist_file (machine s2) = Some path /\
    files (sys s2) = files o1 /\
    (iso (last_transition_time m) <> "" ->
     fromisoformat (iso (last_transition_time m)) = Some (last_transition_time m) ->
     s2 = St m o1) /\
    (iso (last_transition_time m) <> "" ->
     fromisoformat (iso (last_transition_time m)) = None ->
     last_transition_time (machine s2) = wall_clock o (clock_reads o)).
Proof.
  intros Hp Hne Hw. rewrite _persist_run, Hp.
  destruct (String.eqb_spec path ""); [done|]. rewrite Hw.
  set (o1 := Os _ _ _ _). exists o1.
  assert (Hf : files o1 !! path = Some (Doc (state_document m)))
    by (subst o1; cbn [files]; by rewrite lookup_insert_eq).
  destruct (load_from_file_document path m m0 o1 Hf)
    as (s2 & Hrun & Hstate & Hfile & Hfiles & Hsome & Hnone).
  exists s2. split; [reflexivity|]. split; [exact Hrun|].
  split; [exact Hstate|]. split; [exact Hfile|]. split; [exact Hfiles|]. split.
  - intros Hiso Hparse. rewrite (Hsome Hiso Hparse). f_equal.
    destruct m. cbn in *. by subst.
  - exact Hnone.
Qed.

End Load.

(** A reader of ISO times that knows one string. *)
Definition demo_fromisoformat (s : string) : option timestamp :=
  if String.eqb s "2024-01-01T00:00:00+00:00"
  then Some (Timestamp "2024-01-01T00:00:00+00:00" 0)
  else None.

Lemma load_from_file_restores_witness :
  exists o1 s2,
    _persist bound_machine = (Ok tt, St (machine bound_machine) o1) /\
    load_from_file demo_fromisoformat "db/state.json"
      (St (Machine ANSWERING (Timestamp "later" 7) None) o1) = (Ok tt, s2) /\
    s2 = St (machine bound_machine) o1.
Proof.
  destruct (load_from_file_restores demo_fromisoformat "db/state.json"
              (machine bound_machine) (Machine ANSWERING (Timestamp "later" 7) None)
              (sys bound_machine) eq_refl)
    as (o1 & s2 & H1 & H2 & _ & _ & _ & Hsame & _); [discriminate|reflexivity|].
  exists o1, s2. split; [exact H1|]. split; [exact H2|].
  apply Hsame; [discriminate|reflexivity].
Defined.

End StateMachineFacts.

(** ** Properties of document ingestion *)

Module VectorStoreFacts.
Import VectorStore.

(** The text of a metadata field as [add_document] reads it:
    [metadata.get(k) or ""]. *)
Definition metadata_text (md : list (string * json)) (k : string) : json :=
  py_or (match assoc_get md k with Some x => x | None => JNull end) (JStr "").

(** The dedup index [add_document] starts from: the JSON of the index file,
    or an empty dict when the file is missing or unreadable. *)
Definition seen_index (o : os) (dir : string) : json :=
  match files o !! dedup_file_of dir with
  | Some (Doc j) => j
  | _ => JObj []
  end.

(** The text whose hash is the dedup key. *)
Definition dedup_raw (url title content : string) : string :=
  if truthy (py_or (JStr url) (JStr title)) then url ++ "|" ++ title
  else py_take 200 content.

Section Idempotence.

Variable sha256_hex : string -> string.
Variable chroma_add_error : list chroma_record -> chroma_record -> option exn.

Lemma load_seen {A} (dir : string) (c : list chroma_record) (o : os)
    (k : json -> M st A) :
  (present <- on_sys (path_exists (dedup_file_of dir)) ;;
   seen <- (if present
            then try_except (on_sys (read_json (dedup_file_of dir)))
                            (fun _ => ret (JObj []))
            else ret (JObj [])) ;;
   k seen) (St (Store dir c) o)
  = k (seen_index o dir) (St (Store dir c) o).
Proof.
  unfold bind, on_sys, zoom, path_exists, read_json, gets, try_except, bind,
    seen_index, ret; cbn.
  destruct o as [wc n w f]; cbn.
  destruct (f !! dedup_file_of dir) as [[j|raw]|] eqn:E; cbn;
    rewrite ?E; reflexivity.
Qed.

(** The clock after one more reading. *)
Definition tick (o : os) : os :=
  Os (wall_clock o) (S (clock_reads o)) (writable o) (files o).

(** A write whose failure is swallowed. *)
Definition write_quietly (path : string) (j : json) (o : os) : os :=
  if writable o path
  then Os (wall_clock o) (clock_reads o) (writable o) (<[path := Doc j]> (files o))
  else o.

(** The collection after an add that the backend did not refuse. *)
Definition added (coll : list chroma_record) (r : chroma_record) : list chroma_record :=
  if has_id coll (record_id r) then coll else (coll ++ [r])%list.

Lemma added_fresh (coll : list chroma_record) (r : chroma_record) :
  has_id coll (record_id r) = false -> added coll r = (coll ++ [r])%list.
Proof. intros H. unfold added. by rewrite H. Qed.

Lemma added_present (coll : list chroma_record) (r : chroma_record) :
  has_id coll (record_id r) = true -> added coll r = coll.
Proof. intros H. unfold added. by rewrite H. Qed.

Lemma has_id_snoc (coll : list chroma_record) (r : chroma_record) (id : string) :
  has_id (coll ++ [r]) id = has_id coll id || String.eqb (record_id r) id.
Proof. unfold has_id. rewrite existsb_app. cbn. by rewrite orb_false_r. Qed.

(** The metadata as stored: the caller's, with [ingested_at] and [snippet]
    filled in unless present. *)
Definition enrich (md : list (string * json)) (ts : timestamp) (content : string)
  : list (string * json) :=
  dict_setdefault (dict_setdefault md "ingested_at" (JStr (iso ts)))
                  "snippet" (JStr (py_take 500 content)).

Lemma metadata_text_enrich md ts content k :
  k = "url" \/ k = "title" ->
  py_or (match assoc_get (enrich md ts content) k with
         | Some x => x | None => JNull end) (JStr "") = metadata_text md k.
Proof.
  intros Hk. unfold metadata_text, enrich.
  rewrite !assoc_get_setdefault_ne; [done| |]; destruct Hk as [-> | ->]; discriminate.
Qed.

(** [add_document] on a text document with a dict of metadata whose url and
    title are texts (or absent), when the dedup index is a dict: its result
    and everything it leaves behind, in closed form. *)
Lemma add_document_run
    (dir : string) (coll : list chroma_record) (o : os)
    (c : string) (md idx : list (string * json)) (u0 t0 : string)
    (doc_id : option string) :
  metadata_text md "url" = JStr u0 ->
  metadata_text md "title" = JStr t0 ->
  seen_index o dir = JObj idx ->
  let ts := wall_clock o (clock_reads o) in
  let mde := enrich md ts c in
  let url := py_strip u0 in
  let title := py_strip t0 in
  let key := sha256_hex (dedup_raw url title c) in
  let id := match doc_id with
            | Some d => d
            | None => "doc_" ++ pretty (millis (wall_clock o (S (clock_reads o))))
            end in
  let o2 := match doc_id with Some _ => tick o | None => tick (tick o) end in
  let r := ChromaRecord id (JStr c) (JObj mde) in
  let entry := JObj [("id", JStr id); ("ingested_at", JStr (iso ts));
                     ("title", JStr title); ("url", JStr url)] in
  add_document sha256_hex chroma_add_error (JStr c) (JObj md) doc_id
               (St (Store dir coll) o)
  = match assoc_get idx key with
    | Some _ => (Ok false, St (Store dir coll) (tick o))
    | None =>
        match chroma_add_error coll r with
        | Some _ => (Ok false, St (Store dir coll) o2)
        | None =>
            (Ok true,
             St (Store dir (added coll r))
                (write_quietly
                   (path_join (path_join dir "documents") (id ++ ".json"))
                   (JObj [("content", JStr c); ("metadata", JObj mde)])
                   (write_quietly (dedup_file_of dir)
                      (JObj (dict_set idx key entry)) o2)))
        end
    end.
Proof.
  intros Hu Ht Hseen. cbn zeta.
  unfold add_document.
  unfold try_except at 1.
  unfold bind at 1. unfold on_sys at 1, zoom at 1, now at 1. cbn [sys store].
  unfold bind at 1. unfold dict_copy at 1, ret at 1.
  unfold bind at 1. unfold py_slice at 1, ret at 1.
  fold (enrich md (wall_clock o (clock_reads o)) c).
  unfold bind at 1. unfold py_get at 1, ret at 1.
  rewrite (metadata_text_enrich md _ c "url") by auto. rewrite Hu.
  unfold bind at 1. unfold py_strip_value at 1, ret at 1.
  unfold bind at 1. unfold py_get at 1, ret at 1.
  rewrite (metadata_text_enrich md _ c "title") by auto. rewrite Ht.
  unfold bind at 1. unfold py_strip_value at 1, ret at 1.
  fold (tick o).
  set (url := py_strip u0). set (title := py_strip t0).
  set (ts := wall_clock o (clock_reads o)).
  set (mde := enrich md ts c).
  unfold bind at 1.
  assert (Hraw : forall s0 : st,
    (if truthy (py_or (JStr url) (JStr title))
     then ret (JStr (url ++ "|" ++ title))
     else py_slice 200 (JStr c)) s0 = (Ok (JStr (dedup_raw url title c)), s0)).
  { intros s0. unfold dedup_raw. by destruct (truthy _). }
  rewrite Hraw.
  unfold bind at 1. unfold encode_utf8 at 1, ret at 1.
  unfold bind at 1. unfold gets at 1. cbn [store persist_directory].
  set (key := sha256_hex (dedup_raw url title c)).
  rewrite load_seen.
  replace (seen_index (tick o) dir) with (JObj idx) by (by rewrite <- Hseen).
  unfold bind at 1. unfold py_in at 1, ret at 1.
  destruct (assoc_get idx key) as [v|] eqn:Hk; [reflexivity|].
  destruct doc_id as [d|];
    unfold collection_add, _ensure_documents_dir, py_setitem, on_sys, zoom,
      write_json, now, write_quietly, tick, try_except, bind, ret, raise, gets,
      modify;
    cbn [store sys collection persist_directory wall_clock clock_reads writable files];
    (destruct (chroma_add_error coll _) as [e|]; [reflexivity|]);
    unfold added; cbn [record_id];
    (destruct (has_id coll _);
     cbn [store sys collection persist_directory wall_clock clock_reads writable files];
     (destruct (writable o (dedup_file_of dir));
      cbn [store sys collection persist_directory wall_clock clock_reads writable files];
      destruct (writable o (path_join _ _)); reflexivity)).
Qed.

Lemma seen_index_tick o dir : seen_index (tick o) dir = seen_index o dir.
Proof. reflexivity. Qed.

Lemma seen_index_after_writes o dir name j idx :
  writable o (dedup_file_of dir) = true ->
  seen_index
    (write_quietly (path_join (path_join dir "documents") name) j
       (write_quietly (dedup_file_of dir) (JObj idx) o)) dir
  = JObj idx.
Proof.
  intros Hw. unfold seen_index, write_quietly. rewrite Hw.
  cbn [writable files].
  destruct (writable o (path_join _ name)); cbn [files].
  - rewrite lookup_insert_ne by apply backup_path_not_index.
    by rewrite lookup_insert_eq.
  - by rewrite lookup_insert_eq.
Qed.


End Idempotence.

(** A concrete ingestion: an empty store in directory "db", every path
    writable, a backend that accepts everything, the identity as hash. *)
Definition demo_os : os :=
  Os (fun n => Timestamp "2024-01-01T00:00:00+00:00" (Z.of_nat n)) 0
     (fun _ => true) ∅.

Definition demo_metadata : list (string * json) :=
  [("title", JStr "Mock Game Page"); ("url", JStr "https://example.com/mock-game")].


(** *** Games, refusals and the reach of the dedup key *)

Section Ingestion.

Variable sha256_hex : string -> string.
Variable chroma_add_error : list chroma_record -> chroma_record -> option exn.

Local Abbreviation add_document := (add_document sha256_hex chroma_add_error).
Local Abbreviation add_game := (add_game chroma_add_error).

(** [add_game], as far as its result and the store are concerned. *)
Lemma add_game_run (game : Game) (doc_id : option string)
    (dir : string) (coll : list chroma_record) (o : os) :
  let id := match doc_id with
            | Some d => d
            | None => "game_" ++ pretty (millis (wall_clock o (clock_reads o)))
            end in
  let o1 := match doc_id with Some _ => o | None => tick o end in
  let r := ChromaRecord id (JStr (_create_searchable_content game)) (model_dump game) in
  add_game game doc_id (St (Store dir coll) o)
  = match chroma_add_error coll r with
    | Some _ => (Ok false, St (Store dir coll) o1)
    | None =>
        (Ok true,
         St (Store dir (added coll r))
            (write_quietly (path_join (path_join dir "documents") (id ++ ".game.json"))
               (model_dump game) o1))
    end.
Proof.
  cbn zeta.
  destruct doc_id as [d|];
    unfold VectorStore.add_game, collection_add, _ensure_documents_dir, on_sys, zoom,
      write_json, now, write_quietly, tick, try_except, bind, ret, raise, gets, modify;
    cbn [store sys collection persist_directory wall_clock clock_reads writable files];
    (destruct (chroma_add_error coll _) as [e|]; [reflexivity|]);
    unfold added; cbn [record_id];
    (destruct (has_id coll _);
     cbn [store sys collection persist_directory wall_clock clock_reads writable files];
     destruct (writable o (path_join _ _)); reflexivity).
Qed.

(** X6. [add_game] never raises. It returns true exactly when the
    backend does not raise. The record (the given id or
    game_<milliseconds>, the searchable text and the dump of the game) is
    then the one record appended when its id is new to the collection; when
    the collection already holds that id the backend ignores the add, and
    [add_game] returns true all the same with the collection as it was. In
    both cases the backup is written when its path can be, and a failure to
    write it changes neither the result nor the collection. When the backend
    raises, the collection and the files are as before. Games are not
    deduplicated by content: the same game added again under another new id
    is stored again. *)
Theorem add_game_outcome (game : Game) (doc_id : option string)
    (dir : string) (coll : list chroma_record) (o : os) :
  let id := match doc_id with
            | Some d => d
            | None => "game_" ++ pretty (millis (wall_clock o (clock_reads o)))
            end in
  let r := ChromaRecord id (JStr (_create_searchable_content game)) (model_dump game) in
  let backup := path_join (path_join dir "documents") (id ++ ".game.json") in
  exists (b : bool) (s' : st),
    add_game game doc_id (St (Store dir coll) o) = (Ok b, s') /\
    (b = true <-> chroma_add_error coll r = None) /\
    (b = true ->
       (has_id coll id = false -> store s' = Store dir (coll ++ [r])%list) /\
       (has_id coll id = true -> store s' = Store dir coll) /\
       (writable o backup = true ->
          files (sys s') = <[backup := Doc (model_dump game)]> (files o)) /\
       (writable o backup = false -> files (sys s') = files o) /\
       (forall id2,
          let r2 := ChromaRecord id2 (JStr (_create_searchable_content game))
                      (model_dump game) in
          has_id coll id = false -> has_id coll id2 = false -> id2 <> id ->
          chroma_add_error (coll ++ [r])%list r2 = None ->
          exists s2, add_game game (Some id2) s' = (Ok true, s2) /\
                     collection (store s2) = (coll ++ [r; r2])%list)) /\
    (b = false -> store s' = Store dir coll /\ files (sys s') = files o).
Proof.
  cbn zeta. rewrite add_game_run. cbn zeta.
  set (id := match doc_id with Some d => d | None => _ end).
  set (r := ChromaRecord id _ _).
  set (o1 := match doc_id with Some _ => o | None => tick o end).
  assert (Hw : writable o1 = writable o) by (subst o1; by destruct doc_id).
  assert (Hf : files o1 = files o) by (subst o1; by destruct doc_id).
  destruct (chroma_add_error coll r) as [e|] eqn:Hadd.
  - exists false, (St (Store dir coll) o1).
    split; [reflexivity|]. split; [done|]. split; [discriminate|].
    intros _. by split.
  - eexists true, _. split; [reflexivity|]. split; [done|]. split; [|discriminate].
    intros _. cbn [store sys].
    split; [intros Hid; by rewrite (added_fresh coll r Hid)|].
    split; [intros Hid; by rewrite (added_present coll r Hid)|].
    unfold write_quietly. rewrite Hw. split; [|split].
    + intros ->. cbn [files]. by rewrite Hf.
    + by intros ->.
    + intros id2 Hid Hid2 Hne Hadd2. rewrite add_game_run. cbn zeta.
      rewrite (added_fresh coll r Hid), Hadd2.
      eexists. split; [reflexivity|]. cbn [store collection].
      rewrite added_fresh; [by rewrite <- app_assoc|].
      cbn [record_id]. rewrite has_id_snoc, Hid2. subst r. cbn [record_id orb].
      apply String.eqb_neq. congruence.
Qed.

(** What identifies a document for [add_document]: the stripped url and
    title when one of them is not empty, the first 200 characters of the
    content otherwise. *)
Definition same_dedup_key (url title c url' title' c' : string) : Prop :=
  (url' = url /\ title' = title /\ (url <> "" \/ title <> "")) \/
  (url = "" /\ title = "" /\ url' = "" /\ title' = "" /\
   py_take 200 c' = py_take 200 c).

Lemma truthy_url_or_title (url title : string) :
  truthy (py_or (JStr url) (JStr title))
  = negb (String.eqb url "") || negb (String.eqb title "").
Proof.
  unfold py_or. cbn [truthy].
  destruct (String.eqb url "") eqn:E; cbn [negb orb truthy]; [done|by rewrite E].
Qed.

Lemma same_dedup_key_raw url title c url' title' c' :
  same_dedup_key url title c url' title' c' ->
  dedup_raw url' title' c' = dedup_raw url title c.
Proof.
  intros [(-> & -> & H)|(-> & -> & -> & -> & H)].
  - unfold dedup_raw. rewrite truthy_url_or_title.
    destruct (String.eqb_spec url ""); destruct (String.eqb_spec title "");
      cbn [negb orb]; try done. by destruct H.
  - unfold dedup_raw. cbn. by rewrite H.
Qed.

(** X7. For [add_document] a document is a duplicate when it shares
    the dedup key of one ingested before, whatever else differs. After a
    first document has been ingested (new key, backend accepting, index file
    writable), a second one with another content, other metadata and another
    id is rejected with false, collection and files untouched, as soon as its
    url and title, stripped of blanks, are those of the first and not both
    empty; and when neither has a url or a title, as soon as the two contents
    agree on their first 200 characters. *)
Theorem add_document_dedup_key
    (dir : string) (coll : list chroma_record) (o : os)
    (c : string) (md idx : list (string * json)) (u0 t0 : string)
    (doc_id : option string)
    (c' : string) (md' : list (string * json)) (u0' t0' : string)
    (doc_id' : option string) :
  let ts := wall_clock o (clock_reads o) in
  let key := sha256_hex (dedup_raw (py_strip u0) (py_strip t0) c) in
  let id := match doc_id with
            | Some d => d
            | None => "doc_" ++ pretty (millis (wall_clock o (S (clock_reads o))))
            end in
  let r := ChromaRecord id (JStr c) (JObj (enrich md ts c)) in
  metadata_text md "url" = JStr u0 ->
  metadata_text md "title" = JStr t0 ->
  seen_index o dir = JObj idx ->
  assoc_get idx key = None ->
  chroma_add_error coll r = None ->
  writable o (dedup_file_of dir) = true ->
  metadata_text md' "url" = JStr u0' ->
  metadata_text md' "title" = JStr t0' ->
  same_dedup_key (py_strip u0) (py_strip t0) c (py_strip u0') (py_strip t0') c' ->
  exists s1 s2 : st,
    add_document (JStr c) (JObj md) doc_id (St (Store dir coll) o) = (Ok true, s1) /\
    add_document (JStr c') (JObj md') doc_id' s1 = (Ok false, s2) /\
    store s2 = store s1 /\
    files (sys s2) = files (sys s1).
Proof.
  intros ts key id r Hu Ht Hseen Hfresh Hadd Hw Hu' Ht' Hsame.
  pose proof (add_document_run sha256_hex chroma_add_error
                dir coll o c md idx u0 t0 doc_id Hu Ht Hseen) as H1.
  cbn zeta in H1. fold ts key id r in H1. rewrite Hfresh, Hadd in H1.
  set (coll1 := added coll r) in *.
  set (o2 := match doc_id with Some _ => tick o | None => tick (tick o) end) in *.
  set (entry := JObj [("id", JStr id); ("ingested_at", JStr (iso ts));
                      ("title", JStr (py_strip t0)); ("url", JStr (py_strip u0))]) in *.
  set (idx' := dict_set idx key entry) in *.
  set (backup := path_join (path_join dir "documents") (id ++ ".json")) in *.
  set (o3 := write_quietly backup (JObj [("content", JStr c);
                                         ("metadata", JObj (enrich md ts c))])
               (write_quietly (dedup_file_of dir) (JObj idx') o2)) in *.
  assert (Hw' : writable o2 (dedup_file_of dir) = true)
    by (subst o2; by destruct doc_id).
  assert (Hseen3 : seen_index o3 dir = JObj idx')
    by (by apply seen_index_after_writes).
  pose proof (add_document_run sha256_hex chroma_add_error
                dir coll1 o3 c' md' idx' u0' t0' doc_id'
                Hu' Ht' Hseen3) as H2.
  cbn zeta in H2. rewrite (same_dedup_key_raw _ _ _ _ _ _ Hsame) in H2.
  fold key in H2. subst idx'. rewrite assoc_get_dict_set_eq in H2.
  eexists _, _. split; [exact H1|]. split; [exact H2|]. by split.
Qed.

(** X8. A document the backend refuses leaves no trace:
    [add_document] returns false, the collection and every file are as
    before, and its key is not in the index, so that the document is not
    taken for a duplicate when it is offered again: a second attempt that the
    backend accepts returns true, and stores the document when the collection
    does not hold its id yet. *)
Theorem add_document_refused
    (dir : string) (coll : list chroma_record) (o : os)
    (c : string) (md idx : list (string * json)) (u0 t0 : string)
    (doc_id : string) (e : exn) :
  let key := sha256_hex (dedup_raw (py_strip u0) (py_strip t0) c) in
  let record (ts : timestamp) := ChromaRecord doc_id (JStr c) (JObj (enrich md ts c)) in
  metadata_text md "url" = JStr u0 ->
  metadata_text md "title" = JStr t0 ->
  seen_index o dir = JObj idx ->
  assoc_get idx key = None ->
  chroma_add_error coll (record (wall_clock o (clock_reads o))) = Some e ->
  exists s1 : st,
    add_document (JStr c) (JObj md) (Some doc_id) (St (Store dir coll) o)
      = (Ok false, s1) /\
    store s1 = Store dir coll /\
    files (sys s1) = files o /\
    seen_index (sys s1) dir = JObj idx /\
    (chroma_add_error coll (record (wall_clock o (S (clock_reads o)))) = None ->
     exists s2, add_document (JStr c) (JObj md) (Some doc_id) s1 = (Ok true, s2) /\
                (has_id coll doc_id = false ->
                 collection (store s2)
                 = (coll ++ [record (wall_clock o (S (clock_reads o)))])%list)).
Proof.
  intros key record Hu Ht Hseen Hfresh Hadd.
  pose proof (add_document_run sha256_hex chroma_add_error
                dir coll o c md idx u0 t0 (Some doc_id) Hu Ht Hseen) as H1.
  cbn zeta in H1. fold key in H1. rewrite Hfresh in H1.
  unfold record in Hadd. rewrite Hadd in H1.
  exists (St (Store dir coll) (tick o)). split; [exact H1|].
  split; [done|]. split; [done|]. split; [exact Hseen|].
  intros Hadd2.
  pose proof (add_document_run sha256_hex chroma_add_error
                dir coll (tick o) c md idx u0 t0 (Some doc_id) Hu Ht Hseen) as H2.
  cbn zeta in H2. fold key in H2. rewrite Hfresh in H2.
  unfold record in Hadd2. cbn [tick wall_clock clock_reads] in H2.
  rewrite Hadd2 in H2. eexists. split; [exact H2|].
  intros Hid. cbn [store collection]. by apply added_fresh.
Qed.

(** X9. The dedup index is only as good as its file: when the index
    file cannot be written, the failure is swallowed, the document (its id
    new to the collection) is stored all the same, and nothing remembers it.
    Offered again, the same document is not recognised: [add_document]
    returns true a second time. Under another new id the document is then
    stored twice; under the same id the backend ignores the second add and
    the collection stays as the first call left it. *)
Theorem add_document_without_index
    (dir : string) (coll : list chroma_record) (o : os)
    (c : string) (md idx : list (string * json)) (u0 t0 : string)
    (doc_id doc_id' : string) :
  let key := sha256_hex (dedup_raw (py_strip u0) (py_strip t0) c) in
  metadata_text md "url" = JStr u0 ->
  metadata_text md "title" = JStr t0 ->
  seen_index o dir = JObj idx ->
  assoc_get idx key = None ->
  (forall coll' r, chroma_add_error coll' r = None) ->
  writable o (dedup_file_of dir) = false ->
  has_id coll doc_id = false ->
  exists s1 s2 : st,
    add_document (JStr c) (JObj md) (Some doc_id) (St (Store dir coll) o)
      = (Ok true, s1) /\
    length (collection (store s1)) = length coll + 1 /\
    seen_index (sys s1) dir = JObj idx /\
    add_document (JStr c) (JObj md) (Some doc_id') s1 = (Ok true, s2) /\
    (doc_id' <> doc_id -> has_id coll doc_id' = false ->
     length (collection (store s2)) = length coll + 2) /\
    (doc_id' = doc_id -> store s2 = store s1).
Proof.
  intros key Hu Ht Hseen Hfresh Hadd Hw Hid.
  pose proof (add_document_run sha256_hex chroma_add_error
                dir coll o c md idx u0 t0 (Some doc_id) Hu Ht Hseen) as H1.
  cbn zeta in H1. fold key in H1. rewrite Hfresh, Hadd in H1.
  set (r := ChromaRecord _ _ _) in H1.
  rewrite (added_fresh coll r Hid) in H1.
  set (o3 := write_quietly _ _ _) in H1.
  assert (Hseen3 : seen_index o3 dir = JObj idx).
  { subst o3. unfold write_quietly at 2. cbn [tick writable]. rewrite Hw.
    unfold seen_index, write_quietly.
    destruct (writable (tick o) _); cbn [files tick]; [|exact Hseen].
    rewrite lookup_insert_ne by apply backup_path_not_index. exact Hseen. }
  pose proof (add_document_run sha256_hex chroma_add_error
                dir (coll ++ [r])%list o3 c md idx u0 t0 (Some doc_id')
                Hu Ht Hseen3) as H2.
  cbn zeta in H2. fold key in H2. rewrite Hfresh, Hadd in H2.
  set (r' := ChromaRecord _ _ _) in H2.
  eexists _, _. split; [exact H1|].
  split; [cbn [store collection]; rewrite length_app; cbn; lia|].
  split; [exact Hseen3|]. split; [exact H2|].
  cbn [store collection]. split.
  - intros Hne Hid'. rewrite added_fresh.
    + rewrite !length_app. cbn. lia.
    + subst r r'. cbn [record_id]. rewrite has_id_snoc, Hid'. cbn [record_id orb].
      apply String.eqb_neq. congruence.
  - intros ->. rewrite added_present; [reflexivity|].
    subst r r'. cbn [record_id]. rewrite has_id_snoc. cbn [record_id].
    rewrite String.eqb_refl. apply orb_true_r.
Qed.

End Ingestion.

Definition demo_game : Game :=
  MkGame "Gran Turismo" "PlayStation 1" "Racing" "Sony Computer Entertainment"
         "A realistic racing simulator." 1997.

(** The text a game is indexed under. *)
Example searchable_content_of_demo_game :
  _create_searchable_content demo_game
  = "[PlayStation 1] Gran Turismo (1997) - Genre: Racing, Publisher: Sony Computer Entertainment. A realistic racing simulator.".
Proof. reflexivity. Qed.

(** Two pages of one site: the same title and url up to blanks, different
    contents and scores. *)
Lemma add_document_dedup_key_witness :
  exists s1 s2 : st,
    add_document (fun x => x) (fun _ _ => None)
      (JStr "Mock Game was released in 2000.")
      (JObj [("title", JStr "Mock Game Page "); ("url", JStr "https://example.com/mock")])
      None (St (Store "db" []) demo_os) = (Ok true, s1) /\
    add_document (fun x => x) (fun _ _ => None)
      (JStr "A quite different text about Mock Game.")
      (JObj [("title", JStr "Mock Game Page"); ("url", JStr " https://example.com/mock");
             ("relevance_score", JNum 0.4)])
      (Some "other-id") s1 = (Ok false, s2) /\
    store s2 = store s1 /\
    files (sys s2) = files (sys s1).
Proof.
  apply (add_document_dedup_key (fun x => x) (fun _ _ => None) "db" [] demo_os
           "Mock Game was released in 2000."
           [("title", JStr "Mock Game Page "); ("url", JStr "https://example.com/mock")]
           [] "https://example.com/mock" "Mock Game Page " None
           "A quite different text about Mock Game."
           [("title", JStr "Mock Game Page"); ("url", JStr " https://example.com/mock");
            ("relevance_score", JNum 0.4)]
           " https://example.com/mock" "Mock Game Page" (Some "other-id"));
    try reflexivity.
  left. split; [reflexivity|]. split; [reflexivity|]. left. discriminate.
Defined.

(** A backend that is down for the first reading of the clock only. *)
Definition flaky_backend (coll : list chroma_record) (r : chroma_record) : option exn :=
  match record_metadata r with
  | JObj kvs =>
      match assoc_get kvs "ingested_at" with
      | Some (JStr t) => if String.eqb t "t0" then Some (Exn "ChromaError" "down") else None
      | _ => None
      end
  | _ => None
  end.

Definition numbered_clock_os (w : string -> bool) : os :=
  Os (fun n => Timestamp ("t" ++ pretty n) (Z.of_nat n)) 0 w ∅.

Lemma add_document_refused_witness :
  exists s1 s2 : st,
    add_document (fun x => x) flaky_backend (JStr "Mock content")
      (JObj demo_metadata) (Some "doc-1") (St (Store "db" []) (numbered_clock_os (fun _ => true)))
      = (Ok false, s1) /\
    store s1 = Store "db" [] /\
    files (sys s1) = ∅ /\
    add_document (fun x => x) flaky_backend (JStr "Mock content")
      (JObj demo_metadata) (Some "doc-1") s1 = (Ok true, s2) /\
    length (collection (store s2)) = 1.
Proof.
  destruct (add_document_refused (fun x => x) flaky_backend "db" []
              (numbered_clock_os (fun _ => true)) "Mock content" demo_metadata []
              "https://example.com/mock-game" "Mock Game Page" "doc-1"
              (Exn "ChromaError" "down"))
    as (s1 & H1 & Hs & Hf & _ & Hretry); try reflexivity.
  destruct Hretry as (s2 & H2 & Hc); [reflexivity|].
  exists s1, s2. split; [exact H1|]. split; [exact Hs|]. split; [exact Hf|].
  split; [exact H2|]. by rewrite (Hc eq_refl).
Defined.

Lemma add_document_without_index_witness :
  exists s1 s2 : st,
    add_document (fun x => x) (fun _ _ => None) (JStr "Mock content")
      (JObj demo_metadata) (Some "doc-1")
      (St (Store "db" []) (numbered_clock_os (fun _ => false))) = (Ok true, s1) /\
    length (collection (store s1)) = 1 /\
    add_document (fun x => x) (fun _ _ => None) (JStr "Mock content")
      (JObj demo_metadata) (Some "doc-2") s1 = (Ok true, s2) /\
    length (collection (store s2)) = 2.
Proof.
  destruct (add_document_without_index (fun x => x) (fun _ _ => None) "db" []
              (numbered_clock_os (fun _ => false)) "Mock content" demo_metadata []
              "https://example.com/mock-game" "Mock Game Page" "doc-1" "doc-2")
    as (s1 & s2 & H1 & Hl1 & _ & H2 & Hl & _); try reflexivity.
  exists s1, s2. split; [exact H1|]. split; [exact Hl1|]. split; [exact H2|].
  apply Hl; [discriminate|reflexivity].
Defined.

End VectorStoreFacts.


(** ** Properties of the memory store *)

Module MemoryFacts.
Import Memory.

(** The caps of the bounded sequences. *)
Definition bounded (s : st) : Prop :=
  (forall u l, facts_memory (mem s) !! u = Some l -> length l <= 50) /\
  length (conversation_context (mem s)) <= 50 /\
  length (successful_interactions (mem s)) <= 100.

(** The content of a fact, as [fact.get("content", "")] reads it; nothing
    for a value that is not a dict. *)
Definition content_of (f : json) : option json :=
  match f with
  | JObj kvs => Some (match assoc_get kvs "content" with Some x => x | None => JStr "" end)
  | _ => None
  end.

(** [existing] and [fact] are dicts with equal contents. *)
Definition same_content (existing fact : json) : bool :=
  match content_of existing, content_of fact with
  | Some c, Some c' => py_eq c c'
  | _, _ => false
  end.

Definition no_get : exn := Exn "AttributeError" "object has no attribute 'get'".

(** The duplicate scan as a function of the list alone. *)
Fixpoint scan (fact : json) (l : list json) (i : nat) : result (option (nat * json)) :=
  match l with
  | [] => Ok None
  | existing :: rest =>
      match content_of existing with
      | None => Raise no_get
      | Some c =>
          match content_of fact with
          | None => Raise no_get
          | Some c' => if py_eq c c' then Ok (Some (i, existing))
                       else scan fact rest (S i)
          end
      end
  end.

Lemma find_duplicate_scan {T} (fact : json) (l : list json) (i : nat) (s : T) :
  find_duplicate fact l i s = (scan fact l i, s).
Proof.
  revert i. induction l as [|existing rest IH]; intros i; [reflexivity|].
  cbn [find_duplicate scan]. unfold bind.
  destruct existing; try reflexivity.
  destruct fact; try reflexivity.
  cbn. destruct (py_eq _ _); [reflexivity | apply IH].
Qed.

(** What [_store_fact] makes of a user's fact list. *)
Definition store_result (fact : json) (l : list json) : list json :=
  match scan fact l 0 with
  | Ok (Some (i, JObj kvs)) =>
      match fact with
      | JObj e => <[i := JObj (dict_update kvs e)]> l
      | _ => l
      end
  | Ok (Some _) => l
  | Ok None =>
      if Nat.ltb 50 (length (l ++ [fact])) then py_last 50 (l ++ [fact])
      else (l ++ [fact])%list
  | Raise _ => l
  end.

Definition with_facts (m : AdvancedMemorySystem) (fm : gmap string (list json))
  : AdvancedMemorySystem :=
  Mem (memory_file m) fm (user_preferences m) (conversation_context m)
      (learned_patterns m) (successful_interactions m).

Lemma with_facts_id m : with_facts m (facts_memory m) = m.
Proof. by destruct m. Qed.

(** [_store_fact] never raises, touches nothing but the user's fact list,
    and leaves [store_result] there. *)
Lemma _store_fact_run (fact : json) (u : string) (s : st) :
  _store_fact fact u s =
  (Ok tt,
   St (with_facts (mem s)
         (<[u := store_result fact (default [] (facts_memory (mem s) !! u))]>
            (facts_memory (mem s))))
      (sys s)).
Proof.
  destruct s as [m o]. unfold _store_fact, try_except, store_result.
  unfold bind at 1. unfold gets at 1. cbn [mem sys].
  destruct (facts_memory m !! u) as [l|] eqn:Hu.
  - unfold bind at 1, ret at 1. unfold bind at 1, gets at 1. cbn [mem sys].
    rewrite Hu. change (default [] (Some l)) with l.
    unfold bind at 1. rewrite find_duplicate_scan.
    destruct (scan fact l 0) as [[[i ex]|]|e].
    + unfold bind, py_update, set_facts, set_mem, modify, ret, raise.
      destruct ex; cbn [mem sys]; rewrite ?insert_id, ?with_facts_id by done;
        try reflexivity.
      destruct fact; cbn [mem sys]; rewrite ?insert_id, ?with_facts_id by done;
        reflexivity.
    + unfold bind, set_facts, set_mem, modify, gets, ret. cbn [mem sys facts_memory].
      rewrite lookup_insert_eq. change (default [] (Some ?x)) with x.
      destruct (Nat.ltb 50 _); cbn [mem sys facts_memory]; [|reflexivity].
      unfold with_facts. cbn. by rewrite insert_insert_eq.
    + cbn. by rewrite insert_id, with_facts_id.
  - unfold bind at 1, set_facts at 1, set_mem at 1, modify at 1. cbn [mem sys].
    unfold bind at 1, gets at 1. cbn [mem sys facts_memory].
    rewrite lookup_insert_eq. change (default [] (Some ?x)) with x.
    change (default [] None) with (@nil json). cbn [scan].
    unfold find_duplicate, bind, set_facts, set_mem, modify, gets, ret.
    cbn [mem sys facts_memory]. rewrite lookup_insert_eq.
    change (default [] (Some ?x)) with x. cbn.
    unfold with_facts. cbn. by rewrite !insert_insert_eq.
Qed.

Lemma store_result_length (fact : json) (l : list json) :
  length l <= 50 -> length (store_result fact l) <= 50.
Proof.
  intros Hl. unfold store_result.
  destruct (scan fact l 0) as [[[i ex]|]|e]; [| |done].
  - destruct ex; try done. destruct fact; try done. by rewrite length_insert.
  - destruct (Nat.ltb_spec 50 (length (l ++ [fact]))); [|lia].
    rewrite py_last_length. lia.
Qed.

Lemma _store_fact_bounded (fact : json) (u : string) :
  preserves bounded (_store_fact fact u).
Proof.
  intros s (Hf & Hc & Hi). rewrite _store_fact_run.
  unfold bounded, with_facts.
  cbn [snd mem sys facts_memory conversation_context successful_interactions].
  split; [|done]. intros u' l'. destruct (decide (u = u')) as [<-|Hne].
  - rewrite lookup_insert_eq. intros [= <-]. apply store_result_length.
    destruct (facts_memory (mem s) !! u) as [l|] eqn:E; cbn; [by eapply Hf | lia].
  - rewrite lookup_insert_ne by done. apply Hf.
Qed.

Lemma on_sys_bounded {A} (m : M os A) : preserves bounded (on_sys m).
Proof. apply preserves_zoom. by intros s t. Qed.

Lemma set_prefs_bounded u p : preserves bounded (set_prefs u p).
Proof. apply preserves_modify. by intros s. Qed.

Lemma set_pattern_bounded k p : preserves bounded (set_pattern k p).
Proof. apply preserves_modify. by intros s. Qed.

(** Discharges [preserves bounded] goals by following the structure of the
    computation. *)
Ltac keeps :=
  repeat first
    [ apply preserves_ret | apply preserves_raise | apply preserves_gets
    | apply preserves_py_get | apply preserves_py_item | apply preserves_py_len
    | apply preserves_py_slice | apply preserves_py_num | apply preserves_py_iter
    | apply preserves_py_lower_value
    | apply on_sys_bounded | apply set_prefs_bounded | apply set_pattern_bounded
    | apply _store_fact_bounded
    | apply preserves_try | apply preserves_bind | apply preserves_for_each
    | match goal with
      | |- forall _, preserves _ _ => intro
      | |- preserves _ (if ?b then _ else _) => destruct b
      | |- preserves _ (match ?x with _ => _ end) => destruct x
      end ].

Lemma ensure_prefs_bounded u : preserves bounded (ensure_prefs u).
Proof. unfold ensure_prefs. keeps. Qed.

Lemma _classify_fact_type_bounded c : preserves bounded (_classify_fact_type c).
Proof. unfold _classify_fact_type. keeps. Qed.

Lemma _extract_fact_bounded q r : preserves bounded (_extract_fact_from_result q r).
Proof.
  unfold _extract_fact_from_result.
  keeps; apply _classify_fact_type_bounded.
Qed.

Lemma _update_user_preferences_bounded q r u :
  preserves bounded (_update_user_preferences q r u).
Proof.
  unfold _update_user_preferences.
  apply preserves_try; [|keeps].
  apply preserves_bind; [apply ensure_prefs_bounded|]. keeps.
Qed.

Lemma _extract_preferences_bounded q u :
  preserves bounded (_extract_preferences_from_conversation q u).
Proof.
  unfold _extract_preferences_from_conversation.
  apply preserves_try; [|keeps].
  apply preserves_bind; [apply ensure_prefs_bounded|]. keeps.
Qed.

Lemma _save_memory_bounded : preserves bounded _save_memory.
Proof. unfold _save_memory, make_parent_dir. keeps. Qed.

Lemma _learn_search_pattern_bounded h q r :
  preserves bounded (_learn_search_pattern h q r).
Proof. unfold _learn_search_pattern. keeps. Qed.

Lemma learn_from_web_search_bounded h q r u :
  preserves bounded (learn_from_web_search h q r u).
Proof.
  unfold learn_from_web_search, py_positive.
  apply preserves_try; [|keeps].
  apply preserves_bind; [keeps|]. intros found.
  destruct (negb (truthy found)); [keeps|].
  apply preserves_bind; [keeps|]. intros items.
  apply preserves_bind; [keeps|]. intros items'.
  apply preserves_bind.
  { apply preserves_for_each. intros result.
    apply preserves_bind; [apply _extract_fact_bounded|]. keeps. }
  intros _.
  apply preserves_bind; [apply _update_user_preferences_bounded|]. intros _.
  apply preserves_bind; [keeps|]. intros total.
  apply preserves_bind; [keeps|]. intros positive.
  apply preserves_bind.
  { destruct positive; [apply _learn_search_pattern_bounded | keeps]. }
  intros _. apply _save_memory_bounded.
Qed.

(** The context log after [_update_conversation_context]. *)
Lemma _update_conversation_context_bounded q a u :
  preserves bounded (_update_conversation_context q a u).
Proof.
  intros [m o] (Hf & Hc & Hi).
  unfold _update_conversation_context, try_except, bind, on_sys, zoom, now, gets,
    set_context, set_mem, modify, ret.
  cbn [mem sys conversation_context].
  match goal with |- context [Nat.ltb 50 (length ?l)] =>
    destruct (Nat.ltb_spec 50 (length l)) as [Hlt|Hge] end;
    unfold bounded;
    cbn [snd mem sys facts_memory conversation_context successful_interactions].
  - split; [done|]. split; [|done]. rewrite py_last_length. lia.
  - split; [done|]. split; done.
Qed.

Lemma learn_from_conversation_bounded q a u :
  preserves bounded (learn_from_conversation q a u).
Proof.
  assert (Hrest : preserves bounded
            (_extract_preferences_from_conversation q u ;;;
             _update_conversation_context q a u ;;; _save_memory)).
  { apply preserves_bind; [apply _extract_preferences_bounded|]. intros _.
    apply preserves_bind; [apply _update_conversation_context_bounded|]. intros _.
    apply _save_memory_bounded. }
  intros [m o] (Hf & Hc & Hi).
  unfold learn_from_conversation, try_except.
  unfold bind at 1, on_sys at 1, zoom at 1, now at 1. cbn [mem sys].
  unfold bind at 1, gets at 1. cbn [mem sys].
  unfold bind at 1, set_interactions at 1, set_mem at 1, modify at 1. cbn [mem sys].
  unfold bind at 1, gets at 1. cbn [mem sys successful_interactions].
  unfold bind at 1.
  match goal with |- context [Nat.ltb 100 (length ?l)] =>
    destruct (Nat.ltb_spec 100 (length l)) as [Hlt|Hge] end.
  - unfold set_interactions at 1, set_mem at 1, modify at 1. cbn [mem sys].
    match goal with |- context [bind _ _ ?s1] =>
      pose proof (Hrest s1) as Hr; destruct (bind _ _ s1) as [[[]|e] s2] end;
      cbn [snd] in *; apply Hr; (split; [done|]; split; [done|]);
      cbn [mem successful_interactions]; rewrite py_last_length; lia.
  - unfold ret at 1.
    match goal with |- context [bind _ _ ?s1] =>
      pose proof (Hrest s1) as Hr; destruct (bind _ _ s1) as [[[]|e] s2] end;
      cbn [snd] in *; apply Hr; (split; [done|]; split; [done|]);
      cbn [mem successful_interactions]; lia.
Qed.

(** *** The logs keep their newest entries *)

(** The entries [_update_conversation_context] and [learn_from_conversation]
    append. *)
Definition context_item_of (q a u : string) (t : timestamp) : json :=
  JObj [("timestamp", JStr (iso t)); ("user_id", JStr u); ("user_query", JStr q);
        ("agent_response", JStr (py_take 100 a));
        ("context_type", JStr "conversation")].

Definition interaction_of (q a u : string) (t : timestamp) : json :=
  JObj [("timestamp", JStr (iso t)); ("user_query", JStr q);
        ("agent_response", JStr (py_take 200 a)); ("user_id", JStr u);
        ("success_score", JNum (_calculate_success_score a))].

Lemma capped_append {A} (n : nat) (l : list A) (x : A) :
  (if Nat.ltb n (length (l ++ [x])) then py_last n (l ++ [x]) else (l ++ [x])%list)
  = py_last n (l ++ [x]).
Proof.
  destruct (Nat.ltb_spec n (length (l ++ [x]))); [done|]. by rewrite py_last_short.
Qed.

Lemma _update_conversation_context_run q a u (s : st) :
  conversation_context (mem (snd (_update_conversation_context q a u s)))
  = py_last 50 (conversation_context (mem s)
                ++ [context_item_of q a u (wall_clock (sys s) (clock_reads (sys s)))]).
Proof.
  destruct s as [m o]. rewrite <- capped_append.
  unfold _update_conversation_context, try_except, bind, on_sys, zoom, now, gets,
    set_context, set_mem, modify, ret, context_item_of.
  cbn [mem sys conversation_context].
  match goal with |- context [Nat.ltb 50 (length ?l)] =>
    destruct (Nat.ltb 50 (length l)) end; reflexivity.
Qed.

Section InteractionLog.

Variable log : list json.

(** The interaction log is [log]. *)
Definition log_is (s : st) : Prop := successful_interactions (mem s) = log.

Ltac same_log :=
  repeat first
    [ apply preserves_ret | apply preserves_raise | apply preserves_gets
    | apply preserves_py_get | apply preserves_py_item | apply preserves_py_len
    | apply preserves_py_slice | apply preserves_py_num | apply preserves_py_iter
    | apply preserves_py_lower_value
    | apply preserves_zoom; by intros ? ?
    | apply preserves_modify; by intros ?
    | apply preserves_try | apply preserves_bind
    | match goal with
      | |- forall _, preserves _ _ => intro
      | |- preserves _ (if ?b then _ else _) => destruct b
      | |- preserves _ (match ?x with _ => _ end) => destruct x
      end ].

Lemma after_interaction_log_is q a u :
  preserves log_is (_extract_preferences_from_conversation q u ;;;
                    _update_conversation_context q a u ;;; _save_memory).
Proof.
  unfold _extract_preferences_from_conversation, ensure_prefs,
    _update_conversation_context, _save_memory, make_parent_dir.
  same_log.
Qed.

End InteractionLog.

Lemma learn_from_conversation_run q a u (s : st) :
  successful_interactions (mem (snd (learn_from_conversation q a u s)))
  = py_last 100 (successful_interactions (mem s)
                 ++ [interaction_of q a u (wall_clock (sys s) (clock_reads (sys s)))]).
Proof.
  destruct s as [m o]. rewrite <- capped_append.
  unfold learn_from_conversation, try_except.
  unfold bind at 1, on_sys at 1, zoom at 1, now at 1. cbn [mem sys].
  unfold bind at 1, gets at 1. cbn [mem sys].
  unfold bind at 1, set_interactions at 1, set_mem at 1, modify at 1. cbn [mem sys].
  unfold bind at 1, gets at 1. cbn [mem sys successful_interactions].
  unfold bind at 1. fold (interaction_of q a u (wall_clock o (clock_reads o))).
  match goal with |- context [Nat.ltb 100 (length ?l)] =>
    destruct (Nat.ltb 100 (length l)) end.
  - unfold set_interactions at 1, set_mem at 1, modify at 1. cbn [mem sys].
    match goal with |- context [bind _ _ ?s1] =>
      pose proof (after_interaction_log_is _ q a u s1 eq_refl) as Hr;
      destruct (bind _ _ s1) as [[[]|e] s2] end; exact Hr.
  - unfold ret at 1.
    match goal with |- context [bind _ _ ?s1] =>
      pose proof (after_interaction_log_is _ q a u s1 eq_refl) as Hr;
      destruct (bind _ _ s1) as [[[]|e] s2] end; exact Hr.
Qed.

(** *** Distinct facts, stored one after the other *)

(** Every element is a dict, and no element has the content of an earlier
    one. *)
Definition distinct_contents (l : list json) : Prop :=
  Forall (fun f => is_Some (content_of f)) l /\
  forall i j f g, i < j -> l !! i = Some f -> l !! j = Some g ->
                  same_content f g = false.

Lemma distinct_contents_snoc_inv l f :
  distinct_contents (l ++ [f]) ->
  distinct_contents l /\ is_Some (content_of f) /\
  Forall (fun g => is_Some (content_of g) /\ same_content g f = false) l.
Proof.
  intros [Hd Hp]. apply Forall_app in Hd as [Hl Hf].
  apply Forall_inv in Hf.
  split; [split; [done|]|split; [done|]].
  - intros i j g h Hij Hi Hj. apply (Hp i j); [done| |].
    + by apply lookup_app_l_Some.
    + by apply lookup_app_l_Some.
  - apply Forall_lookup_2. intros i g Hi. split.
    + by eapply Forall_lookup_1 in Hl.
    + apply (Hp i (length l)).
      * by eapply lookup_lt_Some.
      * by apply lookup_app_l_Some.
      * by rewrite list_lookup_middle.
Qed.

Lemma scan_fresh (fact : json) (l : list json) (i : nat) :
  is_Some (content_of fact) ->
  Forall (fun g => is_Some (content_of g) /\ same_content g fact = false) l ->
  scan fact l i = Ok None.
Proof.
  intros [c' Hc']. revert i. induction l as [|g l IH]; intros i Hl; [done|].
  apply Forall_cons in Hl as [[[c Hc] Hne] Hl]. cbn [scan].
  unfold same_content in Hne. rewrite Hc, Hc' in *. rewrite Hne. by apply IH.
Qed.

(** A fact with a new content is appended, and the oldest facts beyond the
    cap of 50 are dropped. *)
Lemma store_result_fresh (fact : json) (l : list json) :
  is_Some (content_of fact) ->
  Forall (fun g => is_Some (content_of g) /\ same_content g fact = false) l ->
  store_result fact l = py_last 50 (l ++ [fact]).
Proof.
  intros Hf Hl. unfold store_result. rewrite scan_fresh by done.
  destruct (Nat.ltb_spec 50 (length (l ++ [fact]))); [done|].
  by rewrite py_last_short.
Qed.

Definition store_all (fs l : list json) : list json :=
  fold_left (fun acc f => store_result f acc) fs l.

Lemma store_all_distinct (fs : list json) :
  distinct_contents fs -> store_all fs [] = py_last 50 fs.
Proof.
  induction fs as [|f fs IH] using rev_ind; intros Hd; [done|].
  apply distinct_contents_snoc_inv in Hd as (Hd & Hf & Hl).
  unfold store_all in *. rewrite fold_left_app. cbn [fold_left].
  rewrite IH by done.
  rewrite store_result_fresh; [apply py_last_snoc | done |].
  unfold py_last. apply Forall_forall. intros g Hg.
  rewrite Forall_forall in Hl. apply Hl.
  by apply (subseteq_drop (length fs - 50) fs).
Qed.

Lemma store_each_run (fs : list json) (u : string) (s : st) :
  exists s', for_each fs (fun f => _store_fact f u) s = (Ok tt, s') /\
             sys s' = sys s /\
             default [] (facts_memory (mem s') !! u)
             = store_all fs (default [] (facts_memory (mem s) !! u)).
Proof.
  revert s. induction fs as [|f fs IH]; intros s.
  - exists s. by cbn.
  - cbn [for_each]. unfold bind. rewrite _store_fact_run.
    destruct (IH (St (with_facts (mem s)
                 (<[u := store_result f (default [] (facts_memory (mem s) !! u))]>
                    (facts_memory (mem s)))) (sys s))) as (s' & Hrun & Hsys & Hfacts).
    exists s'. split; [exact Hrun|]. split; [exact Hsys|].
    rewrite Hfacts. cbn [mem facts_memory with_facts store_all fold_left].
    by rewrite lookup_insert_eq.
Qed.

Lemma scan_first_duplicate (fact ex : json) (pre post : list json) (i : nat) :
  same_content ex fact = true ->
  Forall (fun g => is_Some (content_of g) /\ same_content g fact = false) pre ->
  scan fact (pre ++ ex :: post) i = Ok (Some (i + length pre, ex)).
Proof.
  intros Hsame. revert i. induction pre as [|g pre IH]; intros i Hpre.
  - cbn. unfold same_content in Hsame.
    destruct (content_of ex) as [c|]; [|done].
    destruct (content_of fact) as [c'|]; [|done].
    rewrite Hsame. do 3 f_equal. lia.
  - apply Forall_cons in Hpre as [[[c Hc] Hne] Hpre]. cbn [app scan].
    unfold same_content in Hne. rewrite Hc in *.
    destruct (content_of fact) as [c'|] eqn:Hf.
    + rewrite Hne, IH by done. cbn [length]. do 3 f_equal. lia.
    + unfold same_content in Hsame. rewrite Hf in Hsame.
      by destruct (content_of ex).
Qed.

(** A fact whose content equals a stored fact's updates the first such fact
    where it stands. *)
Lemma store_result_duplicate
    (kvs e : list (string * json)) (pre post : list json) :
  same_content (JObj kvs) (JObj e) = true ->
  Forall (fun g => is_Some (content_of g) /\ same_content g (JObj e) = false) pre ->
  store_result (JObj e) (pre ++ JObj kvs :: post)
  = (pre ++ JObj (dict_update kvs e) :: post)%list.
Proof.
  intros Hsame Hpre. unfold store_result.
  rewrite (scan_first_duplicate _ _ _ _ 0 Hsame Hpre). cbn [Nat.add].
  rewrite insert_app_r_alt by lia. by rewrite Nat.sub_diag.
Qed.

(** C8. Every mutating operation of the memory store keeps the caps: at most
    50 facts per user, 50 conversation-context items and 100 interactions,
    whether the operation completes or fails on the way. Facts with pairwise
    distinct contents stored one after the other for a user with no facts end
    as the last 50 of them, oldest dropped first: of 60, exactly 50 remain,
    the first 10 gone and the newest kept. A fact whose content equals a
    stored fact's is merged into the first such fact where it stands, and the
    list keeps its length. Each log is cut from the front: a fact with a new
    content leaves the last 50 of the old facts and itself, a conversation
    leaves the last 50 of the old context and its item, and the last 100 of
    the old interactions and its interaction. *)
Theorem memory_caps (py_hash : string -> Z) :
  (forall query results user, preserves bounded (learn_from_web_search py_hash query results user)) /\
  (forall question answer user, preserves bounded (learn_from_conversation question answer user)) /\
  (forall fact user, preserves bounded (_store_fact fact user)) /\
  (forall question answer user, preserves bounded (_update_conversation_context question answer user)) /\
  (forall (fs : list json) (user : string) (s : st),
     distinct_contents fs ->
     default [] (facts_memory (mem s) !! user) = [] ->
     exists s', for_each fs (fun f => _store_fact f user) s = (Ok tt, s') /\
                default [] (facts_memory (mem s') !! user) = py_last 50 fs /\
                (length fs = 60 ->
                 facts_memory (mem s') !! user = Some (drop 10 fs) /\
                 length (drop 10 fs) = 50 /\
                 last (drop 10 fs) = last fs)) /\
  (forall (kvs e : list (string * json)) (pre post : list json) (user : string) (s : st),
     facts_memory (mem s) !! user = Some (pre ++ JObj kvs :: post)%list ->
     same_content (JObj kvs) (JObj e) = true ->
     Forall (fun g => is_Some (content_of g) /\ same_content g (JObj e) = false) pre ->
     exists s', _store_fact (JObj e) user s = (Ok tt, s') /\
                facts_memory (mem s') !! user
                = Some (pre ++ JObj (dict_update kvs e) :: post)%list /\
                length (pre ++ JObj (dict_update kvs e) :: post)
                = length (pre ++ JObj kvs :: post)) /\
  (forall (fact : json) (user : string) (s : st),
     is_Some (content_of fact) ->
     Forall (fun g => is_Some (content_of g) /\ same_content g fact = false)
            (default [] (facts_memory (mem s) !! user)) ->
     facts_memory (mem (snd (_store_fact fact user s))) !! user
     = Some (py_last 50 (default [] (facts_memory (mem s) !! user) ++ [fact]))) /\
  (forall (question answer user : string) (s : st),
     conversation_context (mem (snd (_update_conversation_context question answer user s)))
     = py_last 50 (conversation_context (mem s)
                   ++ [context_item_of question answer user
                         (wall_clock (sys s) (clock_reads (sys s)))])) /\
  (forall (question answer user : string) (s : st),
     successful_interactions (mem (snd (learn_from_conversation question answer user s)))
     = py_last 100 (successful_interactions (mem s)
                    ++ [interaction_of question answer user
                          (wall_clock (sys s) (clock_reads (sys s)))])).
Proof.
  split; [intros; apply learn_from_web_search_bounded|].
  split; [intros; apply learn_from_conversation_bounded|].
  split; [intros; apply _store_fact_bounded|].
  split; [intros; apply _update_conversation_context_bounded|].
  split; [|split].
  - intros fs user s Hd Hempty.
    destruct (store_each_run fs user s) as (s' & Hrun & _ & Hfacts).
    exists s'. split; [exact Hrun|].
    rewrite Hempty, store_all_distinct in Hfacts by done.
    split; [exact Hfacts|]. intros Hlen.
    assert (Hlast : py_last 50 fs = drop 10 fs)
      by (unfold py_last; by rewrite Hlen).
    rewrite Hlast in Hfacts.
    assert (Hl50 : length (drop 10 fs) = 50) by (rewrite length_drop; lia).
    split; [|split; [exact Hl50|]].
    + destruct (facts_memory (mem s') !! user) as [l|]; cbn in Hfacts.
      * by rewrite Hfacts.
      * by rewrite <- Hfacts in Hl50.
    + rewrite <- (take_drop 10 fs) at 2. rewrite last_app.
      destruct (last (drop 10 fs)) eqn:E; [done|].
      apply last_None in E. by rewrite E in Hl50.
  - intros kvs e pre post user s Hu Hsame Hpre.
    eexists. split; [apply _store_fact_run|].
    cbn [mem facts_memory with_facts]. rewrite lookup_insert_eq, Hu.
    change (default [] (Some ?x)) with x. rewrite store_result_duplicate by done.
    split; [done|]. by rewrite !length_app.
  - split; [|split].
    + intros fact user s Hf Hl. rewrite _store_fact_run.
      cbn [snd mem facts_memory with_facts]. rewrite lookup_insert_eq.
      by rewrite store_result_fresh.
    + intros. apply _update_conversation_context_run.
    + intros. apply learn_from_conversation_run.
Qed.

(** C10. [learn_from_web_search] on a payload whose "results" field is
    missing or empty returns at once: the whole state is left as it was, so
    no fact, preference, pattern or context is touched, the clock is not
    read and no file is written. *)
Theorem learn_from_web_search_noop
    (py_hash : string -> Z) (query user : string)
    (payload : list (string * json)) (s : st) :
  (assoc_get payload "results" = None \/
   exists v, assoc_get payload "results" = Some v /\ truthy v = false) ->
  learn_from_web_search py_hash query (JObj payload) user s = (Ok tt, s).
Proof.
  intros H. unfold learn_from_web_search, try_except.
  unfold bind at 1, py_get at 1, ret at 1.
  destruct H as [-> | (v & -> & ->)]; reflexivity.
Qed.

(** A memory with one stored fact, on a system with one file. *)
Definition demo_state : st :=
  St (Mem "./chromadb/memory.json"
          {["default" := [JObj [("content", JStr "Mock content")]]]}
          ∅ [] ∅ [])
     (Os (fun n => Timestamp "2024-01-01T00:00:00" (Z.of_nat n)) 0 (fun _ => true)
         {["./chromadb/memory.json" := Garbage "stale"]}).

Lemma learn_from_web_search_noop_witness :
  learn_from_web_search (fun _ => 0%Z) "mario games"
    (JObj [("results", JArr []); ("answer", JStr ""); ("total_results", JNum 0)])
    "default" demo_state
  = (Ok tt, demo_state).
Proof.
  apply learn_from_web_search_noop. right. exists (JArr []). by split.
Defined.

(** *** Scores and facts *)

Lemma _calculate_success_score_bounds (response : string) :
  (0.5 <= _calculate_success_score response)%Q /\
  (_calculate_success_score response <= 1)%Q.
Proof.
  unfold _calculate_success_score.
  destruct (Nat.ltb 100 _), (any_in _ _), (any_in _ _); cbn;
    split; apply Qle_bool_iff; reflexivity.
Qed.

Lemma last_py_last_snoc {A} (n : nat) (l : list A) (x : A) :
  0 < n -> last (py_last n (l ++ [x])) = Some x.
Proof.
  intros Hn. unfold py_last. rewrite length_app. cbn [length].
  rewrite drop_app_le by lia. apply last_snoc.
Qed.

(** X10. The success score of an interaction lies between 0.5 and 1,
    whatever the response; and [learn_from_conversation], which never
    raises, leaves as newest entry of the interaction log the interaction of
    this question and answer, cut to 200 characters, with that score. *)
Theorem success_score_in_range (question answer user : string) (s : st) :
  (0.5 <= _calculate_success_score answer)%Q /\
  (_calculate_success_score answer <= 1)%Q /\
  (exists s', learn_from_conversation question answer user s = (Ok tt, s')) /\
  last (successful_interactions (mem (snd (learn_from_conversation question answer user s))))
  = Some (JObj [("timestamp", JStr (iso (wall_clock (sys s) (clock_reads (sys s)))));
                ("user_query", JStr question);
                ("agent_response", JStr (py_take 200 answer));
                ("user_id", JStr user);
                ("success_score", JNum (_calculate_success_score answer))]).
Proof.
  destruct (_calculate_success_score_bounds answer) as [Hlo Hhi].
  split; [exact Hlo|]. split; [exact Hhi|]. split.
  - unfold learn_from_conversation, try_except.
    match goal with |- exists s', match ?b with _ => _ end = _ =>
      destruct b as [[[]|e] s1] end; by eexists.
  - rewrite learn_from_conversation_run. apply last_py_last_snoc. lia.
Qed.

(** The labels [_classify_fact_type] hands out. *)
Definition fact_types : list string :=
  ["release_info"; "genre_info"; "platform_info"; "publisher_info"; "review_info";
   "general_info"].

(** The label of a lowercased text: the first group of keywords with a word
    in the text decides. *)
Definition fact_type_of (content_lower : string) : string :=
  if any_in ["released"; "launch"; "came out"] content_lower then "release_info"
  else if any_in ["genre"; "type"; "category"] content_lower then "genre_info"
  else if any_in ["platform"; "console"; "system"] content_lower then "platform_info"
  else if any_in ["publisher"; "developer"; "studio"] content_lower then "publisher_info"
  else if any_in ["review"; "rating"; "score"] content_lower then "review_info"
  else "general_info".

Lemma fact_type_of_label (x : string) : fact_type_of x ∈ fact_types.
Proof.
  unfold fact_type_of, fact_types.
  repeat match goal with
         | |- context [if any_in ?w ?x then _ else _] => destruct (any_in w x)
         end; set_solver.
Qed.

Lemma _classify_fact_type_run (content : json) (s : st) :
  _classify_fact_type content s
  = (Ok (match content with
         | JStr c => fact_type_of (py_lower c)
         | _ => "general_info"
         end), s).
Proof.
  unfold _classify_fact_type, try_except, bind, py_lower_value, fact_type_of.
  destruct content as [| | |c| |]; try reflexivity.
  unfold ret.
  repeat match goal with
         | |- context [if any_in ?w ?x then _ else _] => destruct (any_in w x)
         end; reflexivity.
Qed.

Lemma py_take_length (n : nat) (s : string) : String.length (py_take n s) <= n.
Proof.
  unfold py_take. revert s. induction n as [|n IH]; intros [|a s]; cbn; try lia.
  specialize (IH s). lia.
Qed.

(** The fields of a fact. *)
Definition fact_of (query : string) (kvs : list (string * json)) (short : json)
    (t : timestamp) (kind : string) : json :=
  JObj [("content", short);
        ("source", match assoc_get kvs "url" with Some x => x | None => JStr "" end);
        ("title", match assoc_get kvs "title" with Some x => x | None => JStr "" end);
        ("query", JStr query);
        ("timestamp", JStr (iso t));
        ("relevance_score", match assoc_get kvs "relevance_score" with
                            | Some x => x | None => JNum 0.5 end);
        ("fact_type", JStr kind)].

(** The fact [_extract_fact_from_result] draws from a dict, at time [t]. *)
Definition extracted (query : string) (kvs : list (string * json)) (t : timestamp)
  : option json :=
  match assoc_get kvs "content" with
  | Some (JStr c) =>
      if Nat.ltb (String.length c) 50 then None
      else Some (fact_of query kvs (JStr (py_take 300 c)) t (fact_type_of (py_lower c)))
  | Some (JArr l) =>
      if Nat.ltb (length l) 50 then None
      else Some (fact_of query kvs (JArr (take 300 l)) t "general_info")
  | _ => None
  end.

Lemma _extract_fact_from_result_run (query : string) (kvs : list (string * json))
    (m : AdvancedMemorySystem) (o : os) :
  _extract_fact_from_result query (JObj kvs) (St m o)
  = (Ok (extracted query kvs (wall_clock o (clock_reads o))),
     St m (match extracted query kvs (wall_clock o (clock_reads o)) with
           | Some _ => Os (wall_clock o) (S (clock_reads o)) (writable o) (files o)
           | None => o
           end)).
Proof.
  unfold _extract_fact_from_result, extracted, try_except.
  unfold bind at 1, py_get at 1, ret at 1.
  unfold bind at 1, py_get at 1, ret at 1.
  destruct (assoc_get kvs "content") as [[|b|q|c|l|d]|]; cbn [truthy negb].
  - reflexivity.
  - by destruct b.
  - by destruct (Qeq_bool q 0).
  - destruct (String.eqb_spec c "") as [->|Hc]; cbn [negb]; [reflexivity|].
    unfold bind at 1, py_len at 1, ret at 1.
    destruct (Nat.ltb (String.length c) 50); [reflexivity|].
    unfold bind at 1, py_slice at 1, ret at 1.
    unfold bind at 1, py_get at 1, ret at 1.
    unfold bind at 1, on_sys at 1, zoom at 1, now at 1. cbn [sys mem].
    unfold bind at 1, py_get at 1, ret at 1.
    unfold bind at 1. by rewrite _classify_fact_type_run.
  - destruct l as [|x l]; [reflexivity|]. cbn [truthy negb].
    unfold bind at 1, py_len at 1, ret at 1.
    destruct (Nat.ltb (length (x :: l)) 50); [reflexivity|].
    unfold bind at 1, py_slice at 1, ret at 1.
    unfold bind at 1, py_get at 1, ret at 1.
    unfold bind at 1, on_sys at 1, zoom at 1, now at 1. cbn [sys mem].
    unfold bind at 1, py_get at 1, ret at 1.
    unfold bind at 1. by rewrite _classify_fact_type_run.
  - destruct d as [|kv d]; [reflexivity|]. cbn [truthy negb].
    unfold bind at 1, py_len at 1, ret at 1.
    by destruct (Nat.ltb (length (kv :: d)) 50).
  - reflexivity.
Qed.

(** X11. [_extract_fact_from_result] never raises and never
    touches the memory or the files. A result that is no dict, has no
    content, or has a text content of fewer than 50 characters gives no fact
    and changes nothing at all. A result with a text content of 50
    characters or more gives the fact with that content cut to its first 300
    characters, the result's url as source and its title (each "" when
    missing), the query, the reading of the clock as timestamp, the result's
    relevance_score (0.5 when missing), and one of the six fact types. *)
Theorem _extract_fact_from_result_outcome (query : string) (result : json) (s : st) :
  exists r s',
    _extract_fact_from_result query result s = (Ok r, s') /\
    mem s' = mem s /\
    files (sys s') = files (sys s) /\
    (r = None -> s' = s) /\
    ((forall kvs, result <> JObj kvs) -> r = None) /\
    (forall kvs, result = JObj kvs -> assoc_get kvs "content" = None -> r = None) /\
    (forall kvs c, result = JObj kvs -> assoc_get kvs "content" = Some (JStr c) ->
       String.length c < 50 -> r = None) /\
    (forall kvs c, result = JObj kvs -> assoc_get kvs "content" = Some (JStr c) ->
       50 <= String.length c ->
       exists kind,
         kind ∈ fact_types /\
         String.length (py_take 300 c) <= 300 /\
         r = Some (JObj [("content", JStr (py_take 300 c));
                         ("source", match assoc_get kvs "url" with
                                    | Some x => x | None => JStr "" end);
                         ("title", match assoc_get kvs "title" with
                                   | Some x => x | None => JStr "" end);
                         ("query", JStr query);
                         ("timestamp",
                          JStr (iso (wall_clock (sys s) (clock_reads (sys s)))));
                         ("relevance_score", match assoc_get kvs "relevance_score" with
                                             | Some x => x | None => JNum 0.5 end);
                         ("fact_type", JStr kind)])).
Proof.
  destruct s as [m o].
  destruct result as [| | | | |kvs];
    try (exists None, (St m o); split; [reflexivity|]; repeat split; done).
  rewrite _extract_fact_from_result_run. cbn [sys mem].
  set (t := wall_clock o (clock_reads o)).
  eexists _, _. split; [reflexivity|]. cbn [mem sys].
  split; [done|]. split; [by destruct (extracted query kvs t)|].
  split; [by intros ->|]. split; [intros H; by destruct (H kvs)|].
  split; [|split].
  - intros kvs' [= <-] Hc. unfold extracted. by rewrite Hc.
  - intros kvs' c [= <-] Hc Hlen. unfold extracted. rewrite Hc.
    by destruct (Nat.ltb_spec (String.length c) 50); [|lia].
  - intros kvs' c [= <-] Hc Hlen. unfold extracted. rewrite Hc.
    destruct (Nat.ltb_spec (String.length c) 50); [lia|].
    exists (fact_type_of (py_lower c)). split; [apply fact_type_of_label|].
    split; [apply py_take_length|reflexivity].
Qed.
(** *** Search patterns *)

Section Patterns.

Variable py_hash : string -> Z.

(** The key a query's pattern is kept under. *)
Definition pattern_key (query : string) : string :=
  "search_pattern_" ++ pretty (py_hash query mod 1000)%Z.

Definition with_patterns (m : AdvancedMemorySystem) (pm : gmap string Pattern)
  : AdvancedMemorySystem :=
  Mem (memory_file m) (facts_memory m) (user_preferences m) (conversation_context m)
      pm (successful_interactions m).

(** The pattern after one more success: before the total is read, and after
    all is done. *)
Definition counted (p : Pattern) : Pattern :=
  Pat (query_pattern p) (success_count p + 1) (avg_results p) (last_success p).

Definition learned (p : Pattern) (total : Q) (t : timestamp) : Pattern :=
  Pat (query_pattern p) (success_count p + 1) ((avg_results p + total) / 2)%Q
      (Some (iso t)).

Lemma _learn_search_pattern_run (query : string) (results : json)
    (m : AdvancedMemorySystem) (o : os) :
  let key := pattern_key query in
  let old := default (Pat query 0 0 None) (learned_patterns m !! key) in
  let total := match results with
               | JObj kvs => number_of (match assoc_get kvs "total_results" with
                                        | Some x => x | None => JNum 0 end)
               | _ => None
               end in
  _learn_search_pattern py_hash query results (St m o)
  = (Ok tt,
     match total with
     | Some total =>
         St (with_patterns m
               (<[key := learned old total (wall_clock o (clock_reads o))]>
                  (learned_patterns m)))
            (Os (wall_clock o) (S (clock_reads o)) (writable o) (files o))
     | None => St (with_patterns m (<[key := counted old]> (learned_patterns m))) o
     end).
Proof.
  cbn zeta. unfold _learn_search_pattern, try_except. fold (pattern_key query).
  set (key := pattern_key query).
  unfold bind at 1, gets at 1. cbn [mem].
  unfold bind at 1.
  assert (Hfirst : forall p0,
    (match learned_patterns m !! key with
     | Some p => ret p
     | None => set_pattern key p0 ;;; ret p0
     end) (St m o)
    = (Ok (default p0 (learned_patterns m !! key)),
       St (with_patterns m (match learned_patterns m !! key with
                            | Some _ => learned_patterns m
                            | None => <[key := p0]> (learned_patterns m)
                            end)) o)).
  { intros p0. destruct (learned_patterns m !! key); [by destruct m|reflexivity]. }
  rewrite Hfirst. set (old := default _ _).
  assert (Hins : forall p : Pattern,
    <[key := p]> (match learned_patterns m !! key with
                  | Some _ => learned_patterns m
                  | None => <[key := Pat query 0 0 None]> (learned_patterns m)
                  end) = <[key := p]> (learned_patterns m)).
  { intros p. destruct (learned_patterns m !! key); [done|]. by rewrite insert_insert_eq. }
  unfold bind at 1, set_pattern at 1, set_mem at 1, modify at 1.
  cbn [mem sys with_patterns memory_file facts_memory user_preferences
         conversation_context learned_patterns successful_interactions].
  rewrite Hins.
  destruct results as [| | | | |kvs]; try reflexivity.
  unfold bind at 1, py_get at 1, ret at 1.
  unfold bind at 1. rewrite py_num_run.
  destruct (number_of _) as [total|]; [|reflexivity].
  unfold bind, set_pattern, set_mem, modify, on_sys, zoom, now.
  cbn [mem sys with_patterns memory_file facts_memory user_preferences
         conversation_context learned_patterns successful_interactions
         query_pattern success_count avg_results last_success].
  unfold with_patterns, learned. cbn. by rewrite !insert_insert_eq.
Qed.

(** X12. [_learn_search_pattern] never raises and touches one pattern
    only, the one under the key search_pattern_<hash(query) mod 1000>. It
    counts one more success there; with a dict of results whose total is a
    number it moves the average halfway towards the total,
    (average + total) / 2, and notes the time. The pattern keeps the query it
    was created for: a later query whose hash falls on the same key counts
    into that pattern without changing its text. With results whose total
    cannot be read the count has been incremented all the same, and average
    and time stay. *)
Theorem _learn_search_pattern_update (query : string) (results : json) (s : st) :
  let key := pattern_key query in
  let old := default (Pat query 0 0 None) (learned_patterns (mem s) !! key) in
  exists s' p,
    _learn_search_pattern py_hash query results s = (Ok tt, s') /\
    mem s' = with_patterns (mem s) (<[key := p]> (learned_patterns (mem s))) /\
    files (sys s') = files (sys s) /\
    query_pattern p = query_pattern old /\
    success_count p = (success_count old + 1)%Z /\
    (forall kvs total,
       results = JObj kvs ->
       number_of (match assoc_get kvs "total_results" with
                  | Some x => x | None => JNum 0 end) = Some total ->
       avg_results p = ((avg_results old + total) / 2)%Q /\
       last_success p = Some (iso (wall_clock (sys s) (clock_reads (sys s))))) /\
    ((forall kvs, results = JObj kvs ->
        number_of (match assoc_get kvs "total_results" with
                   | Some x => x | None => JNum 0 end) = None) ->
     p = counted old /\ sys s' = sys s).
Proof.
  destruct s as [m o]. cbn zeta. rewrite _learn_search_pattern_run. cbn zeta.
  cbn [mem sys].
  set (key := pattern_key query). set (old := default _ _).
  destruct results as [| | | | |kvs];
    try (eexists _, _; split; [reflexivity|]; cbn [mem sys];
         repeat split; done).
  destruct (number_of _) as [total|] eqn:Ht.
  - eexists _, _. split; [reflexivity|]. cbn [mem sys files].
    split; [done|]. split; [done|]. split; [done|]. split; [done|]. split.
    + intros kvs' total' [= <-] Ht'. rewrite Ht in Ht'. injection Ht' as <-. done.
    + intros H. specialize (H kvs eq_refl). congruence.
  - eexists _, _. split; [reflexivity|]. cbn [mem sys files].
    split; [done|]. split; [done|]. split; [done|]. split; [done|]. split.
    + intros kvs' total' [= <-] Ht'. congruence.
    + done.
Qed.

(** Every pattern sits under one of the thousand keys. *)
Definition pattern_keys_ok (s : st) : Prop :=
  forall k, is_Some (learned_patterns (mem s) !! k) ->
            exists n : Z, (0 <= n < 1000)%Z /\ k = "search_pattern_" ++ pretty n.

Lemma pattern_key_ok (query : string) :
  exists n : Z, (0 <= n < 1000)%Z /\ pattern_key query = "search_pattern_" ++ pretty n.
Proof.
  exists (py_hash query mod 1000)%Z. split; [|done]. by apply Z.mod_pos_bound.
Qed.

Lemma _learn_search_pattern_keys query results :
  preserves pattern_keys_ok (_learn_search_pattern py_hash query results).
Proof.
  intros [m o] Hs. rewrite _learn_search_pattern_run. cbn zeta.
  assert (Hins : forall p o',
            pattern_keys_ok (St (with_patterns m (<[pattern_key query := p]>
                                                    (learned_patterns m))) o')).
  { intros p o' k. cbn [mem with_patterns learned_patterns].
    destruct (decide (k = pattern_key query)) as [->|Hne].
    - intros _. apply pattern_key_ok.
    - rewrite lookup_insert_ne by done. apply Hs. }
  destruct (match results with JObj _ => _ | _ => None end); apply Hins.
Qed.

(** Discharges [preserves I] goals for an invariant [I] on parts of the
    memory that the computation at hand does not write. *)
Ltac untouched :=
  repeat first
    [ apply preserves_ret | apply preserves_raise | apply preserves_gets
    | apply preserves_py_get | apply preserves_py_item | apply preserves_py_len
    | apply preserves_py_slice | apply preserves_py_num | apply preserves_py_iter
    | apply preserves_py_lower_value
    | apply _learn_search_pattern_keys
    | apply preserves_zoom; by intros ? ?
    | apply preserves_modify; by intros ?
    | apply preserves_try | apply preserves_bind | apply preserves_for_each
    | match goal with
      | |- forall _, preserves _ _ => intro
      | |- preserves _ (if ?b then _ else _) => destruct b
      | |- preserves _ (match ?x with _ => _ end) => destruct x
      end ].

Lemma learn_from_web_search_keys query results user :
  preserves pattern_keys_ok (learn_from_web_search py_hash query results user).
Proof.
  unfold learn_from_web_search, py_positive, _extract_fact_from_result,
    _classify_fact_type, _store_fact, _update_user_preferences, ensure_prefs,
    _save_memory, make_parent_dir, py_update.
  apply preserves_try; [|untouched].
  apply preserves_bind; [untouched|]. intros found.
  destruct (negb (truthy found)); [untouched|].
  apply preserves_bind; [untouched|]. intros items.
  apply preserves_bind; [untouched|]. intros items'.
  apply preserves_bind.
  { apply preserves_for_each. intros result.
    apply preserves_bind; [untouched|]. intros [f|]; [|untouched].
    destruct (truthy f); [|untouched].
    apply preserves_try; [|untouched].
    apply preserves_bind; [untouched|]. intros known.
    apply preserves_bind; [destruct known; untouched|]. intros _.
    apply preserves_bind; [untouched|]. intros existing.
    apply preserves_bind.
    { generalize 0. induction existing as [|x l IH]; intros i; cbn [find_duplicate];
        [untouched|].
      apply preserves_bind; [untouched|]. intros c.
      apply preserves_bind; [untouched|]. intros c'.
      destruct (py_eq c c'); [untouched|apply IH]. }
    intros [[i ex]|]; untouched. }
  intros _. untouched.
Qed.

Lemma learn_from_conversation_keys question answer user :
  preserves pattern_keys_ok (learn_from_conversation question answer user).
Proof.
  unfold learn_from_conversation, _extract_preferences_from_conversation,
    ensure_prefs, _update_conversation_context, _save_memory, make_parent_dir.
  untouched.
Qed.

(** A map whose keys all come from a list has no more entries than the
    list has elements. *)
Lemma size_keys_from {A} (m : gmap string A) (keys : list string) :
  NoDup keys -> (forall k, is_Some (m !! k) -> k ∈ keys) -> size m <= length keys.
Proof.
  intros Hnd Hk. rewrite <- size_dom, <- (size_list_to_set (C := gset string)) by done.
  apply subseteq_size. intros k Hin. apply elem_of_dom in Hin.
  apply elem_of_list_to_set. by apply Hk.
Qed.

(** X13. The learned patterns cannot grow without bound: every
    pattern the memory learns sits under one of the thousand keys
    search_pattern_0 ... search_pattern_999, whatever is asked and however
    often, so a memory that starts from such keys (an empty one, say) never
    holds more than 1000 patterns. *)
Theorem learned_patterns_bounded :
  (forall query results user,
     preserves pattern_keys_ok (learn_from_web_search py_hash query results user)) /\
  (forall question answer user,
     preserves pattern_keys_ok (learn_from_conversation question answer user)) /\
  (forall query results,
     preserves pattern_keys_ok (_learn_search_pattern py_hash query results)) /\
  (forall s, learned_patterns (mem s) = ∅ -> pattern_keys_ok s) /\
  (forall s, pattern_keys_ok s -> size (learned_patterns (mem s)) <= 1000).
Proof.
  split; [intros; apply learn_from_web_search_keys|].
  split; [intros; apply learn_from_conversation_keys|].
  split; [intros; apply _learn_search_pattern_keys|].
  split.
  - intros s Hs k. rewrite Hs, lookup_empty. by intros [? ?].
  - intros s Hs.
    rewrite (size_keys_from _
               (map (fun n => "search_pattern_" ++ pretty n) (seqZ 0 1000))).
    + by rewrite length_map, length_seqZ.
    + apply NoDup_fmap_2; [|apply NoDup_seqZ].
      intros n1 n2 Hn. apply string_app_inv_head in Hn. by apply pretty_Z_inj.
    + intros k Hk. destruct (Hs k Hk) as (n & Hn & ->).
      apply list_elem_of_fmap. exists n. split; [done|].
      apply elem_of_seqZ. lia.
Qed.

End Patterns.
(** *** Preferences *)

Lemma add_matches_elem (candidates : list string) (text : string) (have : list string)
    (w : string) :
  w ∈ add_matches candidates text have
  <-> w ∈ have \/ (w ∈ candidates /\ py_contains w text = true).
Proof.
  unfold add_matches. revert have.
  induction candidates as [|c candidates IH]; intros have; cbn [fold_left].
  - split; [by left|]. intros [H|[H _]]; [done|]. by apply elem_of_nil in H.
  - rewrite IH. rewrite elem_of_cons.
    destruct (py_contains c text) eqn:Hc; cbn [andb].
    + destruct (str_in c have) eqn:Hin; cbn [negb].
      * apply str_in_elem_of in Hin. split; [tauto|].
        intros [H|[[H|H] H']]; subst; tauto.
      * rewrite elem_of_app, list_elem_of_singleton. split; [|tauto].
        intros [[H|H]|[H H']]; subst; tauto.
    + split; [tauto|]. intros [H|[[H|H] H']]; subst; [tauto|congruence|tauto].
Qed.

Lemma add_matches_prefix (candidates : list string) (text : string) (have : list string) :
  have `prefix_of` add_matches candidates text have.
Proof.
  unfold add_matches. revert have.
  induction candidates as [|c candidates IH]; intros have; cbn [fold_left]; [done|].
  destruct (_ && _); [|apply IH].
  etransitivity; [|apply IH]. by apply prefix_app_r.
Qed.

Lemma add_matches_NoDup (candidates : list string) (text : string) (have : list string) :
  NoDup have -> NoDup (add_matches candidates text have).
Proof.
  unfold add_matches. revert have.
  induction candidates as [|c candidates IH]; intros have Hnd; cbn [fold_left]; [done|].
  destruct (py_contains c text); cbn [andb]; [|by apply IH].
  destruct (str_in c have) eqn:Hin; cbn [negb]; [by apply IH|].
  apply IH. apply NoDup_app. split; [done|]. split; [|apply NoDup_singleton].
  intros x Hx ->%list_elem_of_singleton.
  apply str_in_elem_of in Hx. congruence.
Qed.

Definition genre_words : list string :=
  ["action"; "rpg"; "adventure"; "racing"; "sports"; "fighting"; "puzzle"; "strategy"].

Definition platform_words : list string :=
  ["playstation"; "xbox"; "nintendo"; "pc"; "mobile"].

Definition with_prefs (m : AdvancedMemorySystem) (um : gmap string UserPrefs)
  : AdvancedMemorySystem :=
  Mem (memory_file m) (facts_memory m) um (conversation_context m)
      (learned_patterns m) (successful_interactions m).

Lemma _update_user_preferences_run (query : string) (results : json) (user : string)
    (m : AdvancedMemorySystem) (o : os) :
  let known := user_preferences m !! user in
  let old := default (fresh_prefs (wall_clock o (clock_reads o))) known in
  let n := match known with Some _ => clock_reads o | None => S (clock_reads o) end in
  _update_user_preferences query results user (St m o)
  = (Ok tt,
     St (with_prefs m
           (<[user := Prefs (add_matches genre_words (py_lower query) (genres old))
                            (add_matches platform_words (py_lower query) (platforms old))
                            (publishers old) (interests old)
                            (iso (wall_clock o n))]>
              (user_preferences m)))
        (Os (wall_clock o) (S n) (writable o) (files o))).
Proof.
  cbn zeta. unfold _update_user_preferences, try_except, ensure_prefs.
  unfold bind at 1. unfold bind at 1, gets at 1. cbn [mem].
  destruct (user_preferences m !! user) as [p|] eqn:Hu.
  - unfold ret at 1.
    unfold bind, set_prefs, set_mem, modify, on_sys, zoom, now.
    cbn [mem sys memory_file facts_memory user_preferences conversation_context
           learned_patterns successful_interactions wall_clock clock_reads writable files
           default].
    unfold with_prefs. by rewrite !insert_insert_eq.
  - unfold bind, set_prefs, set_mem, modify, on_sys, zoom, now, ret.
    cbn [mem sys memory_file facts_memory user_preferences conversation_context
           learned_patterns successful_interactions wall_clock clock_reads writable files
           default].
    unfold with_prefs. by rewrite !insert_insert_eq.
Qed.

(** X14. [_update_user_preferences] never raises and only ever adds: the
    genres and platforms the user's profile had (a new profile has none) are
    the first of those it has afterwards, in their order; what is added is
    each word of the fixed vocabulary that occurs in the lowercased query and
    was not there yet (occurs as a substring: "pc" is found in "upcoming"),
    each once, so a profile without duplicates stays without. Publishers and
    interests are left as they were, the profile is stamped with the time,
    the other users' profiles and the files are not touched; the results
    play no part. *)
Theorem _update_user_preferences_accumulates
    (query : string) (results : json) (user : string) (s : st) :
  let old := default (fresh_prefs (wall_clock (sys s) (clock_reads (sys s))))
                     (user_preferences (mem s) !! user) in
  exists s' p,
    _update_user_preferences query results user s = (Ok tt, s') /\
    mem s' = with_prefs (mem s) (<[user := p]> (user_preferences (mem s))) /\
    files (sys s') = files (sys s) /\
    genres old `prefix_of` genres p /\
    platforms old `prefix_of` platforms p /\
    (forall w, w ∈ genres p <->
               w ∈ genres old \/ (w ∈ genre_words /\ py_contains w (py_lower query) = true)) /\
    (forall w, w ∈ platforms p <->
               w ∈ platforms old \/
               (w ∈ platform_words /\ py_contains w (py_lower query) = true)) /\
    (NoDup (genres old) -> NoDup (genres p)) /\
    (NoDup (platforms old) -> NoDup (platforms p)) /\
    publishers p = publishers old /\
    interests p = interests old.
Proof.
  destruct s as [m o]. cbn zeta. rewrite _update_user_preferences_run. cbn zeta.
  cbn [mem sys]. eexists _, _. split; [reflexivity|]. cbn [mem sys files].
  split; [reflexivity|]. split; [done|].
  cbn [genres platforms publishers interests].
  split; [apply add_matches_prefix|]. split; [apply add_matches_prefix|].
  split; [intros w; apply add_matches_elem|].
  split; [intros w; apply add_matches_elem|].
  split; [apply add_matches_NoDup|]. split; [apply add_matches_NoDup|]. done.
Qed.

(** *** The memory file *)

Lemma make_parent_dir_run {S} (path : string) (s : S) :
  make_parent_dir path s
  = (if py_contains "/" path then Ok tt
     else Raise (Exn "FileNotFoundError" "No such file or directory: ''"), s).
Proof. unfold make_parent_dir. by destruct (py_contains "/" path). Qed.

Lemma _save_memory_run (m : AdvancedMemorySystem) (o : os) :
  _save_memory (St m o)
  = (Ok tt,
     if py_contains "/" (memory_file m) then
       St m (if writable o (memory_file m)
             then Os (wall_clock o) (S (clock_reads o)) (writable o)
                     (<[memory_file m :=
                          Doc (memory_document m (wall_clock o (clock_reads o)))]>
                        (files o))
             else Os (wall_clock o) (S (clock_reads o)) (writable o) (files o))
     else St m o).
Proof.
  unfold _save_memory, try_except.
  unfold bind at 1, gets at 1. cbn [mem].
  unfold bind at 1. rewrite make_parent_dir_run.
  destruct (py_contains "/" (memory_file m)); [|reflexivity].
  unfold bind, on_sys, zoom, now, write_json. cbn [mem sys writable files wall_clock
                                                    clock_reads].
  by destruct (writable o (memory_file m)).
Qed.

Lemma _load_memory_run (m : AdvancedMemorySystem) (o : os) :
  _load_memory (St m o)
  = (Ok (match files o !! memory_file m with
         | Some (Doc j) => j
         | _ => empty_memory
         end), St m o).
Proof.
  unfold _load_memory, try_except.
  unfold bind at 1, gets at 1. cbn [mem].
  unfold bind at 1, on_sys at 1, zoom at 1, path_exists at 1, gets at 1. cbn [mem sys].
  destruct (files o !! memory_file m) as [[j|raw]|] eqn:Hf.
  - rewrite bool_decide_eq_true_2 by (by eexists).
    unfold on_sys, zoom, read_json, bind, gets. cbn [sys mem]. rewrite Hf.
    by destruct o.
  - rewrite bool_decide_eq_true_2 by (by eexists).
    unfold on_sys, zoom, read_json, bind, gets. cbn [sys mem]. rewrite Hf.
    by destruct o.
  - by rewrite bool_decide_eq_false_2 by (by intros [? ?]).
Qed.

(** X15. What [_save_memory] writes, [_load_memory] reads back: with
    a memory file that has a directory part and can be written,
    [_save_memory] leaves the memory as it is and the file holding the five
    stores and the time of saving, and [_load_memory] then returns that very
    document, from which the context log and the interaction log are read
    back as they are. *)
Theorem memory_survives_save (s : st) :
  py_contains "/" (memory_file (mem s)) = true ->
  writable (sys s) (memory_file (mem s)) = true ->
  let saved := memory_document (mem s) (wall_clock (sys s) (clock_reads (sys s))) in
  exists s1,
    _save_memory s = (Ok tt, s1) /\
    mem s1 = mem s /\
    files (sys s1) = <[memory_file (mem s) := Doc saved]> (files (sys s)) /\
    _load_memory s1 = (Ok saved, s1) /\
    py_get saved "conversation_context" (JArr []) s1
      = (Ok (JArr (conversation_context (mem s))), s1) /\
    py_get saved "successful_interactions" (JArr []) s1
      = (Ok (JArr (successful_interactions (mem s))), s1) /\
    py_get saved "last_updated" (JStr "Never") s1
      = (Ok (JStr (iso (wall_clock (sys s) (clock_reads (sys s))))), s1).
Proof.
  destruct s as [m o]. cbn [mem sys]. intros Hdir Hw. cbn zeta.
  rewrite _save_memory_run, Hdir, Hw. eexists. split; [reflexivity|].
  cbn [mem sys files]. split; [done|]. split; [done|].
  rewrite _load_memory_run. cbn [files]. rewrite lookup_insert_eq.
  split; [reflexivity|]. repeat split.
Qed.

(** X16. [_load_memory] never raises and changes nothing: it
    returns the document of the memory file, and the empty memory (no facts,
    no preferences, no context, no patterns, no interactions) when the file
    is missing or is not JSON. [_save_memory] never raises either, and its
    failures are silent: when the memory file is a bare file name, without a
    directory part, nothing is ever written, since the directory to create
    is then the empty path; and when the file cannot be written, the files
    stay as they are. *)
Theorem memory_file_edge_cases (s : st) :
  (exists j, _load_memory s = (Ok j, s) /\
     (files (sys s) !! memory_file (mem s) = None -> j = empty_memory) /\
     (forall raw, files (sys s) !! memory_file (mem s) = Some (Garbage raw) ->
        j = empty_memory) /\
     (forall d, files (sys s) !! memory_file (mem s) = Some (Doc d) -> j = d)) /\
  (exists s1, _save_memory s = (Ok tt, s1) /\ mem s1 = mem s /\
     (py_contains "/" (memory_file (mem s)) = false -> s1 = s) /\
     (writable (sys s) (memory_file (mem s)) = false -> files (sys s1) = files (sys s))).
Proof.
  destruct s as [m o]. cbn [mem sys]. split.
  - rewrite _load_memory_run. eexists. split; [reflexivity|].
    split; [by intros ->|]. split; [by intros raw ->|]. by intros d ->.
  - rewrite _save_memory_run. eexists. split; [reflexivity|].
    destruct (py_contains "/" (memory_file m)); cbn [mem sys].
    + split; [done|]. split; [done|]. by intros ->.
    + done.
Qed.

Lemma memory_survives_save_witness :
  exists s1 j,
    _save_memory demo_state = (Ok tt, s1) /\
    _load_memory s1 = (Ok j, s1) /\
    py_get j "facts" JNull s1
      = (Ok (JObj [("default", JArr [JObj [("content", JStr "Mock content")]])]), s1).
Proof.
  destruct (memory_survives_save demo_state) as (s1 & H1 & _ & _ & H2 & _);
    [reflexivity|reflexivity|].
  exists s1, (memory_document (mem demo_state) (wall_clock (sys demo_state) 0)).
  split; [exact H1|]. split; [exact H2|]. reflexivity.
Defined.

End MemoryFacts.

(** ** Properties of the retrieval tool *)

Module RetrievalFacts.
Import Retrieval.

(** A search entry as [search_games] builds it: a dict without a "game" key. *)
Definition entry_without_game (j : json) : Prop :=
  exists kvs, j = JObj kvs /\ assoc_get kvs "game" = None.

Section Search.
Context {S : Type}.
Variable chroma_query : string -> Z -> result json.
Variable game_by_alias : json -> option json.
Variable search_result_json : list json -> string -> nat -> Q -> option json.

Lemma search_entry_returns i doc distance metadata :
  returns entry_without_game (@search_entry S game_by_alias i doc distance metadata).
Proof.
  unfold search_entry.
  do 7 (apply returns_bind; intros ?).
  apply returns_ret. eexists. split; reflexivity.
Qed.

Lemma collect_returns {A B} (P : B -> Prop) (l : list A) (f : A -> M S B) :
  (forall x, returns P (f x)) -> returns (Forall P) (collect l f).
Proof.
  intros Hf. induction l as [|x l IH]; cbn [collect].
  - by apply returns_ret.
  - intros s ys s'. unfold bind.
    destruct (f x s) as [[y|e] s1] eqn:Ey; [|done].
    destruct (collect l f s1) as [[ys'|e] s2] eqn:Eys; [|done].
    intros [= <- <-]. constructor; [by eapply Hf | by eapply IH].
Qed.

Lemma search_games_returns query n :
  returns (Forall entry_without_game) (@search_games S chroma_query game_by_alias query n).
Proof.
  unfold search_games. apply returns_try; [|intros e; by apply returns_ret].
  do 2 (apply returns_bind; intros ?).
  destruct (negb _); [by apply returns_ret|].
  apply returns_bind; intros ?.
  destruct (negb _); [by apply returns_ret|].
  do 3 (apply returns_bind; intros ?).
  apply collect_returns. intros [i [[doc distance] metadata]].
  apply search_entry_returns.
Qed.

(** Nothing in the search touches the caller's state. *)
Lemma search_games_stateless query n (s : S) :
  snd (search_games chroma_query game_by_alias query n s) = s.
Proof.
  apply (preserves_try (fun s' => s' = s)); [|intros e; apply preserves_ret|reflexivity].
  assert (Hfirst : forall v, preserves (fun s' => s' = s) (@py_first S v)).
  { intros [| | |[|]|[|]|]; by intros ?. }
  assert (Hget : forall d a b x, preserves (fun s' => s' = s) (@get_either S d a b x)).
  { intros d a b x. unfold get_either.
    apply preserves_bind; [apply preserves_py_get|]. intros v.
    destruct (truthy v); [apply preserves_ret|].
    apply preserves_bind; [apply preserves_py_get|]. intros; apply preserves_ret. }
  assert (Hcollect : forall {A} (l : list A) (f : A -> M S json),
             (forall x, preserves (fun s' => s' = s) (f x)) -> preserves (fun s' => s' = s) (collect l f)).
  { intros A l f Hf. induction l as [|x l IH]; cbn [collect]; [apply preserves_ret|].
    apply preserves_bind; [apply Hf|]. intros y.
    apply preserves_bind; [apply IH|]. intros; apply preserves_ret. }
  apply preserves_bind; [by intros ?|]. intros results.
  apply preserves_bind; [apply preserves_py_item|]. intros documents.
  destruct (negb _); [apply preserves_ret|].
  apply preserves_bind; [apply Hfirst|]. intros first.
  destruct (negb _); [apply preserves_ret|].
  assert (Hcol : forall k, preserves (fun s' => s' = s)
            (d <- @py_item S results k ;; d0 <- py_first d ;; py_iter d0)).
  { intros k. apply preserves_bind; [apply preserves_py_item|]. intros d.
    apply preserves_bind; [apply Hfirst|]. intros d0. apply preserves_py_iter. }
  do 3 (apply preserves_bind; [apply Hcol|]; intros ?).
  apply Hcollect. intros [i [[doc distance] metadata]]. unfold search_entry.
  do 6 (apply preserves_bind; [apply Hget|]; intros ?).
  apply preserves_bind; [apply preserves_py_num|]. intros; apply preserves_ret.
Qed.

Lemma search_games_total query n (s : S) :
  exists l, search_games chroma_query game_by_alias query n s = (Ok l, s) /\
            Forall entry_without_game l.
Proof.
  pose proof (search_games_stateless query n s) as Hs.
  pose proof (search_games_returns query n s) as Hr.
  destruct (search_games chroma_query game_by_alias query n s) as [[l|e] s'] eqn:E.
  - cbn in Hs. subst s'. exists l. split; [done|]. by eapply Hr.
  - exfalso. unfold search_games, try_except in E.
    match type of E with (match ?b with _ => _ end) = _ =>
      destruct b as [[?|?] ?] end; discriminate.
Qed.

(** C9 (what the code does). Over the store's own [search_games], the
    retrieval tool never reports the mean similarity: whatever the backend
    answers, it returns either the empty-result envelope (no entries found, or
    the backend failed) or, as soon as the search found an entry, the error
    envelope of the [KeyError] raised by [result["game"]]; both carry
    confidence 0. *)
Theorem retrieve_game_tool_outcomes (query : string) (n : Z) (s : S) :
  let tool := retrieve_game_tool chroma_query game_by_alias search_result_json in
  (exists l, search_games chroma_query game_by_alias query n s = (Ok l, s) /\
     ((l = [] /\ tool query n s = (Ok (Doc (empty_envelope query)), s)) \/
      (l <> [] /\
       tool query n s = (Ok (Doc (error_envelope query (Exn "KeyError" "'game'"))), s)))).
Proof.
  cbn zeta. destruct (search_games_total query n s) as (l & Hl & Hall).
  exists l. split; [exact Hl|].
  destruct l as [|r l]; [left | right]; (split; [done|]);
    unfold retrieve_game_tool, try_except; unfold bind at 1; rewrite Hl;
    [reflexivity|].
  apply Forall_cons in Hall as [(kvs & -> & Hk) _].
  cbn [collect]. unfold bind at 1. unfold py_item at 1. rewrite Hk. reflexivity.
Qed.

End Search.

(** A backend holding one game, found at distance 0.2 (similarity 0.8). *)
Definition mock_metadata : json :=
  JObj [("name", JStr "Mock Game"); ("platform", JStr "MockPlatform");
        ("genre", JStr "Adventure"); ("publisher", JStr "MockPub");
        ("description", JStr "A mock game used for tests");
        ("year_of_release", JNum 2000)].

Definition mock_query (q : string) (n : Z) : result json :=
  Ok (JObj [("documents", JArr [JArr [JStr "[MockPlatform] Mock Game (2000)"]]);
            ("distances", JArr [JArr [JNum 0.2]]);
            ("metadatas", JArr [JArr [mock_metadata]])]).

(** [Game] validation on the mock record: the six fields under their
    aliases. *)
Definition mock_game_by_alias (md : json) : option json :=
  match md with
  | JObj kvs =>
      match assoc_get kvs "name", assoc_get kvs "platform", assoc_get kvs "genre",
            assoc_get kvs "publisher", assoc_get kvs "description",
            assoc_get kvs "year_of_release" with
      | Some n, Some p, Some g, Some pu, Some d, Some y =>
          Some (JObj [("Name", n); ("Platform", p); ("Genre", g); ("Publisher", pu);
                      ("Description", d); ("YearOfRelease", y)])
      | _, _, _, _, _, _ => None
      end
  | _ => None
  end.

(** The store finds the game with similarity 0.8 ... *)
Example search_games_finds_mock_game :
  exists entry,
    search_games mock_query mock_game_by_alias "When was Mock Game released?" 5 tt
    = (Ok [JObj entry], tt) /\
    assoc_get entry "Name" = Some (JStr "Mock Game") /\
    (exists q, assoc_get entry "similarity_score" = Some (JNum q) /\ Qeq q (8 # 10)) /\
    assoc_get entry "game" = None.
Proof.
  eexists. split; [vm_compute; reflexivity|].
  split; [reflexivity|]. split; [|reflexivity].
  eexists. split; [reflexivity|]. reflexivity.
Qed.

(** ... and the tool answers with the error envelope, confidence 0. *)
Example retrieve_game_tool_loses_the_game :
  retrieve_game_tool mock_query mock_game_by_alias (fun _ _ _ _ => None)
    "When was Mock Game released?" 5 tt
  = (Ok (Doc (JObj [("error", JStr "Error searching games: 'game'");
                    ("query", JStr "When was Mock Game released?");
                    ("total_results", JNum 0); ("confidence_score", JNum 0);
                    ("search_method", JStr "vector_db")])), tt).
Proof. vm_compute. reflexivity. Qed.

(** *** The entries of a search *)

(** [d.get(a) or d.get(b) or default] on a dict. *)
Definition either (kvs : list (string * json)) (a b : string) (default : json) : json :=
  let x := match assoc_get kvs a with Some x => x | None => JNull end in
  if truthy x then x
  else py_or (match assoc_get kvs b with Some y => y | None => JNull end) default.

(** The entry [search_games] builds from the metadata [kvs], for the hit at
    position [i] with document [doc] at distance [distance], of value [d]. *)
Definition entry_of (kvs : list (string * json)) (i : nat) (doc distance : json) (d : Q)
  : json :=
  JObj [("Name", either kvs "Name" "name" (JStr ""));
        ("Platform", either kvs "Platform" "platform" (JStr ""));
        ("Genre", either kvs "Genre" "genre" (JStr ""));
        ("Publisher", either kvs "Publisher" "publisher" (JStr ""));
        ("Description", either kvs "Description" "description" (JStr ""));
        ("YearOfRelease", either kvs "YearOfRelease" "year_of_release" JNull);
        ("content", doc); ("distance", distance);
        ("similarity_score", JNum (1 - d)%Q);
        ("rank", JNum (inject_Z (Z.of_nat (i + 1))))].

(** The first exception of a list of outcomes, or all the values. *)
Fixpoint sequence {B} (l : list (result B)) : result (list B) :=
  match l with
  | [] => Ok []
  | Ok y :: l' => match sequence l' with
                  | Ok ys => Ok (y :: ys)
                  | Raise e => Raise e
                  end
  | Raise e :: _ => Raise e
  end.

Lemma collect_sequence {S A B} (l : list A) (f : A -> M S B) (g : A -> result B) (s : S) :
  (forall x s, f x s = (g x, s)) ->
  collect l f s = (sequence (map g l), s).
Proof.
  intros Hf. induction l as [|x l IH]; [reflexivity|].
  cbn [collect map sequence]. unfold bind at 1. rewrite Hf.
  destruct (g x) as [y|e]; [|reflexivity].
  unfold bind at 1. rewrite IH. by destruct (sequence (map g l)).
Qed.

Lemma sequence_all {A B} (l : list A) (g : A -> result B) (h : A -> B) :
  Forall (fun x => g x = Ok (h x)) l -> sequence (map g l) = Ok (map h l).
Proof.
  induction 1 as [|x l Hx _ IH]; [reflexivity|].
  cbn [map sequence]. by rewrite Hx, IH.
Qed.

Lemma sequence_one_raises {A B} (l : list A) (g : A -> result B) (x : A) :
  x ∈ l -> (forall y, g x <> Ok y) -> exists e, sequence (map g l) = Raise e.
Proof.
  intros Hx Hbad. induction l as [|z l IH]; [by apply elem_of_nil in Hx|].
  cbn [map sequence]. destruct (g z) as [y|e] eqn:E; [|by exists e].
  apply elem_of_cons in Hx as [->|Hx]; [by destruct (Hbad y)|].
  destruct (IH Hx) as [e ->]. by exists e.
Qed.

Lemma zip3_length {A B C} (a : list A) (b : list B) (c : list C) :
  length (zip3 a b c) = Nat.min (length a) (Nat.min (length b) (length c)).
Proof.
  revert b c. induction a as [|x a IH]; intros [|y b] [|z c]; cbn; try done.
  by rewrite IH.
Qed.

Lemma zip3_lookup {A B C} (a : list A) (b : list B) (c : list C) (i : nat) x y z :
  a !! i = Some x -> b !! i = Some y -> c !! i = Some z ->
  zip3 a b c !! i = Some (x, y, z).
Proof.
  revert b c i. induction a as [|x0 a IH]; intros [|y0 b] [|z0 c] [|i]; cbn; try done.
  - by intros [= ->] [= ->] [= ->].
  - apply IH.
Qed.

Lemma enumerate_length {A} (i : nat) (l : list A) : length (enumerate i l) = length l.
Proof. revert i. induction l as [|x l IH]; intros i; cbn; [done|]. by rewrite IH. Qed.

Lemma enumerate_lookup {A} (i j : nat) (l : list A) (x : A) :
  l !! j = Some x -> enumerate i l !! j = Some (i + j, x).
Proof.
  revert i j. induction l as [|y l IH]; intros i [|j] H; try done.
  - injection H as ->. cbn [enumerate]. rewrite Nat.add_0_r. reflexivity.
  - cbn [enumerate]. rewrite lookup_cons_ne_0 by done. cbn [Nat.pred].
    replace (i + S j) with (S i + j) by lia. by apply IH.
Qed.

Lemma enumerate_elem_of {A} (i : nat) (l : list A) (p : nat * A) :
  p ∈ enumerate i l -> l !! (p.1 - i) = Some p.2 /\ i <= p.1.
Proof.
  revert i. induction l as [|y l IH]; intros i Hp; [by apply elem_of_nil in Hp|].
  cbn in Hp. apply elem_of_cons in Hp as [->|Hp].
  - cbn. by rewrite Nat.sub_diag.
  - destruct (IH _ Hp) as [Hl Hle]. split; [|lia].
    replace (p.1 - i) with (S (p.1 - S i)) by lia. exact Hl.
Qed.

Lemma zip3_elem_of {A B C} (a : list A) (b : list B) (c : list C) x y z :
  (x, y, z) ∈ zip3 a b c -> x ∈ a /\ y ∈ b /\ z ∈ c.
Proof.
  revert b c. induction a as [|x0 a IH]; intros [|y0 b] [|z0 c] H; cbn in H;
    try (by apply elem_of_nil in H).
  apply elem_of_cons in H as [[= -> -> ->]|H].
  - repeat split; apply list_elem_of_here.
  - destruct (IH _ _ H) as (? & ? & ?). repeat split; by apply elem_of_cons; right.
Qed.

Section Entries.
Context {S : Type}.
Variable chroma_query : string -> Z -> result json.
Variable game_by_alias : json -> option json.

Local Abbreviation search_games := (@search_games S chroma_query game_by_alias).

(** The metadata an entry is read from: the validated game under its
    aliases, or the raw metadata when validation fails. *)
Definition metadata_out (metadata : json) : json :=
  match game_by_alias metadata with
  | Some g => g
  | None => metadata
  end.

(** What becomes of one hit. *)
Definition entry_result (i : nat) (doc distance metadata : json) : result json :=
  match metadata_out metadata with
  | JObj kvs =>
      match number_of distance with
      | Some d => Ok (entry_of kvs i doc distance d)
      | None => Raise (Exn "TypeError" "unsupported operand type(s)")
      end
  | _ => Raise (Exn "AttributeError" "object has no attribute 'get'")
  end.

Lemma get_either_run (kvs : list (string * json)) (a b : string) (default : json) (s : S) :
  get_either (JObj kvs) a b default s = (Ok (either kvs a b default), s).
Proof.
  unfold get_either, either, bind, py_get, ret.
  by destruct (truthy _).
Qed.

Lemma search_entry_run (i : nat) (doc distance metadata : json) (s : S) :
  search_entry game_by_alias i doc distance metadata s
  = (entry_result i doc distance metadata, s).
Proof.
  unfold search_entry, entry_result. fold (metadata_out metadata).
  destruct (metadata_out metadata) as [| | | | |kvs]; try reflexivity.
  do 6 (unfold bind at 1; rewrite get_either_run).
  unfold bind, py_num, ret, raise. by destruct distance.
Qed.

(** The hits of a backend answer, each with its position. *)
Definition hits (docs distances metadatas : list json) : list (nat * (json * json * json)) :=
  enumerate 0 (zip3 docs distances metadatas).

(** [search_games] on a backend answer that holds its three lists. *)
Lemma search_games_run (query : string) (n : Z) (s : S)
    (results : list (string * json)) (docs distances metadatas : list json)
    (more_docs more_distances more_metadatas : list json) :
  chroma_query query n = Ok (JObj results) ->
  assoc_get results "documents" = Some (JArr (JArr docs :: more_docs)) ->
  assoc_get results "distances" = Some (JArr (JArr distances :: more_distances)) ->
  assoc_get results "metadatas" = Some (JArr (JArr metadatas :: more_metadatas)) ->
  search_games query n s
  = (Ok (match sequence (map (fun '(i, (doc, distance, metadata)) =>
                                entry_result i doc distance metadata)
                             (hits docs distances metadatas)) with
         | Ok l => l
         | Raise _ => []
         end), s).
Proof.
  intros Hq Hdocs Hdists Hmds.
  unfold Retrieval.search_games, try_except.
  unfold bind at 1, lift_backend at 1. rewrite Hq.
  unfold bind at 1, py_item at 1. rewrite Hdocs. unfold ret at 1.
  cbn [truthy negb].
  unfold bind at 1, py_first at 1, ret at 1.
  destruct docs as [|doc docs]; [reflexivity|]. cbn [truthy negb].
  unfold bind at 1. unfold bind at 1, py_item at 1. rewrite Hdocs. unfold ret at 1.
  unfold bind at 1, py_first at 1, ret at 1. unfold py_iter at 1, ret at 1.
  unfold bind at 1. unfold bind at 1, py_item at 1. rewrite Hdists. unfold ret at 1.
  unfold bind at 1, py_first at 1, ret at 1. unfold py_iter at 1, ret at 1.
  unfold bind at 1. unfold bind at 1, py_item at 1. rewrite Hmds. unfold ret at 1.
  unfold bind at 1, py_first at 1, ret at 1. unfold py_iter at 1, ret at 1.
  rewrite (collect_sequence _ _
             (fun '(i, (doc, distance, metadata)) => entry_result i doc distance metadata)).
  - unfold hits. by destruct (sequence _).
  - intros [i [[d x] md]] s'. apply search_entry_run.
Qed.

(** X17. [search_games] never raises and touches nothing. On a
    backend answer whose hits all have a number as distance and a dict as
    metadata (as validated, or raw when validation fails), it returns one
    entry per hit, as many as the shortest of the three lists of documents,
    distances and metadatas, in the backend's order: the entry at position i
    has rank i + 1, the hit's document as content, its distance, and
    1 - distance as similarity score. When the backend raises, the answer is
    the empty list. *)
Theorem search_games_entries (query : string) (n : Z) (s : S)
    (results : list (string * json)) (docs distances metadatas : list json)
    (more_docs more_distances more_metadatas : list json) :
  chroma_query query n = Ok (JObj results) ->
  assoc_get results "documents" = Some (JArr (JArr docs :: more_docs)) ->
  assoc_get results "distances" = Some (JArr (JArr distances :: more_distances)) ->
  assoc_get results "metadatas" = Some (JArr (JArr metadatas :: more_metadatas)) ->
  Forall (fun d => is_Some (number_of d)) distances ->
  Forall (fun md => exists kvs, metadata_out md = JObj kvs) metadatas ->
  exists l,
    search_games query n s = (Ok l, s) /\
    length l = Nat.min (length docs) (Nat.min (length distances) (length metadatas)) /\
    (forall i doc distance metadata,
       docs !! i = Some doc -> distances !! i = Some distance ->
       metadatas !! i = Some metadata ->
       exists kvs d,
         metadata_out metadata = JObj kvs /\ number_of distance = Some d /\
         l !! i = Some (entry_of kvs i doc distance d) /\
         py_item (entry_of kvs i doc distance d) "rank" s
           = (Ok (JNum (inject_Z (Z.of_nat i + 1))), s) /\
         py_item (entry_of kvs i doc distance d) "similarity_score" s
           = (Ok (JNum (1 - d)%Q), s) /\
         py_item (entry_of kvs i doc distance d) "content" s = (Ok doc, s)) /\
    (forall q' n' e, chroma_query q' n' = Raise e -> search_games q' n' s = (Ok [], s)).
Proof.
  intros Hq Hdocs Hdists Hmds Hnum Hdict.
  rewrite (search_games_run query n s results docs distances metadatas _ _ _
             Hq Hdocs Hdists Hmds).
  set (g := fun '(i, (doc, distance, metadata)) => entry_result i doc distance metadata).
  set (h := fun p : nat * (json * json * json) =>
              match metadata_out p.2.2, number_of p.2.1.2 with
              | JObj kvs, Some d => entry_of kvs p.1 p.2.1.1 p.2.1.2 d
              | _, _ => JNull
              end).
  assert (Hall : Forall (fun p => g p = Ok (h p)) (hits docs distances metadatas)).
  { apply Forall_forall. intros [i [[doc distance] metadata]] Hin.
    apply enumerate_elem_of in Hin as [Hin _]. cbn [fst snd] in Hin.
    apply list_elem_of_lookup_2, zip3_elem_of in Hin as (_ & Hd & Hm).
    rewrite Forall_forall in Hnum, Hdict.
    destruct (Hnum _ Hd) as [d Hd']. destruct (Hdict _ Hm) as [kvs Hm'].
    unfold g, h, entry_result. cbn [fst snd]. by rewrite Hm', Hd'. }
  rewrite (sequence_all _ g h Hall).
  eexists. split; [reflexivity|]. split; [|split].
  - unfold hits. by rewrite length_map, enumerate_length, zip3_length.
  - intros i doc distance metadata Hi Hd Hm.
    rewrite Forall_forall in Hnum, Hdict.
    destruct (Hnum distance) as [d Hd']; [by eapply list_elem_of_lookup_2|].
    destruct (Hdict metadata) as [kvs Hm']; [by eapply list_elem_of_lookup_2|].
    exists kvs, d. split; [exact Hm'|]. split; [exact Hd'|]. split.
    + rewrite list_lookup_fmap. unfold hits.
      rewrite (enumerate_lookup 0 i _ _ (zip3_lookup _ _ _ i _ _ _ Hi Hd Hm)).
      cbn [fmap option_fmap option_map]. unfold h. cbn [fst snd Nat.add].
      by rewrite Hm', Hd'.
    + replace (Z.of_nat i + 1)%Z with (Z.of_nat (i + 1)) by lia.
      split; [|split]; reflexivity.
  - intros q' n' e He. unfold Retrieval.search_games, try_except.
    unfold bind at 1, lift_backend at 1. by rewrite He.
Qed.

(** X18. One bad hit spoils the search: when, among the
    hits of the backend's answer, one has a distance that is not a number, or
    a metadata that is not a dict (a hit stored without metadata, say) and
    does not validate as a game, [search_games] swallows the exception and
    returns the empty list, the good hits included. *)
Theorem search_games_all_or_nothing (query : string) (n : Z) (s : S)
    (results : list (string * json)) (docs distances metadatas : list json)
    (more_docs more_distances more_metadatas : list json)
    (i : nat) (doc distance metadata : json) :
  chroma_query query n = Ok (JObj results) ->
  assoc_get results "documents" = Some (JArr (JArr docs :: more_docs)) ->
  assoc_get results "distances" = Some (JArr (JArr distances :: more_distances)) ->
  assoc_get results "metadatas" = Some (JArr (JArr metadatas :: more_metadatas)) ->
  docs !! i = Some doc -> distances !! i = Some distance ->
  metadatas !! i = Some metadata ->
  number_of distance = None \/ (forall kvs, metadata_out metadata <> JObj kvs) ->
  search_games query n s = (Ok [], s).
Proof.
  intros Hq Hdocs Hdists Hmds Hi Hd Hm Hbad.
  rewrite (search_games_run query n s results docs distances metadatas _ _ _
             Hq Hdocs Hdists Hmds).
  destruct (sequence_one_raises (hits docs distances metadatas)
              (fun '(i, (doc, distance, metadata)) =>
                 entry_result i doc distance metadata)
              (0 + i, (doc, distance, metadata))) as [e ->]; [| |reflexivity].
  - eapply list_elem_of_lookup_2. unfold hits.
    apply enumerate_lookup. by apply zip3_lookup.
  - intros y. unfold entry_result.
    destruct Hbad as [Hn|Hk].
    + rewrite Hn. by destruct (metadata_out metadata).
    + destruct (metadata_out metadata) as [| | | | |kvs]; try done.
      by destruct (Hk kvs).
Qed.

End Entries.

(** A backend with two hits, the second one stored without metadata. *)
Definition two_hits (q : string) (n : Z) : result json :=
  Ok (JObj [("documents", JArr [JArr [JStr "[MockPlatform] Mock Game (2000)";
                                      JStr "a note"]]);
            ("distances", JArr [JArr [JNum 0.2; JNum 0.5]]);
            ("metadatas", JArr [JArr [mock_metadata; JNull]])]).

Lemma search_games_entries_witness :
  exists entry,
    search_games mock_query mock_game_by_alias "When was Mock Game released?" 5 tt
    = (Ok [entry], tt) /\
    py_item entry "rank" tt = (Ok (JNum 1), tt) /\
    py_item entry "content" tt = (Ok (JStr "[MockPlatform] Mock Game (2000)"), tt).
Proof.
  destruct (search_games_entries (S := unit) mock_query mock_game_by_alias
              "When was Mock Game released?" 5 tt
              [("documents", JArr [JArr [JStr "[MockPlatform] Mock Game (2000)"]]);
               ("distances", JArr [JArr [JNum 0.2]]);
               ("metadatas", JArr [JArr [mock_metadata]])]
              [JStr "[MockPlatform] Mock Game (2000)"] [JNum 0.2] [mock_metadata]
              [] [] [] eq_refl eq_refl eq_refl eq_refl)
    as (l & Hrun & Hlen & Hentry & _).
  - repeat constructor. by eexists.
  - repeat constructor. by eexists.
  - destruct (Hentry 0 _ _ _ eq_refl eq_refl eq_refl)
      as (kvs & d & _ & _ & Hl & Hrank & _ & Hcontent).
    destruct l as [|entry [|? ?]]; try discriminate Hlen.
    injection Hl as ->. eexists. split; [exact Hrun|]. split; [exact Hrank|exact Hcontent].
Defined.

Lemma search_games_all_or_nothing_witness :
  search_games two_hits mock_game_by_alias "When was Mock Game released?" 5 tt
  = (Ok [], tt).
Proof.
  apply (search_games_all_or_nothing (S := unit) two_hits mock_game_by_alias
           "When was Mock Game released?" 5 tt
           [("documents", JArr [JArr [JStr "[MockPlatform] Mock Game (2000)";
                                      JStr "a note"]]);
            ("distances", JArr [JArr [JNum 0.2; JNum 0.5]]);
            ("metadatas", JArr [JArr [mock_metadata; JNull]])]
           [JStr "[MockPlatform] Mock Game (2000)"; JStr "a note"]
           [JNum 0.2; JNum 0.5] [mock_metadata; JNull] [] [] []
           1 (JStr "a note") (JNum 0.5) JNull);
    try reflexivity.
  right. intros kvs. discriminate.
Defined.

End RetrievalFacts.

(** ** Properties of the evaluation tool *)

Module EvaluationFacts.
Import Evaluation.

(** A report whose fields need no coercion. *)
Definition plain_report (useful : bool) (description : string) (confidence : Q)
    (recommendation : string) : json :=
  JObj [("useful", JBool useful); ("description", JStr description);
        ("confidence", JNum confidence); ("recommendation", JStr recommendation)].

(** The report of a failed or empty evaluation. *)
Definition search_web_report (description : string) : json :=
  plain_report false description 0 "search_web".

Section Evaluate.

Variable py_str : json -> string.
Variable judge : string -> result text.
Variable report_json : json -> json -> json -> json -> option json.

(** The report model accepts a bool, a text, the confidence 0.0 and a text as
    they are. *)
Hypothesis report_accepts_plain : forall d : string,
  report_json (JBool false) (JStr d) (JNum 0) (JStr "search_web")
  = Some (search_web_report d).

Local Abbreviation tool := (evaluate_retrieval_tool py_str judge report_json).
Local Abbreviation body := (evaluate_body py_str judge report_json).

Lemma failure_report (e : exn) (s : st) :
  _create_evaluation_report report_json (JBool false)
    (JStr ("Error during evaluation: " ++ exn_str e)) (JNum 0) (JStr "search_web") s
  = (Ok (Doc (search_web_report ("Error during evaluation: " ++ exn_str e))), s).
Proof. unfold _create_evaluation_report. by rewrite report_accepts_plain. Qed.

(** C6. The evaluation tool never raises. On a retrieval result without
    games it returns the report {useful: false, confidence: 0.0,
    recommendation: search_web} and sends nothing to the text-generation
    service. Whatever exception the evaluation raises on the way (a retrieval
    result that does not parse, a failing service call, an answer that does
    not parse or validate) is turned into the report with useful false,
    confidence 0.0, recommendation search_web and the error text in the
    description. *)
Theorem evaluate_retrieval_degrades (question : string) (docs : text) (s : st) :
  (exists out s', tool question docs s = (Ok out, s')) /\
  (forall payload,
     docs = Doc (JObj payload) ->
     truthy (match assoc_get payload "games" with Some g => g | None => JArr [] end)
       = false ->
     tool question docs s
     = (Ok (Doc (search_web_report "No games were retrieved from the database")), s)) /\
  (forall e s',
     body question docs s = (Raise e, s') ->
     tool question docs s
     = (Ok (Doc (search_web_report ("Error during evaluation: " ++ exn_str e))), s')) /\
  (forall raw,
     docs = Garbage raw ->
     tool question docs s
     = (Ok (Doc (search_web_report "Error during evaluation: Expecting value")), s)) /\
  (forall payload context e,
     docs = Doc (JObj payload) ->
     truthy (match assoc_get payload "games" with Some g => g | None => JArr [] end)
       = true ->
     _create_evaluation_context py_str question
       (match assoc_get payload "games" with Some g => g | None => JArr [] end) s
       = (Ok context, s) ->
     judge (_create_evaluation_prompt question context) = Raise e ->
     tool question docs s
     = (Ok (Doc (search_web_report ("Error during evaluation: " ++ exn_str e))),
        St (llm_calls s ++ [_create_evaluation_prompt question context])%list)).
Proof.
  assert (Hfail : forall e s',
            body question docs s = (Raise e, s') ->
            tool question docs s
            = (Ok (Doc (search_web_report ("Error during evaluation: " ++ exn_str e))), s')).
  { intros e s' Hb. unfold evaluate_retrieval_tool, try_except. rewrite Hb.
    apply failure_report. }
  split; [|split; [|split; [exact Hfail|split]]].
  - destruct (body question docs s) as [[out|e] s'] eqn:Hb.
    + exists out, s'. unfold evaluate_retrieval_tool, try_except. by rewrite Hb.
    + eexists _, s'. by apply Hfail.
  - intros payload -> Hg.
    unfold evaluate_retrieval_tool, try_except, evaluate_body.
    unfold bind at 1, json_loads at 1, ret at 1.
    unfold bind at 1, py_get at 1, ret at 1. rewrite Hg. cbn [negb].
    unfold _create_evaluation_report. by rewrite report_accepts_plain.
  - intros raw ->. by apply (Hfail (Exn "JSONDecodeError" "Expecting value")).
  - intros payload context e -> Hg Hctx Hj. apply Hfail.
    unfold evaluate_body.
    unfold bind at 1, json_loads at 1, ret at 1.
    unfold bind at 1, py_get at 1, ret at 1. rewrite Hg. cbn [negb].
    unfold bind at 1. rewrite Hctx.
    unfold bind at 1, chat_completion at 1, bind at 1, modify at 1. by rewrite Hj.
Qed.

End Evaluate.

(** A report model that takes well-typed fields only. *)
Definition strict_report_json (useful description confidence recommendation : json)
  : option json :=
  match useful, description, confidence, recommendation with
  | JBool b, JStr d, JNum c, JStr r =>
      if Qle_bool 0 c && Qle_bool c 1 then Some (plain_report b d c r) else None
  | _, _, _, _ => None
  end.

(** The empty-result envelope of the retrieval tool goes in; the search_web
    report comes out and the service, which would fail, is not called. *)
Lemma evaluate_retrieval_degrades_witness :
  evaluate_retrieval_tool (fun _ => "?") (fun _ => Raise (Exn "APIError" "down"))
    strict_report_json "When was Mock Game released?"
    (Doc (Retrieval.empty_envelope "When was Mock Game released?")) (St [])
  = (Ok (Doc (search_web_report "No games were retrieved from the database")), St []).
Proof.
  eapply (evaluate_retrieval_degrades (fun _ => "?")
            (fun _ => Raise (Exn "APIError" "down")) strict_report_json).
  - reflexivity.
  - reflexivity.
  - reflexivity.
Defined.

(** *** The judge *)

Section Judge.

Variable py_str : json -> string.
Variable judge : string -> result text.
Variable report_json : json -> json -> json -> json -> option json.

Local Abbreviation tool := (evaluate_retrieval_tool py_str judge report_json).
Local Abbreviation body := (evaluate_body py_str judge report_json).
Local Abbreviation report := (_create_evaluation_report report_json).

Lemma report_stateless (u d c r : json) (s : st) : snd (report u d c r s) = s.
Proof. unfold _create_evaluation_report. by destruct (report_json u d c r). Qed.

Lemma game_lines_stateless (i : nat) (game : json) (s : st) :
  snd (game_lines py_str i game s) = s.
Proof.
  apply (preserves_bind (fun s' => s' = s)); [apply preserves_py_item| |reflexivity].
  intros ?. apply preserves_bind; [apply preserves_py_item|]. intros ?.
  apply preserves_bind; [apply preserves_py_item|]. intros ?.
  apply preserves_bind; [apply preserves_py_item|]. intros ?.
  apply preserves_bind; [apply preserves_py_item|]. intros ?.
  apply preserves_bind; [apply preserves_py_item|]. intros ?.
  apply preserves_ret.
Qed.

Lemma _create_evaluation_context_stateless (question : string) (games : json) (s : st) :
  snd (_create_evaluation_context py_str question games s) = s.
Proof.
  apply (preserves_bind (fun s' => s' = s)); [apply preserves_py_iter| |reflexivity].
  intros items. apply preserves_bind; [|intros; apply preserves_ret].
  apply preserves_collect. intros [i game] s1 ->. apply game_lines_stateless.
Qed.

(** What the tool does after the judge has answered. *)
Definition read_verdict (response : text) : M st text :=
  evaluation_data <- json_loads response ;;
  useful <- py_get evaluation_data "useful" (JBool false) ;;
  description <- py_get evaluation_data "description" (JStr "") ;;
  confidence <- py_get evaluation_data "confidence" (JNum 0) ;;
  recommendation <- py_get evaluation_data "recommendation" (JStr "search_web") ;;
  report useful description confidence recommendation.

Lemma read_verdict_stateless (response : text) (s : st) :
  snd (read_verdict response s) = s.
Proof.
  apply (preserves_bind (fun s' => s' = s)); [apply preserves_json_loads| |reflexivity].
  intros ?. apply preserves_bind; [apply preserves_py_get|]. intros ?.
  apply preserves_bind; [apply preserves_py_get|]. intros ?.
  apply preserves_bind; [apply preserves_py_get|]. intros ?.
  apply preserves_bind; [apply preserves_py_get|]. intros ?.
  intros s1 ->. apply report_stateless.
Qed.

(** The tool on a retrieval result with games, as far as the judge. *)
Lemma tool_with_games (question : string) (payload : list (string * json)) (s : st) :
  let games := match assoc_get payload "games" with Some g => g | None => JArr [] end in
  truthy games = true ->
  tool question (Doc (JObj payload)) s
  = try_except
      (context <- _create_evaluation_context py_str question games ;;
       response <- chat_completion judge (_create_evaluation_prompt question context) ;;
       read_verdict response)
      (fun e => report (JBool false) (JStr ("Error during evaluation: " ++ exn_str e))
                       (JNum 0) (JStr "search_web")) s.
Proof.
  cbn zeta. intros Hg. unfold evaluate_retrieval_tool, evaluate_body, try_except.
  unfold bind at 1, json_loads at 1, ret at 1.
  unfold bind at 1, py_get at 1, ret at 1. by rewrite Hg.
Qed.

(** The state the tool leaves. *)
Lemma tool_state (question : string) (docs : text) (s : st) :
  snd (tool question docs s)
  = match docs with
    | Doc (JObj payload) =>
        let games := match assoc_get payload "games" with
                     | Some g => g | None => JArr [] end in
        if truthy games then
          match fst (_create_evaluation_context py_str question games s) with
          | Ok context =>
              St (llm_calls s ++ [_create_evaluation_prompt question context])%list
          | Raise _ => s
          end
        else s
    | _ => s
    end.
Proof.
  assert (Hhandler : forall e s1,
            snd (report (JBool false) (JStr ("Error during evaluation: " ++ exn_str e))
                        (JNum 0) (JStr "search_web") s1) = s1)
    by (intros; apply report_stateless).
  destruct docs as [j|raw].
  2:{ unfold evaluate_retrieval_tool, evaluate_body, try_except, bind, json_loads, raise.
      apply Hhandler. }
  destruct j as [| | | | |payload];
    try (unfold evaluate_retrieval_tool, evaluate_body, try_except, bind, json_loads,
           py_get, ret, raise; apply Hhandler).
  cbn zeta.
  set (games := match assoc_get payload "games" with Some g => g | None => JArr [] end).
  destruct (truthy games) eqn:Hg.
  - rewrite (tool_with_games question payload s Hg). fold games.
    unfold try_except at 1. unfold bind at 1.
    pose proof (_create_evaluation_context_stateless question games s) as Hc.
    destruct (_create_evaluation_context py_str question games s) as [[context|e] s1];
      cbn [snd] in Hc; subst s1; cbn [fst]; [|apply Hhandler].
    unfold bind at 1, chat_completion at 1, bind at 1, modify at 1.
    set (s2 := St (llm_calls s ++ [_create_evaluation_prompt question context])%list).
    destruct (judge _) as [response|e]; [|apply Hhandler].
    pose proof (read_verdict_stateless response s2) as Hr.
    fold (read_verdict response).
    destruct (read_verdict response s2) as [[a|e] s3]; cbn [snd] in Hr; subst s3;
      [done|apply Hhandler].
  - unfold evaluate_retrieval_tool, evaluate_body, try_except.
    unfold bind at 1, json_loads at 1, ret at 1.
    unfold bind at 1, py_get at 1, ret at 1. fold games. rewrite Hg. cbn [negb].
    pose proof (report_stateless (JBool false)
                  (JStr "No games were retrieved from the database")
                  (JNum 0) (JStr "search_web") s) as Hr.
    destruct (report _ _ _ _ s) as [[a|e] s1]; cbn [snd] in Hr; subst s1; [done|].
    apply Hhandler.
Qed.

(** X19. One evaluation consults the judge at most once, and only
    with games in hand: the prompts sent to the text-generation service are
    afterwards those sent before, or those and one more, the evaluation
    prompt built from the question and the retrieved games. Nothing is sent
    when the retrieval result does not parse, is no dict, holds no games, or
    holds a game that lacks one of the fields the context needs. *)
Theorem judge_consulted_at_most_once (question : string) (docs : text) (s : st) :
  let s' := snd (tool question docs s) in
  (llm_calls s' = llm_calls s \/
   exists payload context,
     docs = Doc (JObj payload) /\
     _create_evaluation_context py_str question
       (match assoc_get payload "games" with Some g => g | None => JArr [] end) s
     = (Ok context, s) /\
     llm_calls s' = (llm_calls s ++ [_create_evaluation_prompt question context])%list) /\
  ((forall payload, docs <> Doc (JObj payload)) -> s' = s) /\
  (forall payload, docs = Doc (JObj payload) ->
     truthy (match assoc_get payload "games" with Some g => g | None => JArr [] end)
       = false -> s' = s) /\
  (forall payload e, docs = Doc (JObj payload) ->
     fst (_create_evaluation_context py_str question
            (match assoc_get payload "games" with Some g => g | None => JArr [] end) s)
       = Raise e -> s' = s).
Proof.
  cbn zeta. rewrite tool_state.
  destruct docs as [[| | | | |payload]|raw];
    try (split; [by left|]; split; [done|]; split; done).
  cbn zeta.
  set (games := match assoc_get payload "games" with Some g => g | None => JArr [] end).
  pose proof (_create_evaluation_context_stateless question games s) as Hc.
  destruct (truthy games) eqn:Hg.
  - destruct (_create_evaluation_context py_str question games s) as [[context|e] s1]
      eqn:Hctx; cbn [snd] in Hc; subst s1; cbn [fst].
    + split; [right; by exists payload, context|].
      split; [intros H; by destruct (H payload)|].
      split; [intros payload' [= <-]; fold games; congruence|].
      intros payload' e [= <-]. fold games. by rewrite Hctx.
    + split; [by left|]. split; [done|]. split; done.
  - split; [by left|]. split; [done|]. split; done.
Qed.

(** The report model accepts a bool, a text, the confidence 0.0 and a text as
    they are. *)
Hypothesis report_accepts_plain : forall d : string,
  report_json (JBool false) (JStr d) (JNum 0) (JStr "search_web")
  = Some (search_web_report d).

(** X20. The judge's verdict is passed on field by field, and a field
    the judge leaves out takes its default: not useful, no description,
    confidence 0.0, search_web. When the report model accepts the four
    fields, the tool returns the report it makes of them. When it rejects
    them (a confidence outside [0, 1], say), the tool does not raise: it
    returns a report with useful false, confidence 0.0 and recommendation
    search_web, as it does for every failure. *)
Theorem judge_verdict_passed_on
    (question : string) (payload verdict : list (string * json))
    (context : string) (s : st) :
  let games := match assoc_get payload "games" with Some g => g | None => JArr [] end in
  let field k d := match assoc_get verdict k with Some x => x | None => d end in
  let useful := field "useful" (JBool false) in
  let description := field "description" (JStr "") in
  let confidence := field "confidence" (JNum 0) in
  let recommendation := field "recommendation" (JStr "search_web") in
  let s' := St (llm_calls s ++ [_create_evaluation_prompt question context])%list in
  truthy games = true ->
  _create_evaluation_context py_str question games s = (Ok context, s) ->
  judge (_create_evaluation_prompt question context) = Ok (Doc (JObj verdict)) ->
  (forall j, report_json useful description confidence recommendation = Some j ->
     tool question (Doc (JObj payload)) s = (Ok (Doc j), s')) /\
  (report_json useful description confidence recommendation = None ->
     exists d, tool question (Doc (JObj payload)) s
               = (Ok (Doc (search_web_report d)), s')).
Proof.
  cbn zeta. intros Hg Hc Hj.
  set (s' := St (llm_calls s ++ [_create_evaluation_prompt question context])%list).
  set (verdict_report :=
         report_json
           (match assoc_get verdict "useful" with Some x => x | None => JBool false end)
           (match assoc_get verdict "description" with Some x => x | None => JStr "" end)
           (match assoc_get verdict "confidence" with Some x => x | None => JNum 0 end)
           (match assoc_get verdict "recommendation" with
            | Some x => x | None => JStr "search_web" end)).
  assert (Htool : tool question (Doc (JObj payload)) s
                  = match verdict_report with
                    | Some j => (Ok (Doc j), s')
                    | None =>
                        (Ok (Doc (search_web_report
                                    "Error during evaluation: validation error for EvaluationReport")),
                         s')
                    end).
  { rewrite (tool_with_games question payload s Hg).
    unfold try_except. unfold bind at 1. rewrite Hc.
    unfold bind at 1, chat_completion at 1, bind at 1, modify at 1. rewrite Hj.
    unfold read_verdict, bind, json_loads, py_get, ret, _create_evaluation_report.
    fold verdict_report. destruct verdict_report; [reflexivity|].
    unfold raise. by rewrite report_accepts_plain. }
  rewrite Htool. split.
  - by intros j ->.
  - intros ->. by eexists.
Qed.

End Judge.

(** A retrieval result that holds the mock game, a judge who is surer than
    sure, and one who answers with an empty object. *)
Definition mock_docs : list (string * json) :=
  [("games", JArr [RetrievalFacts.mock_metadata]); ("total_results", JNum 1)].

Definition overconfident_judge (prompt : string) : result text :=
  Ok (Doc (JObj [("useful", JBool true); ("confidence", JNum 1.5)])).

Definition silent_judge (prompt : string) : result text := Ok (Doc (JObj [])).

Definition text_of (v : json) : string :=
  match v with JStr s => s | _ => "?" end.

(** The context built for the mock game. *)
Definition mock_context : string :=
  match _create_evaluation_context text_of "When was Mock Game released?"
          (JArr [RetrievalFacts.mock_metadata]) (St []) with
  | (Ok c, _) => c
  | (Raise _, _) => ""
  end.

Lemma judge_verdict_passed_on_witness :
  (exists d s', evaluate_retrieval_tool text_of overconfident_judge strict_report_json
                  "When was Mock Game released?" (Doc (JObj mock_docs)) (St [])
                = (Ok (Doc (search_web_report d)), s')) /\
  (exists s', evaluate_retrieval_tool text_of silent_judge strict_report_json
                "When was Mock Game released?" (Doc (JObj mock_docs)) (St [])
              = (Ok (Doc (plain_report false "" 0 "search_web")), s')).
Proof.
  split.
  - destruct (judge_verdict_passed_on text_of overconfident_judge strict_report_json
                (fun d => eq_refl) "When was Mock Game released?" mock_docs
                [("useful", JBool true); ("confidence", JNum 1.5)]
                mock_context (St []) eq_refl eq_refl eq_refl) as [_ Hbad].
    destruct (Hbad eq_refl) as [d Hd]. by eexists _, _.
  - destruct (judge_verdict_passed_on text_of silent_judge strict_report_json
                (fun d => eq_refl) "When was Mock Game released?" mock_docs []
                mock_context (St []) eq_refl eq_refl eq_refl) as [Hgood _].
    eexists. by apply Hgood.
Defined.

End EvaluationFacts.

(** ** Properties of the web-search tool *)

Module WebSearchFacts.
Import WebSearch.

Section Search.

Variable tavily_search : string -> Z -> result json.
Variable web_result_dump : json -> json -> json -> json -> option json.

Local Abbreviation tool := (game_web_search_tool tavily_search web_result_dump).

(** What becomes of one result of the service. *)
Definition dumped (hit : json) : result json :=
  match hit with
  | JObj kvs =>
      match web_result_dump
              (match assoc_get kvs "title" with Some x => x | None => JStr "" end)
              (match assoc_get kvs "url" with Some x => x | None => JStr "" end)
              (match assoc_get kvs "content" with Some x => x | None => JStr "" end)
              (match assoc_get kvs "score" with Some x => x | None => JNum 0 end) with
      | Some j => Ok j
      | None => Raise (Exn "ValidationError" "validation error for WebSearchResult")
      end
  | _ => Raise (Exn "AttributeError" "object has no attribute 'get'")
  end.

Lemma web_result_run (hit : json) (s : st) :
  web_result web_result_dump hit s = (dumped hit, s).
Proof.
  destruct hit as [| | | | |kvs]; try reflexivity.
  unfold web_result, dumped, bind, py_get, ret.
  by destruct (web_result_dump _ _ _ _).
Qed.

(** A result the model has validated. *)
Definition validated (j : json) : Prop :=
  exists title url content score, web_result_dump title url content score = Some j.

Lemma sequence_dumped (items : list json) (l : list json) :
  RetrievalFacts.sequence (map dumped items) = Ok l ->
  length l = length items /\ Forall validated l.
Proof.
  revert l. induction items as [|x items IH]; intros l; cbn [map RetrievalFacts.sequence].
  - by intros [= <-].
  - destruct (dumped x) as [y|e] eqn:Hx; [|discriminate].
    destruct (RetrievalFacts.sequence (map dumped items)) as [ys|e]; [|discriminate].
    intros [= <-]. destruct (IH ys eq_refl) as [Hl Hv]. cbn [length]. split; [by rewrite Hl|].
    constructor; [|done]. unfold dumped in Hx.
    destruct x as [| | | | |kvs]; try discriminate.
    destruct (web_result_dump _ _ _ _) eqn:E; [|discriminate].
    injection Hx as <-. by eexists _, _, _, _.
Qed.

(** The envelope of a search that succeeded. *)
Definition envelope (question : string) (results : list json) (answer : json) : json :=
  JObj [("question", JStr question);
        ("enhanced_query", JStr (_enhance_query question));
        ("results", JArr results);
        ("answer", answer);
        ("total_results", JNum (inject_Z (Z.of_nat (length results))));
        ("search_method", JStr "web_search")].

(** The results the tool makes of the service's answer: the items it goes
    through, if the answer has any. *)
Definition items_of (answer : list (string * json)) : result (list json) :=
  match assoc_get answer "results" with
  | Some found =>
      if truthy found then
        match found with
        | JArr l => Ok l
        | JStr s => Ok (map (fun a => JStr (String a EmptyString)) (list_ascii_of_string s))
        | JObj kvs => Ok (map (fun kv => JStr (fst kv)) kvs)
        | _ => Raise (Exn "TypeError" "object is not iterable")
        end
      else Ok []
  | None => Ok []
  end.

Lemma tool_run (question : string) (max_results : Z) (s : st) :
  tool question max_results s
  = (Ok (Doc (match tavily_search (_enhance_query question) max_results with
              | Ok (JObj answer) =>
                  match items_of answer with
                  | Ok items =>
                      match RetrievalFacts.sequence (map dumped items) with
                      | Ok results =>
                          envelope question results
                            (match assoc_get answer "answer" with
                             | Some x => x | None => JStr "" end)
                      | Raise e => error_envelope question e
                      end
                  | Raise e => error_envelope question e
                  end
              | Ok _ => error_envelope question
                          (Exn "AttributeError" "object has no attribute 'get'")
              | Raise e => error_envelope question e
              end)),
     St (searches s ++ [(_enhance_query question, max_results)])%list).
Proof.
  unfold game_web_search_tool, try_except. cbn zeta.
  unfold bind at 1, client_search at 1, bind at 1, modify at 1.
  destruct (tavily_search _ _) as [[| | | | |answer]|e]; try reflexivity.
  unfold bind at 1, py_get at 1, ret at 1. unfold items_of.
  destruct (assoc_get answer "results") as [found|] eqn:Hfound.
  - destruct (truthy found) eqn:Ht.
    + unfold bind at 1. unfold bind at 1, py_item at 1. rewrite Hfound. unfold ret at 1.
      unfold bind at 1.
      destruct found as [| | |x|l|kvs]; try reflexivity; unfold py_iter at 1, ret at 1;
        rewrite (RetrievalFacts.collect_sequence _ _ dumped) by apply web_result_run;
        (destruct (RetrievalFacts.sequence _); reflexivity).
    + reflexivity.
  - reflexivity.
Qed.

(** X21. The web-search tool never raises and always answers with a
    JSON object that carries the question, search method web_search, a list
    of results and, as total_results, the length of that list. Each call
    asks the service exactly once, for the question followed by
    " video game" when its lowercased text has none of the game keywords,
    and by the site filter in every case. The results are the service's, each
    validated, or none at all: when the service raises, when its answer is
    no dict, or when one of its results does not validate, the tool answers
    with the error envelope, which has no results and total 0. *)
Theorem game_web_search_tool_envelope (question : string) (max_results : Z) (s : st) :
  exists (kvs : list (string * json)) (results : list json),
    tool question max_results s
    = (Ok (Doc (JObj kvs)),
       St (searches s ++ [(_enhance_query question, max_results)])%list) /\
    assoc_get kvs "question" = Some (JStr question) /\
    assoc_get kvs "search_method" = Some (JStr "web_search") /\
    assoc_get kvs "results" = Some (JArr results) /\
    assoc_get kvs "total_results" = Some (JNum (inject_Z (Z.of_nat (length results)))) /\
    Forall validated results /\
    (assoc_get kvs "error" <> None -> results = []) /\
    (forall e, tavily_search (_enhance_query question) max_results = Raise e ->
       JObj kvs = error_envelope question e) /\
    (forall answer items, 
       tavily_search (_enhance_query question) max_results = Ok (JObj answer) ->
       assoc_get answer "results" = Some (JArr items) ->
       (Forall (fun r => exists j, dumped r = Ok j) items ->
        length results = length items /\ assoc_get kvs "error" = None) /\
       (Exists (fun r => forall j, dumped r <> Ok j) items ->
        results = [] /\ assoc_get kvs "error" <> None)) /\
    (exists middle,
       _enhance_query question = question ++ middle ++ site_filter /\
       (middle = "" \/ middle = " video game") /\
       (middle = "" <-> Memory.any_in game_keywords (py_lower question) = true)).
Proof.
  rewrite tool_run.
  assert (Hquery : exists middle,
       _enhance_query question = question ++ middle ++ site_filter /\
       (middle = "" \/ middle = " video game") /\
       (middle = "" <-> Memory.any_in game_keywords (py_lower question) = true)).
  { unfold _enhance_query.
    destruct (Memory.any_in game_keywords (py_lower question)); cbn [negb].
    - exists "". split; [reflexivity|]. split; [by left|done].
    - exists " video game". split; [by rewrite string_app_assoc|].
      split; [by right|]. split; discriminate. }
  assert (Herr : forall e,
            exists kvs results,
              (Ok (Doc (error_envelope question e)) : result text,
               St (searches s ++ [(_enhance_query question, max_results)])%list)
              = (Ok (Doc (JObj kvs)),
                 St (searches s ++ [(_enhance_query question, max_results)])%list) /\
              JObj kvs = error_envelope question e /\
              assoc_get kvs "question" = Some (JStr question) /\
              assoc_get kvs "search_method" = Some (JStr "web_search") /\
              assoc_get kvs "results" = Some (JArr results) /\
              assoc_get kvs "total_results"
              = Some (JNum (inject_Z (Z.of_nat (length results)))) /\
              Forall validated results /\ results = [] /\
              assoc_get kvs "error" <> None).
  { intros e. eexists _, []. split; [reflexivity|]. repeat split; try done. }
  destruct (tavily_search (_enhance_query question) max_results)
    as [[| | | | |answer]|e] eqn:Hsearch.
  1-5: (destruct (Herr (Exn "AttributeError" "object has no attribute 'get'"))
         as (kvs & results & E & _ & ? & ? & ? & ? & ? & ? & ?);
        exists kvs, results; rewrite <- E;
        repeat split; try done).
  2:{ destruct (Herr e) as (kvs & results & E & Hk & ? & ? & ? & ? & ? & ? & ?).
      exists kvs, results. rewrite <- E.
      split; [done|]. split; [done|]. split; [done|]. split; [done|]. split; [done|].
      split; [done|]. split; [done|].
      split; [by intros e' [= <-]|]. split; [done|]. exact Hquery. }
  destruct (items_of answer) as [items|e] eqn:Hitems.
  2:{ destruct (Herr e) as (kvs & results & E & Hk & ? & ? & ? & ? & ? & ? & ?).
      exists kvs, results. rewrite <- E.
      split; [done|]. split; [done|]. split; [done|]. split; [done|]. split; [done|].
      split; [done|]. split; [done|]. split; [done|]. split; [|exact Hquery].
      intros answer' items' [= <-] Hr. exfalso.
      unfold items_of in Hitems. rewrite Hr in Hitems. by destruct items'. }
  assert (Hsame : forall items', assoc_get answer "results" = Some (JArr items') ->
                                 items' = items).
  { intros items' Hr. unfold items_of in Hitems. rewrite Hr in Hitems.
    destruct items'; by injection Hitems. }
  destruct (RetrievalFacts.sequence (map dumped items)) as [results|e] eqn:Hseq.
  - destruct (sequence_dumped items results Hseq) as [Hlen Hval].
    eexists _, results. split; [reflexivity|]. split; [done|]. split; [done|].
    split; [done|]. split; [done|]. split; [done|]. split; [done|].
    split; [done|]. split; [|exact Hquery].
    intros answer' items' [= <-] Hr. rewrite (Hsame items' Hr). split.
    + intros _. by split.
    + intros Hbad. exfalso. apply Exists_exists in Hbad as (r & Hin & Hr').
      destruct (RetrievalFacts.sequence_one_raises items dumped r Hin Hr') as [e He].
      congruence.
  - destruct (Herr e) as (kvs & results & E & Hk & ? & ? & ? & ? & ? & ? & ?).
    exists kvs, results. rewrite <- E.
    split; [done|]. split; [done|]. split; [done|]. split; [done|]. split; [done|].
    split; [done|]. split; [done|]. split; [done|]. split; [|exact Hquery].
    intros answer' items' [= <-] Hr. rewrite (Hsame items' Hr). split.
    + intros Hall. exfalso.
      assert (Hok : exists l, RetrievalFacts.sequence (map dumped items) = Ok l).
      { clear -Hall. induction Hall as [|x l [j Hj] _ [l' IH]]; [by exists []|].
        cbn [map RetrievalFacts.sequence]. rewrite Hj, IH. by eexists. }
      destruct Hok as [l Hl]. congruence.
    + intros _. by split.
Qed.

End Search.

End WebSearchFacts.

(** ** Properties of the agent's query pipeline *)

Module AgentFacts.
Import Agent.

Definition is_web_call (c : call) : bool :=
  match c with CallWebSearch _ _ => true | _ => false end.

(** How often the web-fallback gateway was invoked. *)
Fixpoint web_calls (l : list call) : nat :=
  match l with
  | [] => 0
  | c :: l' => (if is_web_call c then 1 else 0) + web_calls l'
  end.

Lemma web_calls_app (l l' : list call) :
  web_calls (l ++ l') = web_calls l + web_calls l'.
Proof. induction l as [|c l IH]; cbn; [done|]. rewrite IH. lia. Qed.

Definition with_calls (s : st) (l : list call) : st :=
  St (state_machine s) (vector_store s) (advanced_memory_system s)
     (conversation_history s) l (sys s).

Section Pipeline.

Variable retrieve_game_tool : st -> string -> Z -> result text.
Variable evaluate_retrieval_tool : st -> string -> text -> result text.
Variable game_web_search_tool : st -> string -> Z -> result text.
Variable chat_completion : st -> string -> result (option string).
Variable py_str : json -> string.
Variable float_of_string : string -> option pyfloat.
Variable sha256_hex : string -> string.
Variable chroma_add_error :
  list VectorStore.chroma_record -> VectorStore.chroma_record -> option exn.
Variable py_hash : string -> Z.

Local Abbreviation process_query :=
  (process_query retrieve_game_tool evaluate_retrieval_tool game_web_search_tool
     chat_completion py_str float_of_string sha256_hex chroma_add_error py_hash).
Local Abbreviation process_query_body :=
  (process_query_body retrieve_game_tool evaluate_retrieval_tool game_web_search_tool
     chat_completion py_str float_of_string sha256_hex chroma_add_error py_hash).
Local Abbreviation answer_and_learn :=
  (answer_and_learn chat_completion py_str float_of_string sha256_hex
     chroma_add_error py_hash).
Local Abbreviation _generate_final_answer :=
  (_generate_final_answer chat_completion py_str float_of_string).
Local Abbreviation persist_web_results :=
  (persist_web_results sha256_hex chroma_add_error py_hash).
Local Abbreviation web_fallback := (web_fallback game_web_search_tool).

(** *** What the pipeline keeps *)

Section Invariant.

(** The state machine, and a property of the call log that calls other than
    web searches keep. *)
Variable m0 : StateMachine.AgentStateMachine.
Variable P : list call -> Prop.
Hypothesis P_other : forall l c, is_web_call c = false -> P l -> P (l ++ [c]).

Definition inv (s : st) : Prop := state_machine s = m0 /\ P (calls s).

Lemma on_sys_inv {A} (m : M os A) : preserves inv (on_sys m).
Proof. apply preserves_zoom. by intros s t. Qed.

Lemma on_store_inv {A} (m : M VectorStore.st A) : preserves inv (on_store m).
Proof. apply preserves_zoom. by intros s t. Qed.

Lemma on_memory_inv {A} (m : M Memory.st A) : preserves inv (on_memory m).
Proof. apply preserves_zoom. by intros s t. Qed.

Lemma persist_inv : preserves inv (on_machine StateMachine.persist).
Proof.
  intros s [Hm HP]. unfold on_machine, zoom, StateMachine.persist.
  rewrite StateMachineFacts._persist_run. cbn.
  split; [|done]. rewrite <- Hm.
  destruct (StateMachine._persist_file (state_machine s)) as [path|]; [|done].
  destruct (String.eqb path ""); [done|].
  by destruct (writable (sys s) path).
Qed.

Lemma invoke_inv {A} (c : call) (tool : st -> result A) :
  is_web_call c = false -> preserves inv (invoke c tool).
Proof. intros Hc s [Hm HP]. split; [done|]. by apply P_other. Qed.

Lemma append_history_inv entry : preserves inv (append_history entry).
Proof. apply preserves_modify. by intros s. Qed.

Lemma collect_inv {A B} (l : list A) (f : A -> M st B) :
  (forall x, preserves inv (f x)) -> preserves inv (Retrieval.collect l f).
Proof.
  intros Hf. induction l as [|x l IH]; cbn [Retrieval.collect]; [apply preserves_ret|].
  apply preserves_bind; [apply Hf|]. intros y.
  apply preserves_bind; [apply IH|]. intros; apply preserves_ret.
Qed.

(** Discharges [preserves inv] goals by following the structure of the
    computation. *)
Ltac holds :=
  repeat first
    [ apply preserves_ret | apply preserves_raise | apply preserves_gets
    | apply preserves_py_get | apply preserves_py_item | apply preserves_py_len
    | apply preserves_py_slice | apply preserves_py_num | apply preserves_py_iter
    | apply on_sys_inv | apply on_store_inv | apply on_memory_inv
    | apply persist_inv | apply append_history_inv
    | apply invoke_inv; reflexivity
    | apply collect_inv
    | apply preserves_try | apply preserves_bind | apply preserves_for_each
    | match goal with
      | |- forall _, preserves _ _ => intro
      | |- preserves _ (if ?b then _ else _) => destruct b
      | |- preserves _ (let '(_, _) := ?x in _) => destruct x
      | |- preserves _ (match ?x with _ => _ end) => destruct x
      end ].

Lemma make_response_inv a c src method : preserves inv (make_response a c src method).
Proof. unfold make_response. holds. Qed.

Lemma json_loads_inv t : preserves inv (@json_loads st t).
Proof. unfold json_loads. holds. Qed.

Lemma game_context_inv g : preserves inv (game_context py_str g).
Proof. unfold game_context. holds. Qed.

Lemma web_context_inv r : preserves inv (web_context py_str r).
Proof. unfold web_context. holds. Qed.

Lemma _generate_final_answer_inv q rd ev wr :
  preserves inv (_generate_final_answer q rd ev wr).
Proof.
  unfold Agent._generate_final_answer.
  apply preserves_bind; [holds|]. intros games.
  apply preserves_bind.
  { destruct (truthy games); holds. }
  intros [parts srcs].
  apply preserves_bind; [holds|]. intros found.
  apply preserves_bind.
  { destruct (truthy found); holds. }
  intros [[parts' srcs'] method].
  holds.
Qed.

Lemma persist_web_results_inv q wr : preserves inv (persist_web_results q wr).
Proof. unfold Agent.persist_web_results. holds. Qed.

Lemma answer_and_learn_inv q rd ev wr : preserves inv (answer_and_learn q rd ev wr).
Proof.
  unfold Agent.answer_and_learn.
  apply preserves_bind; [apply _generate_final_answer_inv|]. intros final.
  apply preserves_bind; [apply make_response_inv|]. intros response.
  apply preserves_bind; [apply persist_web_results_inv|]. intros _.
  holds.
Qed.

Lemma needs_web_search_inv ev : preserves inv (@needs_web_search ev).
Proof. unfold needs_web_search, below_threshold. holds. Qed.

Lemma error_response_inv e :
  preserves inv (make_response (error_answer e) (Finite 0) [] "error").
Proof. apply make_response_inv. Qed.

Lemma process_query_inv q :
  (forall q', preserves inv
     (invoke (CallWebSearch q' 3) (fun s => game_web_search_tool s q' 3))) ->
  preserves inv (process_query q).
Proof.
  intros Hweb. unfold Agent.process_query.
  apply preserves_try; [|intros e; apply error_response_inv].
  unfold Agent.process_query_body.
  apply preserves_bind; [holds|]. intros rt.
  apply preserves_bind; [apply json_loads_inv|]. intros rd.
  apply preserves_bind; [holds|]. intros _.
  apply preserves_bind; [holds|]. intros et.
  apply preserves_bind; [apply json_loads_inv|]. intros ev.
  apply preserves_bind; [holds|]. intros _.
  apply preserves_bind; [holds|]. intros _.
  apply preserves_bind; [apply needs_web_search_inv|]. intros use_web.
  apply preserves_bind; [|intros wr; apply answer_and_learn_inv].
  destruct use_web; [|holds]. unfold Agent.web_fallback.
  apply preserves_bind; [apply Hweb|]. intros t.
  apply preserves_bind; [apply json_loads_inv|]. holds.
Qed.

(** The pipeline from the answer on, under the top-level handler. *)
Lemma answer_under_handler_inv q rd ev (fetch : M st json) :
  preserves inv fetch ->
  preserves inv
    (try_except (wr <- fetch ;; answer_and_learn q rd ev wr)
       (fun e => make_response (error_answer e) (Finite 0) [] "error")).
Proof.
  intros Hf. apply preserves_try; [|intros e; apply error_response_inv].
  apply preserves_bind; [exact Hf|]. intros wr. apply answer_and_learn_inv.
Qed.

Lemma read_web_results_inv t :
  preserves inv (web_results <- @json_loads st t ;;
                 py_get web_results "total_results" (JNum 0) ;;; ret web_results).
Proof. apply preserves_bind; [apply json_loads_inv|]. holds. Qed.

End Invariant.

(** *** The top-level handler *)

Lemma error_response_run (e : exn) (s : st) :
  make_response (error_answer e) (Finite 0) [] "error" s
  = (Ok (Response (error_answer e) 0 [] "error"
                  (wall_clock (sys s) (clock_reads (sys s)))),
     St (state_machine s) (vector_store s) (advanced_memory_system s)
        (conversation_history s) (calls s)
        (Os (wall_clock (sys s)) (S (clock_reads (sys s))) (writable (sys s))
            (files (sys s)))).
Proof. reflexivity. Qed.

(** The handler catches whatever leaves the body. *)
Lemma process_query_handled (question : string) (s : st) :
  exists response s',
    process_query question s = (Ok response, s') /\
    (forall e s1, process_query_body question s = (Raise e, s1) ->
       answer response = error_answer e /\
       confidence response = 0%Q /\
       sources response = [] /\
       search_method response = "error") /\
    (forall r s1, process_query_body question s = (Ok r, s1) ->
       response = r /\ s' = s1).
Proof.
  unfold Agent.process_query, try_except.
  destruct (process_query_body question s) as [[r|e] s1] eqn:Hbody.
  - exists r, s1. split; [done|]. split; [done|]. by intros r' s1' [= <- <-].
  - rewrite error_response_run. eexists _, _. split; [reflexivity|].
    split; [|done]. by intros e' s1' [= <- <-].
Qed.

(** C2. [process_query] never raises. Whatever exception leaves the body of
    its [try] block, at any stage, is turned into a response with confidence
    0.0, no sources, search method "error" and an answer that carries the
    error text; in particular when the retrieval gateway raises. *)
Theorem process_query_never_raises (question : string) (s : st) :
  exists response s',
    process_query question s = (Ok response, s') /\
    (forall e s1, process_query_body question s = (Raise e, s1) ->
       answer response
         = "I encountered an error while processing your question: " ++ exn_str e /\
       confidence response = 0%Q /\
       sources response = [] /\
       search_method response = "error") /\
    (forall r s1, process_query_body question s = (Ok r, s1) ->
       response = r /\ s' = s1) /\
    (forall e, retrieve_game_tool s question 5 = Raise e ->
       answer response
         = "I encountered an error while processing your question: " ++ exn_str e /\
       confidence response = 0%Q /\
       sources response = [] /\
       search_method response = "error").
Proof.
  destruct (process_query_handled question s) as (response & s' & Hrun & Herr & Hok).
  exists response, s'. split; [exact Hrun|]. split; [exact Herr|]. split; [exact Hok|].
  intros e He. apply (Herr e (with_calls s (calls s ++ [CallRetrieve question 5]))).
  unfold Agent.process_query_body, bind, invoke. by rewrite He.
Qed.

(** *** The final persist *)

(** The system is as a call of [_persist] on the machine left it. *)
Definition just_persisted (s' : st) : Prop :=
  exists o1, StateMachine._persist (StateMachine.St (state_machine s') o1)
             = (Ok tt, StateMachine.St (state_machine s') (sys s')).

Lemma answer_and_learn_persists q rd ev wr :
  ends_in just_persisted (answer_and_learn q rd ev wr).
Proof.
  unfold Agent.answer_and_learn.
  do 6 (apply ends_in_bind; intros ?).
  intros s1 r s' H. unfold bind, try_except, on_machine, zoom, StateMachine.persist in H.
  rewrite (StateMachineFacts._persist_run (state_machine s1) (sys s1)) in H.
  exists (sys s1). rewrite StateMachineFacts._persist_run.
  destruct (StateMachine._persist_file (state_machine s1)) as [path|] eqn:Hp;
    [destruct (String.eqb path "") eqn:He;
      [|destruct (writable (sys s1) path) eqn:Hw]|];
    cbn in H; injection H as _ <-;
    cbn [state_machine sys]; rewrite Hp, ?He, ?Hw; reflexivity.
Qed.

Lemma process_query_body_persists q : ends_in just_persisted (process_query_body q).
Proof.
  unfold Agent.process_query_body.
  do 9 (apply ends_in_bind; intros ?).
  apply answer_and_learn_persists.
Qed.

(** C5 (amended). [process_query] makes no transition: on every path the
    state machine is after the call what it was before it, state and
    last-transition time included; and when the [try] block completes, the
    last thing done to the system is a persist of that unchanged machine. *)
Theorem process_query_leaves_machine (question : string) (s : st) :
  state_machine (snd (process_query question s)) = state_machine s /\
  (forall r s', process_query_body question s = (Ok r, s') ->
     state_machine s' = state_machine s /\
     exists o1, StateMachine._persist (StateMachine.St (state_machine s) o1)
                = (Ok tt, StateMachine.St (state_machine s) (sys s'))).
Proof.
  assert (Hinv : preserves (inv (state_machine s) (fun _ => True)) (process_query question)).
  { apply process_query_inv; [done|]. intros q' s0 [Hm _]. by split. }
  destruct (Hinv s) as [Hm _]; [by split|].
  split; [exact Hm|].
  intros r s' Hbody.
  assert (Hs' : state_machine s' = state_machine s).
  { unfold Agent.process_query, try_except in Hm. by rewrite Hbody in Hm. }
  split; [exact Hs'|].
  destruct (process_query_body_persists question s r s' Hbody) as [o1 Ho1].
  exists o1. by rewrite Hs' in Ho1.
Qed.

(** *** The decision rule *)

Lemma needs_web_search_run (ev : list (string * json)) (u : bool) (c : Q) (s : st) :
  assoc_get ev "useful" = Some (JBool u) ->
  assoc_get ev "confidence" = Some (JNum c) ->
  needs_web_search (JObj ev) s = (Ok (negb u || negb (Qle_bool 0.7 c)), s).
Proof.
  intros Hu Hc. unfold needs_web_search, bind, py_get, ret. rewrite Hu. cbn [truthy].
  destruct u; cbn [negb orb]; [|reflexivity].
  rewrite Hc. reflexivity.
Qed.

(** The first two steps, when both gateways answer with JSON objects. *)
Lemma process_query_body_prefix (q : string) (s : st) (rd ev : list (string * json)) :
  retrieve_game_tool s q 5 = Ok (Doc (JObj rd)) ->
  evaluate_retrieval_tool (with_calls s (calls s ++ [CallRetrieve q 5])) q (Doc (JObj rd))
    = Ok (Doc (JObj ev)) ->
  process_query_body q s
  = (use_web_search <- needs_web_search (JObj ev) ;;
     web_results <- (if use_web_search : bool then web_fallback q else ret JNull) ;;
     answer_and_learn q (JObj rd) (JObj ev) web_results)
      (with_calls s (calls s ++ [CallRetrieve q 5; CallEvaluate q (Doc (JObj rd))])).
Proof.
  intros Hr He. unfold with_calls in He. unfold Agent.process_query_body.
  unfold bind at 1, invoke at 1. rewrite Hr.
  unfold bind at 1, json_loads at 1, ret at 1.
  unfold bind at 1, py_get at 1, ret at 1.
  unfold bind at 1, invoke at 1.
  cbn [state_machine vector_store advanced_memory_system conversation_history calls sys].
  rewrite He.
  unfold bind at 1, json_loads at 1, ret at 1.
  unfold bind at 1, py_get at 1, ret at 1.
  unfold bind at 1, py_get at 1, ret at 1.
  unfold with_calls. by rewrite <- app_assoc.
Qed.

Lemma generate_without_web_results q rd ev :
  returns (fun f => fa_search_method f = "vector_db")
          (_generate_final_answer q rd ev JNull).
Proof.
  unfold Agent._generate_final_answer.
  apply returns_bind; intros games.
  apply returns_bind; intros [parts srcs].
  cbn [truthy].
  apply (returns_bind_with (fun found => found = JNull)); [by apply returns_ret|].
  intros found ->. cbn [truthy].
  apply (returns_bind_with (fun w : list string * list string * string => w.2 = "vector_db"));
    [by apply returns_ret|].
  intros [[parts' srcs'] method] Hm. cbn in Hm. subst method.
  apply returns_bind; intros description.
  apply returns_bind; intros answer_text.
  by apply returns_ret.
Qed.

Lemma make_response_method a c src method :
  returns (fun r => search_method r = method) (make_response a c src method).
Proof.
  unfold make_response. destruct c as [x|]; [|apply returns_raise].
  destruct (_ && _); [|apply returns_raise].
  apply returns_bind; intros t. by apply returns_ret.
Qed.

Lemma answer_without_web_results q rd ev :
  returns (fun r => search_method r = "vector_db") (answer_and_learn q rd ev JNull).
Proof.
  unfold Agent.answer_and_learn.
  apply (returns_bind_with (fun f => fa_search_method f = "vector_db"));
    [apply generate_without_web_results|].
  intros final Hf.
  apply (returns_bind_with (fun r => search_method r = "vector_db")).
  { rewrite <- Hf. apply make_response_method. }
  intros response Hr.
  do 5 (apply returns_bind; intros ?).
  by apply returns_ret.
Qed.

(** C3. When the retrieval and evaluation gateways answer and the
    evaluation report says [useful = u] and [confidence = c], the web-fallback
    gateway is invoked (once) if and only if [u] is false or [c < 0.7], and is
    not invoked if and only if [u] is true and [c >= 0.7]. In the latter case
    the response's search method is "vector_db", unless the pipeline failed
    after the decision, in which case the handler answers with "error". *)
Theorem web_fallback_rule
    (question : string) (s : st) (rd ev : list (string * json)) (u : bool) (c : Q) :
  retrieve_game_tool s question 5 = Ok (Doc (JObj rd)) ->
  evaluate_retrieval_tool (with_calls s (calls s ++ [CallRetrieve question 5]))
    question (Doc (JObj rd)) = Ok (Doc (JObj ev)) ->
  assoc_get ev "useful" = Some (JBool u) ->
  assoc_get ev "confidence" = Some (JNum c) ->
  exists response s',
    process_query question s = (Ok response, s') /\
    (web_calls (calls s') = web_calls (calls s) + 1 <-> u = false \/ (c < 0.7)%Q) /\
    (web_calls (calls s') = web_calls (calls s) <-> u = true /\ (0.7 <= c)%Q) /\
    (u = true -> (0.7 <= c)%Q ->
       search_method response = "vector_db" \/
       (search_method response = "error" /\
        exists e s1, process_query_body question s = (Raise e, s1))).
Proof.
  intros Hr He Hu Hc.
  destruct (process_query_handled question s)
    as (response & s' & Hrun & Herr & Hok).
  exists response, s'. split; [exact Hrun|].
  set (n := web_calls (calls s)).
  set (s2 := with_calls s (calls s ++ [CallRetrieve question 5;
                                        CallEvaluate question (Doc (JObj rd))])).
  set (use_web := negb u || negb (Qle_bool 0.7 c)).
  assert (Hother : forall k l (c0 : call), is_web_call c0 = false ->
            web_calls l = k -> web_calls (l ++ [c0]) = k).
  { intros k l c0 Hc0 <-. rewrite web_calls_app. cbn. rewrite Hc0. lia. }
  assert (Hn2 : web_calls (calls s2) = n).
  { subst s2 n. cbn. rewrite web_calls_app. cbn. lia. }
  pose proof (process_query_body_prefix question s rd ev Hr He) as Hbody.
  fold s2 in Hbody. unfold bind at 1 in Hbody.
  rewrite (needs_web_search_run ev u c s2 Hu Hc) in Hbody. fold use_web in Hbody.
  assert (Hdecide : use_web = true <-> u = false \/ (c < 0.7)%Q).
  { subst use_web. destruct u; cbn.
    - rewrite negb_true_iff, Qle_bool_false_lt.
      split; [by right | by intros [?|?]].
    - split; [by left | done]. }
  assert (Hcount : web_calls (calls s') = n + (if use_web then 1 else 0)).
  { unfold Agent.process_query, try_except in Hrun.
    destruct use_web.
    - (* the web fallback runs *)
      unfold bind at 1, Agent.web_fallback, bind at 1, invoke at 1 in Hbody.
      set (s3 := St _ _ _ _ (calls s2 ++ [CallWebSearch question 3])%list _) in Hbody.
      assert (H3 : inv (state_machine s3) (fun l => web_calls l = n + 1) s3).
      { split; [done|]. subst s3. cbn [calls]. rewrite web_calls_app, Hn2. cbn. lia. }
      destruct (game_web_search_tool s2 question 3) as [t|e].
      + assert (Hpres : preserves (inv (state_machine s3) (fun l => web_calls l = n + 1))
                  (try_except
                     (wr <- (web_results <- json_loads t ;;
                             py_get web_results "total_results" (JNum 0) ;;;
                             ret web_results) ;;
                      answer_and_learn question (JObj rd) (JObj ev) wr)
                     (fun e => make_response (error_answer e) (Finite 0) [] "error"))).
        { apply answer_under_handler_inv;
            first [apply Hother | apply read_web_results_inv]. }
        destruct (Hpres s3 H3) as [_ Hfin].
        unfold try_except in Hfin.
        rewrite Hbody in Hrun. unfold bind at 1 in Hfin.
        rewrite Hrun in Hfin. exact Hfin.
      + rewrite Hbody in Hrun.
        assert (Hpres : preserves (inv (state_machine s3) (fun l => web_calls l = n + 1))
                  (make_response (error_answer e) (Finite 0) [] "error"))
          by apply error_response_inv.
        destruct (Hpres s3 H3) as [_ Hfin].
        rewrite Hrun in Hfin. exact Hfin.
    - (* no web fallback *)
      unfold bind at 1, ret at 1 in Hbody.
      assert (H2 : inv (state_machine s2) (fun l => web_calls l = n) s2) by done.
      assert (Hpres : preserves (inv (state_machine s2) (fun l => web_calls l = n))
                (try_except (answer_and_learn question (JObj rd) (JObj ev) JNull)
                   (fun e => make_response (error_answer e) (Finite 0) [] "error"))).
      { apply preserves_try; [|intros e; apply error_response_inv].
        apply answer_and_learn_inv. apply Hother. }
      destruct (Hpres s2 H2) as [_ Hfin]. unfold try_except in Hfin.
      rewrite Hbody in Hrun. rewrite Hrun in Hfin. cbn in Hfin. lia. }
  split; [|split].
  - rewrite Hcount, <- Hdecide. destruct use_web; [done|]. split; [lia|done].
  - rewrite Hcount. destruct use_web.
    + split; [lia|]. intros [-> Hle].
      destruct Hdecide as [Hd _]. destruct (Hd eq_refl) as [?|Hlt]; [done|].
      by apply Qlt_not_le in Hlt.
    + split; [|done]. intros _. destruct u.
      * split; [done|]. destruct (Qle_bool 0.7 c) eqn:E.
        -- by apply Qle_bool_iff.
        -- destruct Hdecide as [_ Hd]. apply Qle_bool_false_lt in E.
           by specialize (Hd (or_intror E)).
      * destruct Hdecide as [_ Hd]. by specialize (Hd (or_introl eq_refl)).
  - intros -> Hle.
    assert (use_web = false) as Hno.
    { subst use_web. cbn. apply negb_false_iff. by apply Qle_bool_iff. }
    rewrite Hno in Hbody. unfold bind at 1, ret at 1 in Hbody.
    destruct (answer_and_learn question (JObj rd) (JObj ev) JNull s2)
      as [[r|e] s4] eqn:Ha.
    + left. destruct (Hok r s4 Hbody) as [-> _].
      by eapply answer_without_web_results.
    + right. destruct (Herr e s4 Hbody) as (_ & _ & _ & Hm).
      split; [exact Hm|]. by exists e, s4.
Qed.

(** *** The search method of a synthesized answer *)

(** The answer's search method is "vector_db" or "combined", whatever
    contributed: the "web_search" branch of line 252 is never taken, since the
    source list has just received its "web_search" tag. *)
Lemma final_answer_methods q rd ev wr :
  returns (fun f => fa_search_method f = "vector_db" \/ fa_search_method f = "combined")
          (_generate_final_answer q rd ev wr).
Proof.
  unfold Agent._generate_final_answer.
  apply returns_bind; intros games.
  apply returns_bind; intros [parts srcs].
  apply returns_bind; intros found.
  apply (returns_bind_with
           (fun w : list string * list string * string =>
              w.2 = "vector_db" \/ w.2 = "combined")).
  { destruct (truthy found); [|apply returns_ret; by left].
    do 4 (apply returns_bind; intros ?).
    apply returns_ret. cbn. right. by destruct srcs. }
  intros [[parts' srcs'] method] Hm. cbn in Hm.
  apply returns_bind; intros description.
  apply returns_bind; intros answer_text.
  by apply returns_ret.
Qed.

End Pipeline.

(** *** Concrete runs *)

Definition mock_game : json :=
  JObj [("name", JStr "Mock Game"); ("platform", JStr "MockPlatform");
        ("genre", JStr "Adventure"); ("publisher", JStr "MockPub");
        ("description", JStr "A mock game used for tests");
        ("year_of_release", JNum 2000)].

Definition mock_retrieval : list (string * json) :=
  [("games", JArr [mock_game]); ("query", JStr "When was Mock Game released?");
   ("total_results", JNum 1); ("confidence_score", JNum 0.8);
   ("search_method", JStr "vector_db")].

Definition mock_evaluation : list (string * json) :=
  [("useful", JBool true); ("description", JStr "Mock evaluation: useful");
   ("confidence", JNum 0.9); ("recommendation", JStr "proceed_with_answer")].

Definition mock_web_results : json :=
  JObj [("question", JStr "When was Mock Game released?");
        ("results", JArr [JObj [("title", JStr "Mock Result");
                                ("url", JStr "https://example.com");
                                ("content", JStr "Mock content about Pokemon");
                                ("relevance_score", JNum 0.9)]]);
        ("answer", JStr "Mock answer"); ("total_results", JNum 1);
        ("search_method", JStr "web_search")].

Definition mock_str (v : json) : string :=
  match v with JStr s => s | _ => "?" end.

Definition mock_float (w : string) : option pyfloat :=
  if String.eqb w "0.9" then Some (Finite 0.9) else None.

Definition mock_chat (s : st) (prompt : string) : result (option string) :=
  Ok (Some "Mock Game was released in 2000. Confidence: 0.9").

(** A fresh agent: an idle machine constructed before the clock's first
    reading here, bound to db/state.json; empty store, memory and history. *)
Definition fresh_agent : st :=
  St (StateMachine.Machine StateMachine.IDLE
        (Timestamp "2024-01-01T00:00:00+00:00" (-1)) (Some "db/state.json"))
     (VectorStore.Store "db" [])
     (Memory.Mem "db/memory.json" ∅ ∅ [] ∅ [])
     [] []
     (Os (fun n => Timestamp ("t" ++ pretty n) (Z.of_nat n)) 0 (fun _ => true) ∅).

(** The agent whose retrieval finds the mock game and whose evaluation says
    useful, confidence 0.9. *)
Definition confident_query : M st AgentResponse :=
  process_query
    (fun _ _ _ => Ok (Doc (JObj mock_retrieval)))
    (fun _ _ _ => Ok (Doc (JObj mock_evaluation)))
    (fun _ _ _ => Ok (Doc mock_web_results))
    mock_chat mock_str mock_float (fun x => x) (fun _ _ => None) (fun _ => 0%Z)
    "When was Mock Game released?".

(** The agent whose retrieval finds nothing, so that only the web
    contributes. *)
Definition web_only_query : M st AgentResponse :=
  process_query
    (fun _ q _ => Ok (Doc (Retrieval.empty_envelope q)))
    (fun _ _ _ => Ok (Doc (EvaluationFacts.search_web_report
                             "No games were retrieved from the database")))
    (fun _ _ _ => Ok (Doc mock_web_results))
    mock_chat mock_str mock_float (fun x => x) (fun _ _ => None) (fun _ => 0%Z)
    "When was Mock Game released?".

Lemma web_fallback_rule_witness :
  exists response s',
    confident_query fresh_agent = (Ok response, s') /\
    web_calls (calls s') = web_calls (calls fresh_agent) /\
    search_method response = "vector_db".
Proof.
  destruct (web_fallback_rule
              (fun _ _ _ => Ok (Doc (JObj mock_retrieval)))
              (fun _ _ _ => Ok (Doc (JObj mock_evaluation)))
              (fun _ _ _ => Ok (Doc mock_web_results))
              mock_chat mock_str mock_float (fun x => x) (fun _ _ => None) (fun _ => 0%Z)
              "When was Mock Game released?" fresh_agent
              mock_retrieval mock_evaluation true 0.9
              eq_refl eq_refl eq_refl eq_refl)
    as (response & s' & Hrun & _ & [_ Hnone] & Hmethod).
  exists response, s'. split; [exact Hrun|].
  assert (Hle : (0.7 <= 0.9)%Q) by (by apply Qle_bool_iff).
  split; [exact (Hnone (conj eq_refl Hle))|].
  destruct (Hmethod eq_refl Hle) as [Hm|[Hm _]]; [exact Hm|].
  exfalso. apply (f_equal fst) in Hrun. vm_compute in Hrun.
  injection Hrun as <-. discriminate Hm.
Defined.

(** C4 (what the code does). With no local entry and one web result, the
    answer's only source is "web_search" and yet its search method is
    "combined". *)
Example web_only_answer_is_combined :
  match web_only_query fresh_agent with
  | (Ok response, _) =>
      sources response = ["web_search"] /\ search_method response = "combined"
  | (Raise _, _) => False
  end.
Proof. vm_compute. split; reflexivity. Qed.

(** What C5 as stated entails: the machine's last transition, the one back
    to Idle, took place during the call, so its time is a clock reading taken
    during the call. *)
Definition driven_through_cycle (s s' : st) : Prop :=
  exists n, clock_reads (sys s) <= n < clock_reads (sys s') /\
            StateMachine.state (state_machine s') = StateMachine.IDLE /\
            StateMachine.last_transition_time (state_machine s')
            = wall_clock (sys s) n.

(** On a fresh agent a successful query calls the retrieval gateway, the
    evaluation gateway and the text-generation service, and leaves the
    machine with its construction-time timestamp: no transition was made, and
    the state file written by the final persist says idle at that old time. *)
Lemma process_query_makes_no_transition :
  let s' := snd (confident_query fresh_agent) in
  ~ driven_through_cycle fresh_agent s' /\
  (exists response, fst (confident_query fresh_agent) = Ok response /\
                    search_method response = "vector_db") /\
  length (calls s') = 3 /\
  StateMachine.last_transition_time (state_machine s')
    = Timestamp "2024-01-01T00:00:00+00:00" (-1) /\
  files (sys s') !! "db/state.json"
    = Some (Doc (JObj [("state", JStr "idle");
                       ("last_transition_time", JStr "2024-01-01T00:00:00+00:00")])).
Proof.
  cbn zeta.
  assert (Ht : StateMachine.last_transition_time
                 (state_machine (snd (confident_query fresh_agent)))
               = Timestamp "2024-01-01T00:00:00+00:00" (-1))
    by (vm_compute; reflexivity).
  split; [|split; [|split; [|split]]].
  - intros (n & _ & _ & Hn). rewrite Ht in Hn. cbn in Hn.
    injection Hn as _ Hn. lia.
  - eexists. split; [vm_compute; reflexivity | reflexivity].
  - vm_compute. reflexivity.
  - exact Ht.
  - vm_compute. reflexivity.
Qed.

(** *** A new agent and the state file *)

Lemma state_file_not_empty (dir : string) : dir <> "" -> path_join dir "state.json" <> "".
Proof.
  intros Hd. destruct (path_join_cases dir "state.json") as [[? _]|[[_ ->]|[_ ->]]];
    [done| |]; intros H; by apply string_app_nil_inv in H as [? _].
Qed.

(** X22. The state survives the agent: when the machine of an agent
    over a store with persist directory [dir] makes an allowed transition
    (the state file [dir]/state.json being writable), an agent constructed
    afterwards over the same directory starts in the state the first one
    reached, [get_state()] says so, and its machine is bound to the same
    file; it carries the time of that transition whenever [fromisoformat]
    reads the printed time back. *)
Theorem new_agent_resumes_state
    (fromisoformat : string -> option timestamp)
    (dir : string) (coll : list VectorStore.chroma_record)
    (target : StateMachine.AgentState)
    (m : StateMachine.AgentStateMachine) (o : os) :
  dir <> "" ->
  StateMachine._persist_file m = Some (path_join dir "state.json") ->
  writable o (path_join dir "state.json") = true ->
  StateMachine.allowed_edge (StateMachine.state m) target ->
  exists s1 m2 o2,
    StateMachine.transition target (StateMachine.St m o) = (Ok true, s1) /\
    init_state_machine fromisoformat (VectorStore.Store dir coll) (StateMachine.sys s1)
      = (Ok m2, o2) /\
    StateMachine.state m2 = target /\
    StateMachine._persist_file m2 = Some (path_join dir "state.json") /\
    StateMachine.get_state (StateMachine.St m2 o2)
      = (Ok (StateMachine.value target), StateMachine.St m2 o2) /\
    files o2 = files (StateMachine.sys s1) /\
    (let t := StateMachine.last_transition_time (StateMachine.machine s1) in
     iso t <> "" -> fromisoformat (iso t) = Some t ->
     m2 = StateMachine.machine s1).
Proof.
  intros Hd Hp Hw He.
  pose proof (state_file_not_empty dir Hd) as Hne.
  set (state_file := path_join dir "state.json") in *.
  set (t := wall_clock o (clock_reads o)).
  set (m1 := StateMachine.Machine target t (Some state_file)).
  set (o1 := Os (wall_clock o) (S (clock_reads o)) (writable o)
                (<[state_file := Doc (StateMachine.state_document m1)]> (files o))).
  assert (Htrans : StateMachine.transition target (StateMachine.St m o)
                   = (Ok true, StateMachine.St m1 o1)).
  { rewrite StateMachineFacts.transition_run.
    apply StateMachineFacts.allowed_edge_iff in He.
    rewrite bool_decide_eq_true_2 by done.
    rewrite StateMachineFacts._persist_run. cbn [StateMachine._persist_file].
    rewrite Hp. destruct (String.eqb_spec state_file ""); [done|].
    unfold StateMachineFacts.after_reading at 1. cbn [writable]. by rewrite Hw. }
  exists (StateMachine.St m1 o1).
  cbn [StateMachine.sys StateMachine.machine StateMachine.last_transition_time].
  assert (Hf : files o1 !! state_file = Some (Doc (StateMachine.state_document m1)))
    by (subst o1; cbn [files]; by rewrite lookup_insert_eq).
  assert (Hinit : exists m2 o2,
    init_state_machine fromisoformat (VectorStore.Store dir coll) o1 = (Ok m2, o2) /\
    StateMachine.state m2 = target /\
    StateMachine._persist_file m2 = Some state_file /\
    files o2 = files o1 /\
    (iso t <> "" -> fromisoformat (iso t) = Some t -> m2 = m1)).
  { unfold init_state_machine, bind at 1, StateMachine.__init__, bind at 1, now, ret.
    cbn [VectorStore.persist_directory].
    destruct (String.eqb_spec dir ""); [done|]. cbn [negb].
    fold state_file. unfold try_except, bind at 1, StateMachine.on_sys, zoom,
      path_exists, gets. cbn [StateMachine.sys StateMachine.machine].
    set (o1' := Os (wall_clock o1) (S (clock_reads o1)) (writable o1) (files o1)).
    assert (Hf' : files o1' !! state_file = Some (Doc (StateMachine.state_document m1)))
      by exact Hf.
    rewrite bool_decide_eq_true_2 by (by eexists).
    destruct (StateMachineFacts.load_from_file_document fromisoformat state_file m1
                (StateMachine.Machine StateMachine.IDLE
                   (wall_clock o1 (clock_reads o1)) None) o1' Hf')
      as (s2 & Hrun & Hstate & Hfile & Hfiles & Hsome & _).
    rewrite Hrun. eexists _, _. split; [reflexivity|].
    split; [exact Hstate|]. split; [exact Hfile|]. split; [exact Hfiles|].
    intros Hiso Hparse. by rewrite (Hsome Hiso Hparse). }
  destruct Hinit as (m2 & o2 & Hrun & Hstate & Hfile & Hfiles & Hsame).
  exists m2, o2. split; [exact Htrans|]. split; [exact Hrun|].
  split; [exact Hstate|]. split; [exact Hfile|].
  split; [unfold StateMachine.get_state, bind, gets, ret; cbn; by rewrite Hstate|].
  split; [exact Hfiles|exact Hsame].
Qed.

Lemma new_agent_resumes_state_witness :
  exists s1 m2 o2,
    StateMachine.transition StateMachine.RETRIEVING StateMachineFacts.bound_machine
      = (Ok true, s1) /\
    init_state_machine (fun _ => None) (VectorStore.Store "db" []) (StateMachine.sys s1)
      = (Ok m2, o2) /\
    StateMachine.get_state (StateMachine.St m2 o2)
      = (Ok "retrieving", StateMachine.St m2 o2).
Proof.
  destruct (new_agent_resumes_state (fun _ => None) "db" []
              StateMachine.RETRIEVING
              (StateMachine.machine StateMachineFacts.bound_machine)
              (StateMachine.sys StateMachineFacts.bound_machine))
    as (s1 & m2 & o2 & H1 & H2 & _ & _ & H3 & _);
    [discriminate | reflexivity | reflexivity | constructor |].
  exists s1, m2, o2. split; [exact H1|]. split; [exact H2|exact H3].
Defined.
(** *** What a query leaves behind *)

Section Outcomes.

Variable retrieve_game_tool : st -> string -> Z -> result text.
Variable evaluate_retrieval_tool : st -> string -> text -> result text.
Variable game_web_search_tool : st -> string -> Z -> result text.
Variable chat_completion : st -> string -> result (option string).
Variable py_str : json -> string.
Variable float_of_string : string -> option pyfloat.
Variable sha256_hex : string -> string.
Variable chroma_add_error :
  list VectorStore.chroma_record -> VectorStore.chroma_record -> option exn.
Variable py_hash : string -> Z.

Local Abbreviation process_query :=
  (process_query retrieve_game_tool evaluate_retrieval_tool game_web_search_tool
     chat_completion py_str float_of_string sha256_hex chroma_add_error py_hash).
Local Abbreviation process_query_body :=
  (process_query_body retrieve_game_tool evaluate_retrieval_tool game_web_search_tool
     chat_completion py_str float_of_string sha256_hex chroma_add_error py_hash).
Local Abbreviation answer_and_learn :=
  (answer_and_learn chat_completion py_str float_of_string sha256_hex
     chroma_add_error py_hash).
Local Abbreviation _generate_final_answer :=
  (_generate_final_answer chat_completion py_str float_of_string).
Local Abbreviation persist_web_results :=
  (persist_web_results sha256_hex chroma_add_error py_hash).
Local Abbreviation web_fallback := (web_fallback game_web_search_tool).

(** The call log is [l] and the conversation history is [h]. *)
Definition both (l : list call) (h : list json) (s : st) : Prop :=
  calls s = l /\ conversation_history s = h.

(** Discharges [preserves (both l h)] goals for computations that neither
    call a tool nor write the history. *)
Ltac frames :=
  repeat first
    [ apply preserves_ret | apply preserves_raise | apply preserves_gets
    | apply preserves_py_get | apply preserves_py_item | apply preserves_py_len
    | apply preserves_py_slice | apply preserves_py_num | apply preserves_py_iter
    | apply preserves_json_loads
    | apply preserves_zoom; by intros ? ?
    | apply preserves_collect
    | apply preserves_try | apply preserves_bind | apply preserves_for_each
    | match goal with
      | |- forall _, preserves _ _ => intro
      | |- preserves _ (if ?b then _ else _) => destruct b
      | |- preserves _ (let '(_, _) := ?x in _) => destruct x
      | |- preserves _ (match ?x with _ => _ end) => destruct x
      end ].

(** The sources and the search method of a synthesized answer. *)
Definition synthesized (src : list string) (method : string) : Prop :=
  (src = [] /\ method = "vector_db") \/
  (src = ["vector_db"] /\ method = "vector_db") \/
  (src = ["web_search"] /\ method = "combined") \/
  (src = ["vector_db"; "web_search"] /\ method = "combined").

(** The answer made of the text the service generated. *)
Definition spoken (answer_text : option string) : string :=
  match answer_text with
  | Some a => if String.eqb a "" then "No response generated" else a
  | None => "No response generated"
  end.

(** A confidence the response model accepts. *)
Definition valid_confidence (c : pyfloat) : bool :=
  match c with
  | Finite q => Qle_bool 0 q && Qle_bool q 1
  | NonFinite => false
  end.

(** The outcome of [_generate_final_answer] from a state with call log [l]
    and history [h]. *)
Definition generated (l : list call) (h : list json) (wr : json)
    (out : result final_answer * st) : Prop :=
  conversation_history (snd out) = h /\
  match fst out with
  | Ok f =>
      exists p s0 answer_text,
        calls (snd out) = (l ++ [CallChat p])%list /\
        chat_completion s0 p = Ok answer_text /\
        fa_confidence f = answer_confidence float_of_string answer_text /\
        fa_answer f = spoken answer_text /\
        synthesized (fa_sources f) (fa_search_method f) /\
        ("web_search" ∈ fa_sources f -> truthy wr = true)
  | Raise _ =>
      calls (snd out) = l \/ exists p, calls (snd out) = (l ++ [CallChat p])%list
  end.

Lemma generated_raise l h wr e s : both l h s -> generated l h wr (Raise e, s).
Proof. intros [Hl Hh]. split; [done|]. by left. Qed.

Lemma _generate_final_answer_generated q rd ev wr s :
  generated (calls s) (conversation_history s) wr (_generate_final_answer q rd ev wr s).
Proof.
  set (l := calls s). set (h := conversation_history s).
  assert (Hs : both l h s) by done.
  unfold Agent._generate_final_answer.
  apply (bind_cases (both l h) (fun _ => True) (generated l h wr));
    [frames|apply returns_any|done| |apply generated_raise].
  intros games s1 _ Hs1.
  apply (bind_cases (both l h)
           (fun local : list string * list string => local.2 = [] \/ local.2 = ["vector_db"])
           (generated l h wr));
    [destruct (truthy games); frames| |done| |apply generated_raise].
  { destruct (truthy games); [|apply returns_ret; by left].
    do 3 (apply returns_bind; intros ?). apply returns_ret. by right. }
  intros [parts srcs] s2 Hlocal Hs2. cbn [snd] in Hlocal. cbv beta iota.
  apply (bind_cases (both l h) (fun found => truthy found = true -> truthy wr = true)
           (generated l h wr));
    [destruct (truthy wr); frames| |done| |apply generated_raise].
  { destruct (truthy wr) eqn:Hwr; [by intros ? ? ? _ _|].
    apply returns_ret. congruence. }
  intros found s3 Hfound Hs3.
  apply (bind_cases (both l h)
           (fun web : list string * list string * string =>
              synthesized web.1.2 web.2 /\
              ("web_search" ∈ web.1.2 -> truthy found = true))
           (generated l h wr));
    [destruct (truthy found); frames| |done| |apply generated_raise].
  { destruct (truthy found) eqn:Hf.
    - do 4 (apply returns_bind; intros ?). apply returns_ret. cbn [fst snd].
      split; [|done].
      destruct Hlocal as [-> | ->]; cbn; unfold synthesized; tauto.
    - apply returns_ret. cbn [fst snd]. split.
      + destruct Hlocal as [-> | ->]; unfold synthesized; tauto.
      + intros Hin. exfalso.
        destruct Hlocal as [-> | ->];
          [by apply elem_of_nil in Hin|].
        by apply list_elem_of_singleton in Hin. }
  intros [[parts' srcs'] method] s4 [Hsyn Hweb] Hs4. cbn [fst snd] in Hsyn, Hweb.
  cbv beta iota.
  apply (bind_cases (both l h) (fun _ => True) (generated l h wr));
    [frames|apply returns_any|done| |apply generated_raise].
  intros description s5 _ [Hl5 Hh5]. cbv zeta.
  unfold bind, invoke. set (prompt := answer_prompt _ _).
  destruct (chat_completion s5 prompt) as [answer_text|e] eqn:Hchat.
  - split; [exact Hh5|]. cbn [fst snd calls fa_confidence fa_answer fa_sources
                               fa_search_method].
    exists prompt, s5, answer_text. rewrite Hl5.
    split; [done|]. split; [done|]. split; [done|]. split; [done|].
    split; [done|]. intros Hin. by apply Hfound, Hweb.
  - split; [exact Hh5|]. cbn [fst snd calls]. right. exists prompt. by rewrite Hl5.
Qed.

(** The entry a query leaves in the conversation history. *)
Definition history_entry (question answer time : string) : json :=
  JObj [("user", JStr question); ("assistant", JStr answer); ("timestamp", JStr time)].

(** The outcome of the body of [process_query] from the answer on. *)
Definition answered (question : string) (l : list call) (h : list json) (wr : json)
    (out : result AgentResponse * st) : Prop :=
  match fst out with
  | Ok r =>
      exists p s0 answer_text time,
        conversation_history (snd out) = (h ++ [history_entry question (answer r) time])%list /\
        calls (snd out) = (l ++ [CallChat p])%list /\
        chat_completion s0 p = Ok answer_text /\
        answer_confidence float_of_string answer_text = Finite (confidence r) /\
        valid_confidence (Finite (confidence r)) = true /\
        answer r = spoken answer_text /\
        synthesized (sources r) (search_method r) /\
        ("web_search" ∈ sources r -> truthy wr = true)
  | Raise _ =>
      conversation_history (snd out) = h /\
      (calls (snd out) = l \/ exists p, calls (snd out) = (l ++ [CallChat p])%list)
  end.

Lemma make_response_run (a : string) (c : pyfloat) (src : list string) (method : string)
    (s : st) :
  make_response a c src method s
  = if valid_confidence c then
      match c with
      | Finite q =>
          (Ok (Response a q src method (wall_clock (sys s) (clock_reads (sys s)))),
           St (state_machine s) (vector_store s) (advanced_memory_system s)
              (conversation_history s) (calls s)
              (Os (wall_clock (sys s)) (S (clock_reads (sys s))) (writable (sys s))
                  (files (sys s))))
      | NonFinite => (Raise (Exn "ValidationError" "validation error for AgentResponse"), s)
      end
    else (Raise (Exn "ValidationError" "validation error for AgentResponse"), s).
Proof.
  unfold make_response, valid_confidence. destruct c as [q|]; [|reflexivity].
  by destruct (_ && _).
Qed.

Lemma answer_and_learn_answered q rd ev wr s :
  answered q (calls s) (conversation_history s) wr (answer_and_learn q rd ev wr s).
Proof.
  set (l := calls s). set (h := conversation_history s).
  unfold Agent.answer_and_learn. unfold bind at 1.
  pose proof (_generate_final_answer_generated q rd ev wr s) as Hgen. fold l h in Hgen.
  destruct (_generate_final_answer q rd ev wr s) as [[f|e] s1];
    destruct Hgen as [Hh1 Hgen]; cbn [fst snd] in Hh1, Hgen; [|by split].
  destruct Hgen as (p & s0 & answer_text & Hl1 & Hchat & Hconf & Hans & Hsyn & Hweb).
  unfold bind at 1. rewrite make_response_run.
  destruct (valid_confidence (fa_confidence f)) eqn:Hvalid;
    [|split; [done|right; by exists p]].
  destruct (fa_confidence f) as [c|] eqn:Hc; [|discriminate].
  set (r := Response _ _ _ _ _). set (s2 := St _ _ _ _ _ _).
  assert (Hs2 : both (l ++ [CallChat p])%list h s2) by done.
  (* the side effects that follow keep the call log and the history *)
  assert (Hnext : forall (m : M st unit) (k : M st AgentResponse) s3,
            preserves (both (l ++ [CallChat p])%list h)
              (try_except m (fun _ => ret tt)) ->
            both (l ++ [CallChat p])%list h s3 ->
            (forall s4, both (l ++ [CallChat p])%list h s4 ->
                        answered q l h wr (k s4)) ->
            answered q l h wr ((try_except m (fun _ => ret tt) ;;; k) s3)).
  { intros m k s3 Hm Hs3 Hk. unfold bind. specialize (Hm s3 Hs3).
    destruct (try_except_unit_total m s3) as [s4 E]. rewrite E in Hm |- *.
    by apply Hk. }
  unfold Agent.persist_web_results.
  apply Hnext; [frames|done|].
  intros s3 Hs3.
  apply Hnext; [frames|done|].
  intros s4 [Hl4 Hh4].
  unfold bind at 1, on_sys at 1, zoom at 1, now at 1.
  unfold bind at 1, append_history at 1, modify at 1.
  cbn [state_machine vector_store advanced_memory_system conversation_history calls sys].
  set (time := iso (wall_clock (sys s4) (clock_reads (sys s4)))).
  set (s5 := St _ _ _ _ _ _).
  assert (Hs5 : both (l ++ [CallChat p])%list
                  (h ++ [history_entry q (fa_answer f) time])%list s5).
  { split; [exact Hl4|]. subst s5. cbn [conversation_history]. by rewrite Hh4. }
  unfold bind at 1.
  assert (Hpersist : preserves (both (l ++ [CallChat p])%list
                                  (h ++ [history_entry q (fa_answer f) time])%list)
                       (try_except (on_machine StateMachine.persist) (fun _ => ret tt)))
    by frames.
  specialize (Hpersist s5 Hs5).
  destruct (try_except_unit_total (on_machine StateMachine.persist) s5) as [s6 E6].
  rewrite E6 in Hpersist |- *. cbn [snd] in Hpersist. destruct Hpersist as [Hl6 Hh6].
  unfold ret. unfold answered. cbn [fst snd].
  exists p, s0, answer_text, time. subst r. cbn [answer confidence sources search_method].
  split; [exact Hh6|]. split; [exact Hl6|]. split; [exact Hchat|].
  split; [by rewrite <- Hconf|]. split; [exact Hvalid|]. split; [exact Hans|].
  split; [exact Hsyn|exact Hweb].
Qed.

(** The calls of a query that fails on the way, [retrieved] being what the
    retrieval returned: the retrieval first, then the evaluation of the text
    it returned, then the web search if any, then the text generation. *)
Definition partial_trace (question : string) (retrieved : result text)
    (trace : list call) : Prop :=
  trace = [CallRetrieve question 5] \/
  exists rt,
    retrieved = Ok rt /\
    (trace = [CallRetrieve question 5; CallEvaluate question rt] \/
     trace = [CallRetrieve question 5; CallEvaluate question rt;
              CallWebSearch question 3] \/
     (exists p, trace = [CallRetrieve question 5; CallEvaluate question rt; CallChat p]) \/
     (exists p, trace = [CallRetrieve question 5; CallEvaluate question rt;
                         CallWebSearch question 3; CallChat p])).

(** The calls of a query that is answered. *)
Definition full_trace (question : string) (retrieved : result text)
    (trace : list call) (web : bool) : Prop :=
  exists rt p,
    retrieved = Ok rt /\
    trace = ([CallRetrieve question 5; CallEvaluate question rt]
             ++ (if web then [CallWebSearch question 3] else [])
             ++ [CallChat p])%list.

(** The outcome of the body of [process_query] from a state with call log
    [l] and history [h]. *)
Definition queried (question : string) (retrieved : result text)
    (l : list call) (h : list json) (out : result AgentResponse * st) : Prop :=
  exists trace,
    calls (snd out) = (l ++ trace)%list /\
    match fst out with
    | Ok r =>
        exists web s0 p answer_text time,
          full_trace question retrieved trace web /\
          ("web_search" ∈ sources r -> web = true) /\
          In (CallChat p) trace /\
          conversation_history (snd out)
            = (h ++ [history_entry question (answer r) time])%list /\
          chat_completion s0 p = Ok answer_text /\
          answer_confidence float_of_string answer_text = Finite (confidence r) /\
          valid_confidence (Finite (confidence r)) = true /\
          answer r = spoken answer_text /\
          synthesized (sources r) (search_method r)
    | Raise _ =>
        conversation_history (snd out) = h /\ partial_trace question retrieved trace
    end.

Lemma process_query_body_queried (q : string) (s : st) :
  queried q (retrieve_game_tool s q 5) (calls s) (conversation_history s)
    (process_query_body q s).
Proof.
  set (l := calls s). set (h := conversation_history s).
  unfold Agent.process_query_body.
  unfold bind at 1, invoke at 1.
  destruct (retrieve_game_tool s q 5) as [rt|e].
  2:{ exists [CallRetrieve q 5]. split; [done|]. split; [done|]. by left. }
  set (R := CallRetrieve q 5).
  assert (Hraise1 : forall e s1, both (l ++ [R])%list h s1 ->
                                 queried q (Ok rt) l h (Raise e, s1)).
  { intros e s1 [Hl Hh]. exists [R]. split; [done|]. split; [done|]. by left. }
  apply (bind_cases (both (l ++ [R])%list h) (fun _ => True) (queried q (Ok rt) l h));
    [frames|apply returns_any|done| |exact Hraise1].
  intros rd s1 _ Hs1.
  apply (bind_cases (both (l ++ [R])%list h) (fun _ => True) (queried q (Ok rt) l h));
    [frames|apply returns_any|done| |exact Hraise1].
  intros _ s2 _ [Hl2 Hh2].
  unfold bind at 1, invoke at 1. set (E := CallEvaluate q rt).
  assert (Hraise2 : forall e s1, both (l ++ [R; E])%list h s1 ->
                                 queried q (Ok rt) l h (Raise e, s1)).
  { intros e s3 [Hl Hh]. exists [R; E]. split; [done|]. split; [done|].
    right. exists rt. split; [done|]. by left. }
  destruct (evaluate_retrieval_tool s2 q rt) as [et|e].
  2:{ apply Hraise2. split; [|done]. cbn [calls]. by rewrite Hl2, <- app_assoc. }
  set (s3 := St _ _ _ _ _ _).
  assert (Hs3 : both (l ++ [R; E])%list h s3).
  { split; [|done]. subst s3. cbn [calls]. by rewrite Hl2, <- app_assoc. }
  apply (bind_cases (both (l ++ [R; E])%list h) (fun _ => True) (queried q (Ok rt) l h));
    [frames|apply returns_any|done| |exact Hraise2].
  intros ev s4 _ Hs4.
  apply (bind_cases (both (l ++ [R; E])%list h) (fun _ => True) (queried q (Ok rt) l h));
    [frames|apply returns_any|done| |exact Hraise2].
  intros _ s5 _ Hs5.
  apply (bind_cases (both (l ++ [R; E])%list h) (fun _ => True) (queried q (Ok rt) l h));
    [frames|apply returns_any|done| |exact Hraise2].
  intros _ s6 _ Hs6.
  apply (bind_cases (both (l ++ [R; E])%list h) (fun _ => True) (queried q (Ok rt) l h));
    [unfold needs_web_search, below_threshold; frames|apply returns_any|done|
    |exact Hraise2].
  intros use_web s7 _ [Hl7 Hh7].
  (* from the answer on *)
  assert (Hanswer : forall (web : bool) wr s8,
            both (l ++ [R; E] ++ (if web then [CallWebSearch q 3] else []))%list h s8 ->
            (truthy wr = true -> web = true) ->
            queried q (Ok rt) l h (answer_and_learn q rd ev wr s8)).
  { intros web wr s8 [Hl8 Hh8] Hwr.
    pose proof (answer_and_learn_answered q rd ev wr s8) as Ha.
    rewrite Hl8, Hh8 in Ha. unfold answered in Ha.
    destruct (answer_and_learn q rd ev wr s8) as [[r|e] s9]; cbn [fst snd] in Ha.
    - destruct Ha as (p & s0 & answer_text & time & Hh9 & Hl9 & Hchat & Hconf & Hvalid
                      & Hans & Hsyn & Hweb).
      exists ([R; E] ++ (if web then [CallWebSearch q 3] else []) ++ [CallChat p])%list.
      split; [cbn [snd]; rewrite Hl9; by rewrite <- !app_assoc|].
      cbn [fst snd]. exists web, s0, p, answer_text, time.
      split; [by exists rt, p|]. split; [intros Hin; by apply Hwr, Hweb|].
      split; [destruct web; cbn; tauto|]. done.
    - destruct Ha as [Hh9 [Hl9|[p Hl9]]].
      + exists ([R; E] ++ (if web then [CallWebSearch q 3] else []))%list.
        split; [done|]. split; [done|]. right. exists rt. split; [done|].
        destruct web; cbn; tauto.
      + exists ([R; E] ++ (if web then [CallWebSearch q 3] else []) ++ [CallChat p])%list.
        split; [cbn [snd]; rewrite Hl9; by rewrite <- !app_assoc|].
        split; [done|]. right. exists rt. split; [done|].
        destruct web; cbn; [do 3 right|do 2 right; left]; by exists p. }
  destruct use_web.
  - unfold bind at 1, Agent.web_fallback, bind at 1, invoke at 1.
    set (W := CallWebSearch q 3). set (s8 := St _ _ _ _ _ _).
    assert (Hs8 : both (l ++ [R; E; W])%list h s8).
    { split; [|done]. subst s8. cbn [calls]. by rewrite Hl7, <- app_assoc. }
    assert (Hraise3 : forall e s1, both (l ++ [R; E; W])%list h s1 ->
                                   queried q (Ok rt) l h (Raise e, s1)).
    { intros e s9 [Hl Hh]. exists [R; E; W]. split; [done|]. split; [done|].
      right. exists rt. split; [done|]. right. by left. }
    destruct (game_web_search_tool s7 q 3) as [wt|e]; [|by apply Hraise3].
    assert (Hread : preserves (both (l ++ [R; E; W])%list h)
              (web_results <- @json_loads st wt ;;
               py_get web_results "total_results" (JNum 0) ;;; ret web_results))
      by frames.
    specialize (Hread s8 Hs8).
    destruct ((web_results <- @json_loads st wt ;;
               py_get web_results "total_results" (JNum 0) ;;; ret web_results) s8)
      as [[wr|e] s9]; cbn [snd] in Hread; [|by apply Hraise3].
    by apply (Hanswer true).
  - unfold bind at 1, ret at 1. apply (Hanswer false); [|done].
    split; [|done]. by rewrite Hl7.
Qed.

(** The outcome of [process_query]. *)
Lemma process_query_outcome (question : string) (s : st) :
  exists response s' trace,
    process_query question s = (Ok response, s') /\
    calls s' = (calls s ++ trace)%list /\
    ((exists e s1,
        process_query_body question s = (Raise e, s1) /\
        answer response = error_answer e /\
        confidence response = 0%Q /\
        sources response = [] /\
        search_method response = "error" /\
        conversation_history s' = conversation_history s /\
        partial_trace question (retrieve_game_tool s question 5) trace) \/
     (process_query_body question s = (Ok response, s') /\
      exists web s0 p answer_text time,
        full_trace question (retrieve_game_tool s question 5) trace web /\
        ("web_search" ∈ sources response -> web = true) /\
        In (CallChat p) trace /\
        conversation_history s'
          = (conversation_history s
             ++ [history_entry question (answer response) time])%list /\
        chat_completion s0 p = Ok answer_text /\
        answer_confidence float_of_string answer_text = Finite (confidence response) /\
        valid_confidence (Finite (confidence response)) = true /\
        answer response = spoken answer_text /\
        synthesized (sources response) (search_method response))).
Proof.
  pose proof (process_query_body_queried question s) as (trace & Hl & Hq).
  unfold Agent.process_query, try_except.
  destruct (process_query_body question s) as [[r|e] s1]; cbn [fst snd] in Hl, Hq.
  - exists r, s1, trace. split; [done|]. split; [done|]. right. by split.
  - rewrite error_response_run. destruct Hq as [Hh Hp].
    eexists _, _, trace. split; [reflexivity|]. cbn [calls conversation_history].
    split; [done|]. left. exists e, s1. by repeat split.
Qed.

Lemma synthesized_not_error (src : list string) (method : string) :
  synthesized src method -> method <> "error" /\ method <> "web_search".
Proof. intros [[_ ->]|[[_ ->]|[[_ ->]|[_ ->]]]]; by split. Qed.

Lemma partial_trace_length (q : string) (retrieved : result text) (trace : list call) :
  partial_trace q retrieved trace -> (1 <= length trace <= 4)%nat.
Proof.
  intros [->|[rt [_ [->|[->|[[p ->]|[p ->]]]]]]]; cbn; lia.
Qed.

Lemma full_trace_length (q : string) (retrieved : result text) (trace : list call)
    (web : bool) :
  full_trace q retrieved trace web -> (3 <= length trace <= 4)%nat.
Proof. intros (rt & p & _ & ->). destruct web; cbn; lia. Qed.

(** X23. A query that is answered appends exactly one entry to the
    conversation history, holding the question, the answer of the response
    and a time stamp; a query that ends in the error response leaves the
    history as it was. Earlier entries are never touched. *)
Theorem process_query_history (question : string) (s : st) :
  exists response s',
    process_query question s = (Ok response, s') /\
    (search_method response = "error" ->
       conversation_history s' = conversation_history s) /\
    (search_method response <> "error" ->
       exists time,
         conversation_history s'
         = (conversation_history s
            ++ [history_entry question (answer response) time])%list) /\
    (exists new, conversation_history s' = (conversation_history s ++ new)%list /\
                 (length new <= 1)%nat).
Proof.
  destruct (process_query_outcome question s) as (response & s' & trace & Hrun & Hl & H).
  exists response, s'. split; [exact Hrun|].
  destruct H as [(e & s1 & _ & _ & _ & _ & Hm & Hh & _)
                |(_ & web & s0 & p & answer_text & time & _ & _ & _ & Hh & _ & _ & _ & _ & Hsyn)].
  - split; [done|]. split; [intros Hne; by destruct Hne|].
    exists []. split; [by rewrite app_nil_r|cbn; lia].
  - apply synthesized_not_error in Hsyn as [Hne _].
    split; [done|]. split; [by exists time|]. eexists [_]. split; [exact Hh|cbn; lia].
Qed.

(** X24. The calls a query makes, in order: the retrieval with limit 5,
    the evaluation of the very text the retrieval returned, the web search
    with limit 3 if any, and one text generation; at most four calls, each
    tool at most once. An answered query made all of them (the web search or
    not); a query that ends in the error response stopped after one of
    them. *)
Theorem process_query_call_order (question : string) (s : st) :
  exists response s' trace,
    process_query question s = (Ok response, s') /\
    calls s' = (calls s ++ trace)%list /\
    (1 <= length trace <= 4)%nat /\
    head trace = Some (CallRetrieve question 5) /\
    (search_method response = "error" ->
       partial_trace question (retrieve_game_tool s question 5) trace) /\
    (search_method response <> "error" ->
       exists web, full_trace question (retrieve_game_tool s question 5) trace web).
Proof.
  destruct (process_query_outcome question s) as (response & s' & trace & Hrun & Hl & H).
  exists response, s', trace. split; [exact Hrun|]. split; [exact Hl|].
  destruct H as [(e & s1 & _ & _ & _ & _ & Hm & _ & Hp)
                |(_ & web & s0 & p & answer_text & time & Hf & _ & _ & _ & _ & _ & _ & _ & Hsyn)].
  - split; [by apply partial_trace_length in Hp|].
    split; [|by split; [|intros Hne; by destruct Hne]].
    by destruct Hp as [->|[rt [_ [->|[->|[[p ->]|[p ->]]]]]]].
  - apply synthesized_not_error in Hsyn as [Hne _].
    split; [apply full_trace_length in Hf; lia|].
    split; [by destruct Hf as (rt & p' & _ & ->)|].
    split; [done|]. by exists web.
Qed.

(** X25. The sources and the search method of every response: no
    sources with "error" or "vector_db", the source "vector_db" alone with
    "vector_db", and "web_search" (alone or after "vector_db") with
    "combined"; the method "web_search" never occurs. A response names the
    source "web_search" only if this query called the web search tool. *)
Theorem response_sources_and_method (question : string) (s : st) :
  exists response s' trace,
    process_query question s = (Ok response, s') /\
    calls s' = (calls s ++ trace)%list /\
    ((sources response = [] /\ search_method response = "error") \/
     synthesized (sources response) (search_method response)) /\
    search_method response <> "web_search" /\
    ("web_search" ∈ sources response -> In (CallWebSearch question 3) trace).
Proof.
  destruct (process_query_outcome question s) as (response & s' & trace & Hrun & Hl & H).
  exists response, s', trace. split; [exact Hrun|]. split; [exact Hl|].
  destruct H as [(e & s1 & _ & _ & _ & Hsrc & Hm & _ & _)
                |(_ & web & s0 & p & answer_text & time & Hf & Hweb & _ & _ & _ & _ & _ & _ & Hsyn)].
  - split; [by left|]. split; [by rewrite Hm|].
    rewrite Hsrc. intros Hin. by apply elem_of_nil in Hin.
  - split; [by right|]. split; [by apply synthesized_not_error in Hsyn as [_ ?]|].
    intros Hin. specialize (Hweb Hin). subst web.
    destruct Hf as (rt & p' & _ & ->). cbn. tauto.
Qed.


(** X27. When the generated text reports a confidence outside
    0..1 (or one that is not a finite number), no query is answered: each one
    ends in the error response, with confidence 0, no sources and the
    conversation history unchanged. *)
Theorem out_of_range_confidence_fails (a : string) :
  (forall s p, chat_completion s p = Ok (Some a)) ->
  valid_confidence (answer_confidence float_of_string (Some a)) = false ->
  forall question s,
    exists response s',
      process_query question s = (Ok response, s') /\
      search_method response = "error" /\
      confidence response = 0%Q /\
      sources response = [] /\
      conversation_history s' = conversation_history s.
Proof.
  intros Hchat Hinvalid question s.
  destruct (process_query_outcome question s) as (response & s' & trace & Hrun & Hl & H).
  exists response, s'. split; [exact Hrun|].
  destruct H as [(e & s1 & _ & _ & Hc & Hsrc & Hm & Hh & _)
                |(_ & web & s0 & p & answer_text & time & _ & _ & _ & _ & Hchat' & Hconf
                  & Hvalid & _)].
  - done.
  - rewrite Hchat in Hchat'. injection Hchat' as <-.
    rewrite Hconf in Hinvalid. congruence.
Qed.

End Outcomes.
(** A text generation that reports its confidence as a percentage. *)
Definition percent_chat (s : st) (prompt : string) : result (option string) :=
  Ok (Some "Mock Game was released in 2000. Confidence: 95").

Definition percent_float (w : string) : option pyfloat :=
  if String.eqb w "95" then Some (Finite 95) else None.

Lemma out_of_range_confidence_fails_witness :
  exists response s',
    process_query
      (fun _ _ _ => Ok (Doc (JObj mock_retrieval)))
      (fun _ _ _ => Ok (Doc (JObj mock_evaluation)))
      (fun _ _ _ => Ok (Doc mock_web_results))
      percent_chat mock_str percent_float (fun x => x) (fun _ _ => None) (fun _ => 0%Z)
      "When was Mock Game released?" fresh_agent = (Ok response, s') /\
    search_method response = "error" /\
    confidence response = 0%Q /\
    sources response = [] /\
    conversation_history s' = conversation_history fresh_agent.
Proof.
  apply (out_of_range_confidence_fails
           (fun _ _ _ => Ok (Doc (JObj mock_retrieval)))
           (fun _ _ _ => Ok (Doc (JObj mock_evaluation)))
           (fun _ _ _ => Ok (Doc mock_web_results))
           percent_chat mock_str percent_float (fun x => x) (fun _ _ => None)
           (fun _ => 0%Z)
           "Mock Game was released in 2000. Confidence: 95").
  - reflexivity.
  - vm_compute. reflexivity.
Defined.

End AgentFacts.
